(** * ScraperManager: single-flight background scraper runs

    A shallow embedding of [backend/scraper_manager.py] (classes
    [LogCapture] and [ScraperManager]) together with the three Run Store
    functions of [backend/database.py] it calls.

    Python strings are modelled as [string]; every character stands for
    one code point below 256.  Integers are [Z].  Methods that read or
    write [self], the Run Store or the subscribers are computations in a
    state-and-exception monad [M]; Python's [try/except/finally] are the
    combinators [try_except], [try_finally]. *)

From Stdlib Require Import String Ascii List ZArith Bool Lia QArith.
Import ListNotations.

Local Open Scope string_scope.
Local Open Scope Z_scope.

(* ================================================================== *)
(** ** Python string helpers *)

Module PyStr.

(** [str.isspace] on one character, code points below 256. *)
Definition isspace (c : ascii) : bool :=
  let n := nat_of_ascii c in
  ((9 <=? n) && (n <=? 13) || (28 <=? n) && (n <=? 32)
   || (n =? 133) || (n =? 160))%nat.

Definition is_newline (c : ascii) : bool := (nat_of_ascii c =? 10)%nat.

(** [\d] of [re] on code points below 256: the ten ASCII digits. *)
Definition isdigit (c : ascii) : bool :=
  let n := nat_of_ascii c in ((48 <=? n) && (n <=? 57))%nat.

Definition newline : string := String (ascii_of_nat 10) EmptyString.

Fixpoint lstrip (p : ascii -> bool) (s : string) : string :=
  match s with
  | EmptyString => EmptyString
  | String c s' => if p c then lstrip p s' else s
  end.

Fixpoint rstrip (p : ascii -> bool) (s : string) : string :=
  match s with
  | EmptyString => EmptyString
  | String c s' =>
      match rstrip p s' with
      | EmptyString => if p c then EmptyString else String c EmptyString
      | r => String c r
      end
  end.

(** [s.strip()] with no argument strips whitespace at both ends. *)
Definition strip (s : string) : string := rstrip isspace (lstrip isspace s).

(** Truth value of a [str]: non-empty. *)
Definition truthy (s : string) : bool :=
  match s with EmptyString => false | String _ _ => true end.

(** [sep.join(l)]. *)
Fixpoint join (sep : string) (l : list string) : string :=
  match l with
  | [] => EmptyString
  | [x] => x
  | x :: rest => x ++ sep ++ join sep rest
  end.

(** Longest prefix of characters satisfying [p], and what follows. *)
Fixpoint span (p : ascii -> bool) (s : string) : string * string :=
  match s with
  | EmptyString => (EmptyString, EmptyString)
  | String c s' =>
      if p c then let (a, b) := span p s' in (String c a, b)
      else (EmptyString, s)
  end.

(** [Some rest] when [s = pre ++ rest]. *)
Fixpoint strip_prefix (pre s : string) : option string :=
  match pre, s with
  | EmptyString, _ => Some s
  | String a pre', String b s' =>
      if Ascii.eqb a b then strip_prefix pre' s' else None
  | String _ _, EmptyString => None
  end.

End PyStr.

(* ================================================================== *)
(** ** The progress pattern [re.findall(r'Processing story (\d+)', logs)] *)

Module StoryPattern.
Import PyStr.

Definition literal : string := "Processing story ".

(** A match of the pattern anchored at the start of [s]: the literal,
    then one or more digits taken greedily.  Returns the captured group
    and the length of the whole match. *)
Definition match_here (s : string) : option (string * nat) :=
  match strip_prefix literal s with
  | None => None
  | Some rest =>
      match span isdigit rest with
      | (EmptyString, _) => None
      | (ds, _) => Some (ds, (String.length literal + String.length ds)%nat)
      end
  end.

(** [findall] scans left to right; after a match it resumes at the end
    of that match.  [skip] counts the characters of the previous match
    still to be passed over. *)
Fixpoint findall_from (skip : nat) (s : string) : list string :=
  match s with
  | EmptyString => []
  | String c s' =>
      match skip with
      | S k => findall_from k s'
      | O =>
          match match_here s with
          | Some (grp, len) => grp :: findall_from (len - 1) s'
          | None => findall_from 0 s'
          end
      end
  end.

Definition findall (s : string) : list string := findall_from 0 s.

End StoryPattern.

(* ================================================================== *)
(** ** class LogCapture *)

Module LogCapture.
Import PyStr.

(** The lock only serialises access to [lines]; each method body is
    one atomic step of the model. *)
Record t := { lines : list string }.

(** [__init__] *)
Definition init : t := {| lines := [] |}.

(** [write]: [if message.strip(): self.lines.append(message.rstrip('\n'))] *)
Definition write (self : t) (message : string) : t :=
  if truthy (strip message)
  then {| lines := lines self ++ [rstrip is_newline message] |}
  else self.

(** [get_logs]: ['\n'.join(self.lines)] *)
Definition get_logs (self : t) : string := join newline (lines self).

End LogCapture.

(* ================================================================== *)
(** ** Exceptions *)

(** The classes the code distinguishes.  [BaseExceptionOnly] stands for
    the exceptions that are not instances of [Exception] ([SystemExit],
    [KeyboardInterrupt]): no [except Exception] clause catches them. *)
Inductive exn_class :=
| RuntimeError | ImportError | AttributeError | OtherException
| BaseExceptionOnly.

Record exn := { exn_cls : exn_class; exn_msg : string }.

(** [isinstance(e, Exception)] *)
Definition is_Exception (e : exn) : bool :=
  match exn_cls e with BaseExceptionOnly => false | _ => true end.

(** [isinstance(e, ImportError)] *)
Definition is_ImportError (e : exn) : bool :=
  match exn_cls e with ImportError => true | _ => false end.

(** [str(e)] *)
Definition str_exn (e : exn) : string := exn_msg e.

Definition already_running : exn :=
  {| exn_cls := RuntimeError; exn_msg := "Scraper is already running" |}.

(** What [None.<name>] raises. *)
Definition none_has_no_attribute (name : string) : exn :=
  {| exn_cls := AttributeError;
     exn_msg := "'NoneType' object has no attribute '" ++ name ++ "'" |}.

(* ================================================================== *)
(** ** Data *)

(** The [config] dict of [trigger_scrape]. *)
Record Config := {
  cfg_limit : Z;
  cfg_story_types : list string;
  cfg_force_ipv4 : bool
}.

(** A row of [scraper_runs].  The two counters are not set by the
    INSERT; [completed_at] records only whether the column was set. *)
Record Run := {
  run_id : Z;
  run_status : string;
  run_trigger_type : string;
  run_triggered_by : string;
  run_config : Config;
  run_stories_processed : option Z;
  run_errors_count : option Z;
  run_logs : option string;
  run_error_message : option string;
  run_completed_at : bool
}.

(** The Run Store: the table and the next value of its serial id. *)
Record RunStore := { next_id : Z; rows : list Run }.

(** The status dict handed to subscribers; absent keys are [None]. *)
Record Message := {
  msg_type : string;
  msg_run_id : option Z;
  msg_status : string;
  msg_stories_processed : option Z;
  msg_errors_count : option Z;
  msg_error_message : option string
}.

(** A [threading.Thread] whose target is [_run_scraper] with [args]. *)
Record Thread := {
  th_run_id : Z;
  th_limit : Z;
  th_story_types : list string;
  th_alive : bool
}.

(** A subscriber callback is known by its identity. *)
Definition callback := nat.

(** What a callback may do to the manager while it handles a message. *)
Inductive sub_op := Subscribe (c : callback) | Unsubscribe (c : callback).

(** The behaviour of a callback on a message: the subscription calls it
    makes, then whether it returns or raises. *)
Definition behaviour := callback -> Message -> list sub_op * option exn.

(** The manager's fields, and the world it acts on: the thread table
    ([current_thread] is an index into it), the Run Store, and the
    record of every callback invocation, oldest first. *)
Record State := {
  current_run_id : option Z;
  current_thread : option nat;
  log_capture : option LogCapture.t;
  cancel_flag : bool;
  subscribers : list callback;
  threads : list Thread;
  store : RunStore;
  delivered : list (callback * Message)
}.

Definition set_current_run_id (v : option Z) (s : State) : State :=
  {| current_run_id := v; current_thread := current_thread s;
     log_capture := log_capture s; cancel_flag := cancel_flag s;
     subscribers := subscribers s; threads := threads s;
     store := store s; delivered := delivered s |}.

Definition set_current_thread (v : option nat) (s : State) : State :=
  {| current_run_id := current_run_id s; current_thread := v;
     log_capture := log_capture s; cancel_flag := cancel_flag s;
     subscribers := subscribers s; threads := threads s;
     store := store s; delivered := delivered s |}.

Definition set_log_capture (v : option LogCapture.t) (s : State) : State :=
  {| current_run_id := current_run_id s; current_thread := current_thread s;
     log_capture := v; cancel_flag := cancel_flag s;
     subscribers := subscribers s; threads := threads s;
     store := store s; delivered := delivered s |}.

Definition set_cancel_flag (v : bool) (s : State) : State :=
  {| current_run_id := current_run_id s; current_thread := current_thread s;
     log_capture := log_capture s; cancel_flag := v;
     subscribers := subscribers s; threads := threads s;
     store := store s; delivered := delivered s |}.

Definition set_subscribers (v : list callback) (s : State) : State :=
  {| current_run_id := current_run_id s; current_thread := current_thread s;
     log_capture := log_capture s; cancel_flag := cancel_flag s;
     subscribers := v; threads := threads s;
     store := store s; delivered := delivered s |}.

Definition set_threads (v : list Thread) (s : State) : State :=
  {| current_run_id := current_run_id s; current_thread := current_thread s;
     log_capture := log_capture s; cancel_flag := cancel_flag s;
     subscribers := subscribers s; threads := v;
     store := store s; delivered := delivered s |}.

Definition set_store (v : RunStore) (s : State) : State :=
  {| current_run_id := current_run_id s; current_thread := current_thread s;
     log_capture := log_capture s; cancel_flag := cancel_flag s;
     subscribers := subscribers s; threads := threads s;
     store := v; delivered := delivered s |}.

Definition set_delivered (v : list (callback * Message)) (s : State) : State :=
  {| current_run_id := current_run_id s; current_thread := current_thread s;
     log_capture := log_capture s; cancel_flag := cancel_flag s;
     subscribers := subscribers s; threads := threads s;
     store := store s; delivered := v |}.

(* ================================================================== *)
(** ** The state-and-exception monad *)

Definition M (A : Type) : Type := State -> State * (exn + A).

Definition ret {A} (a : A) : M A := fun s => (s, inr a).

Definition raise {A} (e : exn) : M A := fun s => (s, inl e).

Definition bind {A B} (m : M A) (k : A -> M B) : M B :=
  fun s => match m s with
           | (s', inr a) => k a s'
           | (s', inl e) => (s', inl e)
           end.

Notation "x <- m ;; k" := (bind m (fun x => k))
  (at level 61, m at next level, right associativity).
Notation "m ;;; k" := (bind m (fun _ => k))
  (at level 61, right associativity).

Definition get_state : M State := fun s => (s, inr s).
Definition modify (f : State -> State) : M unit := fun s => (f s, inr tt).

(** [try: body  except <catches> as e: handler e].  An exception the
    clause does not catch, or one raised by the handler, leaves the
    statement. *)
Definition try_except {A} (body : M A) (catches : exn -> bool)
           (handler : exn -> M A) : M A :=
  fun s => match body s with
           | (s', inl e) => if catches e then handler e s' else (s', inl e)
           | r => r
           end.

(** [try: body  finally: fin].  [fin] always runs; the outcome of
    [body] stands unless [fin] itself raises. *)
Definition try_finally {A} (body : M A) (fin : M unit) : M A :=
  fun s => match body s with
           | (s', r) => match fin s' with
                        | (s'', inr _) => (s'', r)
                        | (s'', inl e) => (s'', inl e)
                        end
           end.

(* ================================================================== *)
(** ** Run Store ([backend/database.py]) *)

Module Database.

(** [create_scraper_run]: INSERT ... VALUES (now(), 'running', ...)
    RETURNING id.  [fault] is the exception the database raises, if
    any; a failed statement leaves the table as it was. *)
Definition create_scraper_run (trigger_type triggered_by : string)
           (config : Config) (fault : option exn) : M Z :=
  fun s =>
    match fault with
    | Some e => (s, inl e)
    | None =>
        let db := store s in
        let row := {| run_id := next_id db; run_status := "running";
                      run_trigger_type := trigger_type;
                      run_triggered_by := triggered_by;
                      run_config := config;
                      run_stories_processed := None;
                      run_errors_count := None;
                      run_logs := None; run_error_message := None;
                      run_completed_at := false |} in
        (set_store {| next_id := next_id db + 1;
                      rows := rows db ++ [row] |} s,
         inr (next_id db))
    end.

Definition update_row (id : Z) (status : string)
           (stories_processed errors_count : Z)
           (logs error_message : option string) (r : Run) : Run :=
  if run_id r =? id then
    {| run_id := run_id r; run_status := status;
       run_trigger_type := run_trigger_type r;
       run_triggered_by := run_triggered_by r;
       run_config := run_config r;
       run_stories_processed := Some stories_processed;
       run_errors_count := Some errors_count;
       run_logs := logs; run_error_message := error_message;
       run_completed_at := true |}
  else r.

(** [update_scraper_run]: UPDATE scraper_runs SET ... WHERE id = %s. *)
Definition update_scraper_run (id : Z) (status : string)
           (stories_processed errors_count : Z)
           (logs error_message : option string)
           (fault : option exn) : M unit :=
  fun s =>
    match fault with
    | Some e => (s, inl e)
    | None =>
        let db := store s in
        (set_store {| next_id := next_id db;
                      rows := map (update_row id status stories_processed
                                     errors_count logs error_message)
                                  (rows db) |} s,
         inr tt)
    end.

(** [get_scraper_run]: SELECT ... WHERE id = %s, first row. *)
Definition get_scraper_run (db : RunStore) (id : Z) : option Run :=
  find (fun r => run_id r =? id) (rows db).

(** The rows a [WHERE status = 'running'] selects. *)
Definition running_rows (db : RunStore) : list Run :=
  filter (fun r => String.eqb (run_status r) "running") (rows db).

End Database.

(* ================================================================== *)
(** ** class ScraperManager *)

(** Arguments of [trigger_scrape]; [tr_story_types = None] is the
    default argument. *)
Record TriggerArgs := {
  tr_limit : Z;
  tr_story_types : option (list string);
  tr_username : string
}.

(** What the surroundings contribute to one [trigger_scrape] call: the
    value of [os.environ.get("SUPABASE_FORCE_IPV4", "1") == "1"] and the
    exception the Run Store raises on the INSERT, if any. *)
Record TriggerWorld := {
  tw_force_ipv4 : bool;
  tw_create_fault : option exn
}.

(** What the surroundings contribute to one worker: the Scrape Engine
    ([from scrape_hn import main] followed by [scrape_main()]) seen as
    the messages it writes to the redirected streams and the way it
    ends ([None]: normal return), and the exceptions the Run Store
    raises on the [completed] and on the [failed] UPDATE, if any. *)
Record WorkerWorld := {
  engine_writes : list string;
  engine_result : option exn;
  update_fault : option exn;
  failed_update_fault : option exn
}.

Definition default_story_types : list string :=
  ["topstories"; "newstories"; "showstories"; "askstories"; "jobstories"].

Definition status_message (rid : option Z) (status : string)
           (stories errors : option Z) (err : option string) : Message :=
  {| msg_type := "status"; msg_run_id := rid; msg_status := status;
     msg_stories_processed := stories; msg_errors_count := errors;
     msg_error_message := err |}.

(** [list.remove(x)]: drops the first element equal to [x]. *)
Fixpoint remove_first (x : callback) (l : list callback) : list callback :=
  match l with
  | [] => []
  | y :: l' => if Nat.eqb x y then l' else y :: remove_first x l'
  end.

Definition mem (x : callback) (l : list callback) : bool :=
  existsb (Nat.eqb x) l.

Fixpoint set_alive (t : nat) (b : bool) (l : list Thread) : list Thread :=
  match l, t with
  | [], _ => []
  | th :: l', O =>
      {| th_run_id := th_run_id th; th_limit := th_limit th;
         th_story_types := th_story_types th; th_alive := b |} :: l'
  | th :: l', S t' => th :: set_alive t' b l'
  end.

Module ScraperManager.

(** [__init__]; the Run Store is whatever the database holds. *)
Definition init (db : RunStore) : State :=
  {| current_run_id := None; current_thread := None;
     log_capture := None; cancel_flag := false; subscribers := [];
     threads := []; store := db; delivered := [] |}.

(** [Thread.is_alive()] of the thread object [t]. *)
Definition is_alive (s : State) (t : nat) : bool :=
  match nth_error (threads s) t with
  | Some th => th_alive th
  | None => false
  end.

(** [is_running] *)
Definition is_running (s : State) : bool :=
  match current_thread s with
  | Some t => is_alive s t
  | None => false
  end.

(** [get_current_run_id] *)
Definition get_current_run_id (s : State) : option Z := current_run_id s.

(** [subscribe] *)
Definition subscribe (c : callback) (s : State) : State :=
  set_subscribers (subscribers s ++ [c]) s.

(** [unsubscribe] *)
Definition unsubscribe (c : callback) (s : State) : State :=
  if mem c (subscribers s)
  then set_subscribers (remove_first c (subscribers s)) s
  else s.

Definition apply_sub_op (s : State) (o : sub_op) : State :=
  match o with
  | Subscribe c => subscribe c s
  | Unsubscribe c => unsubscribe c s
  end.

Section WithCallbacks.

Variable beh : behaviour.

(** [callback(message)]: the call is recorded, the callback's own
    calls into the manager take effect, and it returns or raises. *)
Definition call (c : callback) (message : Message) : M unit :=
  fun s =>
    let s1 := set_delivered (delivered s ++ [(c, message)]) s in
    let s2 := fold_left apply_sub_op (fst (beh c message)) s1 in
    match snd (beh c message) with
    | Some e => (s2, inl e)
    | None => (s2, inr tt)
    end.

(** The [for callback in subscribers: try ... except Exception] loop
    over the copied list. *)
Fixpoint notify_each (subs : list callback) (message : Message) : M unit :=
  match subs with
  | [] => ret tt
  | c :: rest =>
      try_except (call c message) is_Exception (fun _ => ret tt) ;;;
      notify_each rest message
  end.

(** [_notify_subscribers] *)
Definition _notify_subscribers (message : Message) : M unit :=
  s <- get_state ;;
  let subscribers_copy := subscribers s in
  notify_each subscribers_copy message.

(** *** [trigger_scrape], statement by statement *)

(** [if self.is_running(): raise RuntimeError(...)] *)
Definition trigger_check : M unit :=
  s <- get_state ;;
  if is_running s then raise already_running else ret tt.

(** The [config] dict and the guarded [create_scraper_run] call; the
    handler logs and re-raises. *)
Definition trigger_create (a : TriggerArgs) (w : TriggerWorld) : M Z :=
  let story_types :=
    match tr_story_types a with
    | None => default_story_types
    | Some l => l
    end in
  let config := {| cfg_limit := tr_limit a;
                   cfg_story_types := story_types;
                   cfg_force_ipv4 := tw_force_ipv4 w |} in
  try_except
    (Database.create_scraper_run "manual" (tr_username a) config
                                 (tw_create_fault w))
    is_Exception (fun e => raise e).

(** The [with self.lock:] block that marks the run and starts the
    worker thread. *)
Definition trigger_mark (a : TriggerArgs) (rid : Z) : M unit :=
  let story_types :=
    match tr_story_types a with
    | None => default_story_types
    | Some l => l
    end in
  modify (fun s =>
    let t := List.length (threads s) in
    let th := {| th_run_id := rid; th_limit := tr_limit a;
                 th_story_types := story_types; th_alive := true |} in
    set_threads (threads s ++ [th])
      (set_current_thread (Some t)
         (set_log_capture (Some LogCapture.init)
            (set_cancel_flag false
               (set_current_run_id (Some rid) s))))).

(** The [running] notification and [return run_id]. *)
Definition trigger_announce (rid : Z) : M Z :=
  _notify_subscribers
    (status_message (Some rid) "running" None None None) ;;;
  ret rid.

(** [trigger_scrape] *)
Definition trigger_scrape (a : TriggerArgs) (w : TriggerWorld) : M Z :=
  trigger_check ;;;
  rid <- trigger_create a w ;;
  trigger_mark a rid ;;;
  trigger_announce rid.

(** *** [_run_scraper] *)

(** A message reaching [log_capture.write] through the redirected
    streams.  The worker's local [log_capture] and the field
    [self.log_capture] name the same object until the clean-up, so
    the model writes through the field.  With the streams redirected
    to [None] the text is dropped. *)
Definition emit (s : State) (message : string) : State :=
  match log_capture s with
  | Some lc => set_log_capture (Some (LogCapture.write lc message)) s
  | None => s
  end.

(** [from scrape_hn import main] and, under the redirection,
    [scrape_main()]. *)
Definition run_engine (w : WorkerWorld) : M unit :=
  fun s =>
    (fold_left emit (engine_writes w) s,
     match engine_result w with
     | None => inr tt
     | Some e => inl e
     end).

(** [log_capture.write(error_msg)] in the worker. *)
Definition lc_write (message : string) : M unit :=
  fun s =>
    match log_capture s with
    | Some lc =>
        (set_log_capture (Some (LogCapture.write lc message)) s, inr tt)
    | None => (s, inl (none_has_no_attribute "write"))
    end.

(** [log_capture.get_logs()] in the worker. *)
Definition lc_get_logs : M string :=
  fun s =>
    match log_capture s with
    | Some lc => (s, inr (LogCapture.get_logs lc))
    | None => (s, inl (none_has_no_attribute "get_logs"))
    end.

(** The inner [try]: the value is the local [errors]. *)
Definition run_engine_guarded (w : WorkerWorld) : M Z :=
  try_except (run_engine w ;;; ret 0) is_Exception
    (fun e =>
       if is_ImportError e then
         lc_write ("ERROR: Could not import scrape_hn module: "
                     ++ str_exn e) ;;;
         ret (0 + 1)
       else
         lc_write ("ERROR: Scraper failed: " ++ str_exn e) ;;;
         ret (0 + 1)).

(** The body of the outer [try]. *)
Definition worker_body (rid : Z) (w : WorkerWorld) : M unit :=
  errors <- run_engine_guarded w ;;
  logs <- lc_get_logs ;;
  let story_matches := StoryPattern.findall logs in
  let stories_processed := Z.of_nat (List.length story_matches) in
  Database.update_scraper_run rid "completed" stories_processed errors
                              (Some logs) None (update_fault w) ;;;
  _notify_subscribers
    (status_message (Some rid) "completed"
                    (Some stories_processed) (Some errors) None).

(** The outer [except Exception as e:] handler. *)
Definition worker_handler (rid : Z) (w : WorkerWorld) (e : exn) : M unit :=
  s <- get_state ;;
  let logs :=
    match log_capture s with
    | Some lc => LogCapture.get_logs lc
    | None => str_exn e
    end in
  Database.update_scraper_run rid "failed" 0 0 (Some logs)
                              (Some (str_exn e)) (failed_update_fault w) ;;;
  _notify_subscribers
    (status_message (Some rid) "failed" None None (Some (str_exn e))).

(** The [finally:] clean-up. *)
Definition worker_cleanup : M unit :=
  modify (fun s =>
    set_log_capture None
      (set_current_thread None (set_current_run_id None s))).

(** [_run_scraper].  The two assignments to [os.environ] and the
    start time touch nothing the manager reads and are left out. *)
Definition _run_scraper (rid limit : Z) (story_types : list string)
           (w : WorkerWorld) : M unit :=
  try_finally
    (try_except (worker_body rid w) is_Exception (worker_handler rid w))
    worker_cleanup.

(** The life of thread [t] after [start()]: it runs its target and
    is no longer alive afterwards.  The second component is the
    exception that left the target, if any; it ends in the thread's
    excepthook and reaches no caller. *)
Definition run_thread (t : nat) (w : WorkerWorld) (s : State)
  : State * option exn :=
  match nth_error (threads s) t with
  | Some th =>
      if th_alive th then
        match _run_scraper (th_run_id th) (th_limit th)
                           (th_story_types th) w s with
        | (s', r) =>
            (set_threads (set_alive t false (threads s')) s',
             match r with inl e => Some e | inr _ => None end)
        end
      else (s, None)
  | None => (s, None)
  end.

(** [cancel_scrape] *)
Definition cancel_scrape : M bool :=
  s <- get_state ;;
  if negb (is_running s) then ret false
  else
    modify (set_cancel_flag true) ;;;
    s' <- get_state ;;
    let rid := get_current_run_id s' in
    _notify_subscribers (status_message rid "cancelled" None None None) ;;;
    ret true.

(** [wait_for_completion].  [progress] says what happens while the
    caller is blocked in [join]: [Some w] when the worker runs to its
    end (in world [w]) before the timeout, [None] when it does not.
    The value [None] stands for a call that never returns (no
    timeout, and a worker that never ends). *)
Definition wait_for_completion (timeout : option Q)
           (progress : option WorkerWorld) : M (option bool) :=
  s <- get_state ;;
  match current_thread s with
  | None => ret (Some true)
  | Some t =>
      match progress, timeout with
      | None, None => ret None
      | None, Some _ =>
          s1 <- get_state ;;
          match current_thread s1 with
          | None => raise (none_has_no_attribute "is_alive")
          | Some t1 => ret (Some (negb (is_alive s1 t1)))
          end
      | Some w, _ =>
          modify (fun s0 => fst (run_thread t w s0)) ;;;
          s1 <- get_state ;;
          match current_thread s1 with
          | None => raise (none_has_no_attribute "is_alive")
          | Some t1 => ret (Some (negb (is_alive s1 t1)))
          end
      end
  end.

End WithCallbacks.

End ScraperManager.

(* ================================================================== *)
(** ** Concurrent callers of [trigger_scrape] *)

(** Several threads call [trigger_scrape] on one manager.  A caller is
    at one of the statements of [trigger_scrape]; the lock makes each
    [with self.lock:] block one step, and nothing else: between two
    steps of one caller any other caller may run. *)
Module Interleaving.
Import ScraperManager.

Inductive pc :=
| AtCheck                 (* about to evaluate [self.is_running()] *)
| AtCreate                (* about to call [create_scraper_run] *)
| AtMark (rid : Z)        (* about to enter the marking block *)
| AtAnnounce (rid : Z)    (* about to notify [running] *)
| Returned (rid : Z)
| Raised (e : exn).

Record Caller := {
  c_args : TriggerArgs;
  c_world : TriggerWorld;
  c_pc : pc
}.

Definition at_pc (c : Caller) (p : pc) : Caller :=
  {| c_args := c_args c; c_world := c_world c; c_pc := p |}.

Definition calling (a : TriggerArgs) (w : TriggerWorld) : Caller :=
  {| c_args := a; c_world := w; c_pc := AtCheck |}.

Section WithCallbacks.

Variable beh : behaviour.

(** One step of one caller. *)
Definition step (c : Caller) (s : State) : Caller * State :=
  match c_pc c with
  | AtCheck =>
      match trigger_check s with
      | (s', inr _) => (at_pc c AtCreate, s')
      | (s', inl e) => (at_pc c (Raised e), s')
      end
  | AtCreate =>
      match trigger_create (c_args c) (c_world c) s with
      | (s', inr rid) => (at_pc c (AtMark rid), s')
      | (s', inl e) => (at_pc c (Raised e), s')
      end
  | AtMark rid =>
      match trigger_mark (c_args c) rid s with
      | (s', inr _) => (at_pc c (AtAnnounce rid), s')
      | (s', inl e) => (at_pc c (Raised e), s')
      end
  | AtAnnounce rid =>
      match trigger_announce beh rid s with
      | (s', inr r) => (at_pc c (Returned r), s')
      | (s', inl e) => (at_pc c (Raised e), s')
      end
  | Returned _ | Raised _ => (c, s)
  end.

Fixpoint step_nth (i : nat) (cs : list Caller) (s : State)
  : list Caller * State :=
  match cs, i with
  | [], _ => ([], s)
  | c :: cs', O => let (c', s') := step c s in (c' :: cs', s')
  | c :: cs', S j => let (cs'', s') := step_nth j cs' s in (c :: cs'', s')
  end.

(** A schedule names, step by step, the caller that runs next. *)
Fixpoint run (schedule : list nat) (cs : list Caller) (s : State)
  : list Caller * State :=
  match schedule with
  | [] => (cs, s)
  | i :: rest => let (cs', s') := step_nth i cs s in run rest cs' s'
  end.

End WithCallbacks.

End Interleaving.

(* ================================================================== *)
(** ** Callers, workers and cancellations in one schedule *)

(** What happens on the manager, in the order it happens: a caller of
    [trigger_scrape] runs its next step; the worker thread [t] runs its
    target from start to end (in the world [w]); some thread calls
    [cancel_scrape].  The worker thread exists from [start()] on, the
    last statement of the marking block: from then on a [Work] event
    may come before the caller's next step. *)
Module Schedule.
Import ScraperManager.

Inductive event :=
| Step (i : nat)
| Work (t : nat) (w : WorkerWorld)
| Cancel.

Section WithCallbacks.

Variable beh : behaviour.

Fixpoint play (evs : list event) (cs : list Interleaving.Caller) (s : State)
  : list Interleaving.Caller * State :=
  match evs with
  | [] => (cs, s)
  | Step i :: rest =>
      let (cs', s') := Interleaving.step_nth beh i cs s in play rest cs' s'
  | Work t w :: rest => play rest cs (fst (run_thread beh t w s))
  | Cancel :: rest => play rest cs (fst (cancel_scrape beh s))
  end.

End WithCallbacks.

End Schedule.

(* ================================================================== *)
(** ** Notions used to state the properties *)

(** A text is blank when it is empty or made of whitespace only. *)
Fixpoint blank (s : string) : bool :=
  match s with
  | EmptyString => true
  | String c s' => PyStr.isspace c && blank s'
  end.

Fixpoint all_digits (s : string) : bool :=
  match s with
  | EmptyString => true
  | String c s' => PyStr.isdigit c && all_digits s'
  end.

(** Digits followed by the end of the text or by a non-digit. *)
Definition ends_digits (rest : string) : Prop :=
  match rest with
  | EmptyString => True
  | String c _ => PyStr.isdigit c = false
  end.

(** The pattern's literal without its first character. *)
Definition lit_tail : string := "rocessing story ".

(** A progress line of the engine for the story whose id is written
    with the digits [ds]. *)
Definition marker_line (ds : string) : string := StoryPattern.literal ++ ds.

(** [print(x)] writes [x], then the line end, to the stream. *)
Definition printed (xs : list string) : list string :=
  flat_map (fun x => [x; PyStr.newline]) xs.

(** Subscribers raise nothing but instances of [Exception]. *)
Definition raises_only_Exception (beh : behaviour) : Prop :=
  forall c m e, snd (beh c m) = Some e -> is_Exception e = true.



(** The engine returns, or raises an instance of [Exception]. *)
Definition engine_ends_in_Exception_or_returns (w : WorkerWorld) : bool :=
  match engine_result w with
  | None => true
  | Some e => is_Exception e
  end.

(** The line the worker logs when the engine raises [e]. *)
Definition engine_error_line (e : exn) : string :=
  if is_ImportError e
  then "ERROR: Could not import scrape_hn module: " ++ str_exn e
  else "ERROR: Scraper failed: " ++ str_exn e.

(** The captured lines once the guarded engine call is over, starting
    from the sink [lc]. *)
Definition captured (w : WorkerWorld) (lc : LogCapture.t) : LogCapture.t :=
  let lc1 := fold_left LogCapture.write (engine_writes w) lc in
  match engine_result w with
  | None => lc1
  | Some e => LogCapture.write lc1 (engine_error_line e)
  end.

(** The worker's [errors] once the guarded engine call is over. *)
Definition errors_of (w : WorkerWorld) : Z :=
  match engine_result w with None => 0 | Some _ => 1 end.

(** A computation leaves the observation [f] of the state as it was. *)
Definition keeps {X A : Type} (f : State -> X) (m : M A) : Prop :=
  forall s, f (fst (m s)) = f s.

(** The state once the [finally:] clean-up has run. *)
Definition cleaned (s : State) : State :=
  set_log_capture None (set_current_thread None (set_current_run_id None s)).

(** The state once an UPDATE of run [rid] has been accepted. *)
Definition store_updated (rid : Z) (status : string) (n errs : Z)
           (logs err : option string) (s : State) : State :=
  set_store
    {| next_id := next_id (store s);
       rows := map (Database.update_row rid status n errs logs err)
                   (rows (store s)) |} s.

(** The three status messages of a run. *)
Definition running_message (rid : Z) : Message :=
  status_message (Some rid) "running" None None None.

Definition completed_message (rid n errs : Z) : Message :=
  status_message (Some rid) "completed" (Some n) (Some errs) None.

Definition failed_message (rid : Z) (e : exn) : Message :=
  status_message (Some rid) "failed" None None (Some (str_exn e)).


(** The number of matches of the progress pattern in a text. *)
Definition count_markers (logs : string) : Z :=
  Z.of_nat (List.length (StoryPattern.findall logs)).

(** The manager-side fields and the world other than the subscriber
    list and the delivery record agree. *)
Definition same_run_state (s s' : State) : Prop :=
  current_run_id s' = current_run_id s /\
  current_thread s' = current_thread s /\
  log_capture s' = log_capture s /\
  cancel_flag s' = cancel_flag s /\
  threads s' = threads s /\
  store s' = store s.

(** The messages callback [c] has been called with, oldest first. *)
Definition received (c : callback) (s : State) : list Message :=
  map snd (filter (fun d => Nat.eqb (fst d) c) (delivered s)).

(** *** Processed-item markers, as the specification counts them *)

Definition decimal_digits : list ascii :=
  ["0"; "1"; "2"; "3"; "4"; "5"; "6"; "7"; "8"; "9"]%char.

Definition is_decimal_digit (c : ascii) : bool :=
  existsb (Ascii.eqb c) decimal_digits.

(** [s] begins with [pre]. *)
Fixpoint begins_with (pre s : string) : bool :=
  match pre, s with
  | EmptyString, _ => true
  | String a pre', String b s' => Ascii.eqb a b && begins_with pre' s'
  | String _ _, EmptyString => false
  end.

(** A processed-item marker starts at the beginning of [s]: the words
    "Processing story " with a decimal digit right after them. *)
Definition marker_starts_here (s : string) : bool :=
  begins_with "Processing story " s &&
  match String.get 17 s with
  | Some c => is_decimal_digit c
  | None => false
  end.

(** The number of places of a text at which a marker starts. *)
Fixpoint marker_occurrences (s : string) : nat :=
  match s with
  | EmptyString => 0%nat
  | String _ s' =>
      ((if marker_starts_here s then 1 else 0) + marker_occurrences s')%nat
  end.

(** No character of [s] is a capital P. *)
Fixpoint without_P (s : string) : bool :=
  match s with
  | EmptyString => true
  | String c s' => negb (Ascii.eqb "P" c) && without_P s'
  end.

(** *** The callbacks a fan-out gets to *)

(** The callbacks of the copied list [subs] that are called with [m]:
    all of them up to and including the first one that raises something
    that is not an instance of [Exception]. *)
Fixpoint reached (beh : behaviour) (subs : list callback) (m : Message)
  : list callback :=
  match subs with
  | [] => []
  | c :: rest =>
      match snd (beh c m) with
      | Some e => if is_Exception e then c :: reached beh rest m else [c]
      | None => c :: reached beh rest m
      end
  end.

(* ================================================================== *)
(** ** Scenarios *)

Module Scenario.
Import ScraperManager.

Definition quiet : behaviour := fun _ _ => ([], None).

Definition boom : exn :=
  {| exn_cls := OtherException; exn_msg := "listener failed" |}.

(** Callback 1 unsubscribes callback 2 and then raises; the others
    return. *)
Definition rude : behaviour :=
  fun c _ => if Nat.eqb c 1 then ([Unsubscribe 2%nat], Some boom)
             else ([], None).

Definition db0 : RunStore := {| next_id := 1; rows := [] |}.

Definition admin_args : TriggerArgs :=
  {| tr_limit := 50; tr_story_types := Some ["topstories"];
     tr_username := "admin" |}.

Definition tw_ok : TriggerWorld :=
  {| tw_force_ipv4 := true; tw_create_fault := None |}.

Definition listener : callback := 7%nat.

(** An idle manager with one subscriber. *)
Definition idle : State := subscribe listener (init db0).

(** The same manager after [trigger_scrape(50, ["topstories"], "admin")]. *)
Definition started : State := fst (trigger_scrape quiet admin_args tw_ok idle).

(** An engine that prints three progress lines and returns. *)
Definition three_markers : WorkerWorld :=
  {| engine_writes := printed [marker_line "1"; marker_line "2";
                               marker_line "3"];
     engine_result := None;
     update_fault := None; failed_update_fault := None |}.

Definition network_timeout : exn :=
  {| exn_cls := OtherException; exn_msg := "network timeout" |}.

(** An engine that raises [Exception("network timeout")]. *)
Definition timing_out : WorkerWorld :=
  {| engine_writes := []; engine_result := Some network_timeout;
     update_fault := None; failed_update_fault := None |}.

Definition interrupted : exn :=
  {| exn_cls := BaseExceptionOnly; exn_msg := "" |}.

Definition db_down : exn :=
  {| exn_cls := OtherException; exn_msg := "connection refused" |}.

(** An engine stopped by [SystemExit] over a Run Store that refuses
    every update. *)
Definition everything_fails : WorkerWorld :=
  {| engine_writes := [marker_line "1"];
     engine_result := Some interrupted;
     update_fault := Some db_down; failed_update_fault := Some db_down |}.

(** A manager with three subscribers, 1, 2 and 3. *)
Definition three_listeners : State :=
  subscribe 3%nat (subscribe 2%nat (subscribe 1%nat (init db0))).

Definition hello : Message :=
  status_message (Some 1) "running" None None None.

(** [started] after a cancellation request. *)
Definition cancel_requested : State := fst (cancel_scrape quiet started).

(** Two threads about to call [trigger_scrape] on a fresh manager. *)
Definition two_callers : list Interleaving.Caller :=
  [Interleaving.calling admin_args tw_ok;
   Interleaving.calling admin_args tw_ok].

(** Both callers evaluate [is_running()] before either of them marks
    the run. *)
Definition racing_schedule : list nat :=
  [0; 1; 0; 1; 0; 1; 0; 1]%nat.

(** The first caller runs to its end before the second starts. *)
Definition sequential_schedule : list nat :=
  [0; 0; 0; 0; 1; 1; 1; 1]%nat.

End Scenario.

(* ================================================================== *)
(** ** Further notions *)

(** A computation neither reads nor writes what the state change [g]
    touches: running it after [g] is running it before [g]. *)
Definition commutes_with {A : Type} (g : State -> State) (m : M A) : Prop :=
  forall s, m (g s) = (g (fst (m s)), snd (m s)).

(* ================================================================== *)
(** ** Exceptions of the HTTP layer and of [backend/auth.py] *)

(** What these layers raise besides the exceptions that reach them from
    below: [ValueError], [TypeError] and FastAPI's [HTTPException],
    all three instances of [Exception]. *)
Inductive error :=
| ValueError (msg : string)
| TypeError (msg : string)
| HTTPException (status_code : Z) (detail : string)
| Raised (e : exn).

(** [isinstance(e, Exception)] *)
Definition error_is_Exception (e : error) : bool :=
  match e with
  | Raised x => is_Exception x
  | _ => true
  end.

(** [isinstance(e, RuntimeError)] *)
Definition error_is_RuntimeError (e : error) : bool :=
  match e with
  | Raised x => match exn_cls x with RuntimeError => true | _ => false end
  | _ => false
  end.

(** [isinstance(e, HTTPException)] *)
Definition error_is_HTTPException (e : error) : bool :=
  match e with
  | HTTPException _ _ => true
  | _ => false
  end.

(** [str(e)]; for an [HTTPException] the text is not used by the code. *)
Definition str_error (e : error) : string :=
  match e with
  | ValueError m => m
  | TypeError m => m
  | HTTPException _ d => d
  | Raised x => str_exn x
  end.

(* ================================================================== *)
(** ** [backend/auth.py] and the admin users of [backend/database.py] *)

Module Auth.

(** [timedelta(hours=24)] in microseconds, the resolution of
    [datetime]; instants are microseconds since some origin. *)
Definition hours24 : Z := 24 * 3600 * 1000000.

(** A value of [_sessions]. *)
Record Session := { user_id : Z; expires_at : Z }.

(** The dict [_sessions], in insertion order. *)
Definition Sessions := list (string * Session).

(** [d.get(k)] *)
Fixpoint dict_get (k : string) (d : Sessions) : option Session :=
  match d with
  | [] => None
  | (k', v) :: d' => if String.eqb k k' then Some v else dict_get k d'
  end.

(** [d[k] = v]: replaces the value of an existing key, appends a new
    one. *)
Fixpoint dict_set (k : string) (v : Session) (d : Sessions) : Sessions :=
  match d with
  | [] => [(k, v)]
  | (k', v') :: d' =>
      if String.eqb k k' then (k, v) :: d' else (k', v') :: dict_set k v d'
  end.

(** [del d[k]] for a key that is present. *)
Definition dict_del (k : string) (d : Sessions) : Sessions :=
  filter (fun kv => negb (String.eqb k (fst kv))) d.

(** A row of [admin_users]; [created_at] is left out. *)
Record AdminUser := {
  au_id : Z;
  au_username : string;
  au_password_hash : string;
  au_email : option string;
  au_last_login : option Z
}.

(** The dict [get_admin_user_by_id] returns: no password hash. *)
Record UserInfo := {
  ui_id : Z;
  ui_username : string;
  ui_email : option string;
  ui_last_login : option Z
}.

(** The table and the next value of its serial id. *)
Record UserTable := { ut_next_id : Z; ut_rows : list AdminUser }.

(** The session dict and the table. *)
Record AuthState := { sessions : Sessions; users : UserTable }.

Definition with_sessions (d : Sessions) (s : AuthState) : AuthState :=
  {| sessions := d; users := users s |}.

Definition with_users (u : UserTable) (s : AuthState) : AuthState :=
  {| sessions := sessions s; users := u |}.

(** Computations over the session dict and the table that may raise. *)
Definition A (X : Type) : Type := AuthState -> AuthState * (error + X).

Definition aret {X} (x : X) : A X := fun s => (s, inr x).
Definition araise {X} (e : error) : A X := fun s => (s, inl e).
Definition abind {X Y} (m : A X) (k : X -> A Y) : A Y :=
  fun s => match m s with
           | (s', inr x) => k x s'
           | (s', inl e) => (s', inl e)
           end.

(** A database call that the connection may refuse with [fault]. *)
Definition db {X} (fault : option exn) (f : AuthState -> AuthState * X)
  : A X :=
  fun s => match fault with
           | Some e => (s, inl (Raised e))
           | None => let (s', x) := f s in (s', inr x)
           end.

(** [get_admin_user_by_username]: SELECT ... WHERE username = %s,
    first row. *)
Definition get_admin_user_by_username (username : string)
           (fault : option exn) : A (option AdminUser) :=
  db fault (fun s =>
    (s, find (fun u => String.eqb (au_username u) username)
             (ut_rows (users s)))).

(** [get_admin_user_by_id]: SELECT id, username, email, ... WHERE
    id = %s, first row. *)
Definition get_admin_user_by_id (id : Z) (fault : option exn)
  : A (option UserInfo) :=
  db fault (fun s =>
    (s, option_map
          (fun u => {| ui_id := au_id u; ui_username := au_username u;
                       ui_email := au_email u;
                       ui_last_login := au_last_login u |})
          (find (fun u => au_id u =? id) (ut_rows (users s))))).

(** [create_admin_user]: INSERT ... RETURNING id. *)
Definition create_admin_user (username password_hash : string)
           (email : option string) (fault : option exn) : A Z :=
  db fault (fun s =>
    let t := users s in
    (with_users
       {| ut_next_id := ut_next_id t + 1;
          ut_rows := ut_rows t
                       ++ [{| au_id := ut_next_id t; au_username := username;
                              au_password_hash := password_hash;
                              au_email := email; au_last_login := None |}] |}
       s,
     ut_next_id t)).

(** [update_admin_last_login]: UPDATE ... SET last_login = now()
    WHERE id = %s; [db_now] is the database's clock. *)
Definition update_admin_last_login (id db_now : Z) (fault : option exn)
  : A unit :=
  db fault (fun s =>
    let t := users s in
    (with_users
       {| ut_next_id := ut_next_id t;
          ut_rows :=
            map (fun u =>
                   if au_id u =? id
                   then {| au_id := au_id u; au_username := au_username u;
                           au_password_hash := au_password_hash u;
                           au_email := au_email u;
                           au_last_login := Some db_now |}
                   else u)
                (ut_rows t) |}
       s,
     tt)).

(** [create_session]; [token] is what [secrets.token_urlsafe(32)]
    returns and [now] what [datetime.utcnow()] reads. *)
Definition create_session (uid : Z) (token : string) (now : Z) : A string :=
  fun s =>
    (with_sessions
       (dict_set token {| user_id := uid; expires_at := now + hours24 |}
                 (sessions s)) s,
     inr token).

(** [get_session_user_id]; [now_check] and [now_renew] are the two
    readings of [datetime.utcnow()]. *)
Definition get_session_user_id (session_id : string)
           (now_check now_renew : Z) : A (option Z) :=
  fun s =>
    match dict_get session_id (sessions s) with
    | None => (s, inr None)
    | Some session =>
        if now_check >? expires_at session
        then (with_sessions (dict_del session_id (sessions s)) s, inr None)
        else (with_sessions
                (dict_set session_id
                   {| user_id := user_id session;
                      expires_at := now_renew + hours24 |}
                   (sessions s)) s,
              inr (Some (user_id session)))
    end.

(** [delete_session] *)
Definition delete_session (session_id : string) : A unit :=
  fun s =>
    match dict_get session_id (sessions s) with
    | Some _ => (with_sessions (dict_del session_id (sessions s)) s, inr tt)
    | None => (s, inr tt)
    end.

Section WithBcrypt.

(** passlib's bcrypt context: [hash_password] (with the salt it draws)
    and [verify_password]; both may raise. *)
Variable hash_password : string -> string -> error + string.
Variable verify_password : string -> string -> error + bool.

(** What the surroundings contribute to one call: the salt, the
    database's clock, and the exceptions of the first and second
    database call, if any. *)
Record DbWorld := {
  dw_salt : string;
  dw_now : Z;
  dw_fault1 : option exn;
  dw_fault2 : option exn
}.

(** [authenticate_user] *)
Definition authenticate_user (username password : string) (w : DbWorld)
  : A (option Z) :=
  abind (get_admin_user_by_username username (dw_fault1 w)) (fun user =>
  match user with
  | None => aret None
  | Some u =>
      match verify_password password (au_password_hash u) with
      | inl e => araise e
      | inr false => aret None
      | inr true =>
          fun s =>
            match update_admin_last_login (au_id u) (dw_now w)
                                          (dw_fault2 w) s with
            | (s', inl e) =>
                if error_is_Exception e then (s', inr (Some (au_id u)))
                else (s', inl e)
            | (s', inr _) => (s', inr (Some (au_id u)))
            end
      end
  end).

(** [create_admin] *)
Definition create_admin (username password : string) (email : option string)
           (w : DbWorld) : A Z :=
  abind (get_admin_user_by_username username (dw_fault1 w)) (fun existing =>
  match existing with
  | Some _ => araise (ValueError ("User '" ++ username ++ "' already exists"))
  | None =>
      match hash_password (dw_salt w) password with
      | inl e => araise e
      | inr password_hash =>
          create_admin_user username password_hash email (dw_fault2 w)
      end
  end).

End WithBcrypt.

(** [get_current_user]: [if not user_id] holds for [None] and for 0. *)
Definition get_current_user (session_id : string) (now_check now_renew : Z)
           (fault : option exn) : A (option UserInfo) :=
  abind (get_session_user_id session_id now_check now_renew) (fun uid =>
  match uid with
  | None => aret None
  | Some id => if id =? 0 then aret None
               else get_admin_user_by_id id fault
  end).

End Auth.

(* ================================================================== *)
(** ** The authentication routes of [backend/admin_server.py] *)

Module AdminServer.
Import Auth.

Record LoginRequest := { lq_username : string; lq_password : string }.

Record LoginResponse := {
  lr_id : Z;
  lr_username : string;
  lr_email : option string
}.

(** What the surroundings contribute to one [login]: the database for
    [authenticate_user], the token and the clock reading of
    [create_session], the two clock readings of [get_current_user] and
    the exception of its database call, if any. *)
Record LoginWorld := {
  lw_db : DbWorld;
  lw_token : string;
  lw_now : Z;
  lw_check : Z;
  lw_renew : Z;
  lw_fault3 : option exn
}.

(** [get_current_user_from_cookie]; [if not session_id] holds for a
    missing cookie and for an empty one. *)
Definition get_current_user_from_cookie (session_id : option string)
           (now_check now_renew : Z) (fault : option exn) : A UserInfo :=
  match session_id with
  | None => araise (HTTPException 401 "Not authenticated")
  | Some EmptyString => araise (HTTPException 401 "Not authenticated")
  | Some sid =>
      abind (get_current_user sid now_check now_renew fault) (fun user =>
      match user with
      | None => araise (HTTPException 401 "Invalid or expired session")
      | Some u => aret u
      end)
  end.

Section WithBcrypt.
Variable verify_password : string -> string -> error + bool.

(** [login]: the response body and the value of the [session_id]
    cookie it sets.  [if not user_id] holds for [None] and for 0. *)
Definition login (request : LoginRequest) (w : LoginWorld)
  : A (LoginResponse * string) :=
  abind (authenticate_user verify_password (lq_username request)
                           (lq_password request) (lw_db w)) (fun user_id =>
  match user_id with
  | None => araise (HTTPException 401 "Invalid username or password")
  | Some id =>
      if id =? 0
      then araise (HTTPException 401 "Invalid username or password")
      else
        abind (create_session id (lw_token w) (lw_now w)) (fun session_id =>
        abind (get_current_user session_id (lw_check w) (lw_renew w)
                                (lw_fault3 w)) (fun user =>
        match user with
        | None =>
            araise (TypeError "'NoneType' object is not subscriptable")
        | Some u =>
            aret ({| lr_id := ui_id u; lr_username := ui_username u;
                     lr_email := ui_email u |}, session_id)
        end))
  end).

End WithBcrypt.

(** [logout]: asks the client to delete its cookie and returns
    [{"success": True}]; [delete_session] is not called. *)
Definition logout : A bool := aret true.

(** [get_me], up to the field [created_at]. *)
Definition get_me (session_id : option string) (now_check now_renew : Z)
           (fault : option exn) : A UserInfo :=
  get_current_user_from_cookie session_id now_check now_renew fault.

End AdminServer.

(* ================================================================== *)
(** ** The trigger and cancel routes of [backend/routers/scraper.py] *)

Module ScraperRouter.

(** The [new_value] dict of the audit entry of a trigger. *)
Record TriggerParams := {
  tp_limit : option Z;
  tp_story_types : option (list string)
}.

(** A row of [audit_log] as [log_audit] inserts it; these routes pass
    no [old_value]. *)
Record AuditEntry := {
  ae_username : string;
  ae_action : string;
  ae_entity_type : option string;
  ae_entity_id : option Z;
  ae_new_value : option TriggerParams
}.

(** The process: the environment variable [SUPABASE_DB_URL], the global
    [_scraper_manager] ([None], or a manager with the database URL it
    was created with), the manager's fields and its world, and the
    audit table. *)
Record App := {
  env_db_url : option string;
  scraper_manager : option string;
  world : State;
  audit_log : list AuditEntry
}.

Definition with_world (s : State) (a : App) : App :=
  {| env_db_url := env_db_url a; scraper_manager := scraper_manager a;
     world := s; audit_log := audit_log a |}.

Definition R (X : Type) : Type := App -> App * (error + X).

Definition rret {X} (x : X) : R X := fun a => (a, inr x).
Definition rraise {X} (e : error) : R X := fun a => (a, inl e).
Definition rbind {X Y} (m : R X) (k : X -> R Y) : R Y :=
  fun a => match m a with
           | (a', inr x) => k x a'
           | (a', inl e) => (a', inl e)
           end.

(** [try: body] followed by [except] clauses: [handler e] is the
    clause that catches [e], if any. *)
Definition rtry {X} (body : R X) (handler : error -> option (R X)) : R X :=
  fun a => match body a with
           | (a', inl e) =>
               match handler e with
               | Some h => h a'
               | None => (a', inl e)
               end
           | r => r
           end.

(** A method of the manager called from a route. *)
Definition lift {X} (m : M X) : R X :=
  fun a => match m (world a) with
           | (s', inl e) => (with_world s' a, inl (Raised e))
           | (s', inr x) => (with_world s' a, inr x)
           end.

Definition missing_db_url : exn :=
  {| exn_cls := RuntimeError;
     exn_msg := "Missing SUPABASE_DB_URL environment variable" |}.

(** [get_db_url]: [if not db_url] holds for an unset and for an empty
    variable. *)
Definition get_db_url : R string :=
  fun a => match env_db_url a with
           | None | Some EmptyString => (a, inl (Raised missing_db_url))
           | Some url => (a, inr url)
           end.

(** [ScraperManager(db_url)]: the fields as [__init__] sets them. *)
Definition fresh_manager (s : State) : State :=
  {| current_run_id := None; current_thread := None; log_capture := None;
     cancel_flag := false; subscribers := [];
     threads := threads s; store := store s; delivered := delivered s |}.

(** [get_scraper_manager]: creates the manager at the first call and
    returns the one there is at every other. *)
Definition get_scraper_manager (db_url : string) : R unit :=
  fun a => match scraper_manager a with
           | Some _ => (a, inr tt)
           | None =>
               ({| env_db_url := env_db_url a;
                   scraper_manager := Some db_url;
                   world := fresh_manager (world a);
                   audit_log := audit_log a |}, inr tt)
           end.

(** [log_audit]: INSERT INTO audit_log; [fault] is the exception the
    database raises, if any. *)
Definition log_audit (username action : string) (entity_type : option string)
           (entity_id : option Z) (new_value : option TriggerParams)
           (fault : option exn) : R unit :=
  fun a => match fault with
           | Some e => (a, inl (Raised e))
           | None =>
               ({| env_db_url := env_db_url a;
                   scraper_manager := scraper_manager a;
                   world := world a;
                   audit_log :=
                     audit_log a
                       ++ [{| ae_username := username; ae_action := action;
                              ae_entity_type := entity_type;
                              ae_entity_id := entity_id;
                              ae_new_value := new_value |}] |}, inr tt)
           end.

(** [ScraperTriggerRequest] *)
Record ScraperTriggerRequest := {
  rq_limit : option Z;
  rq_story_types : option (list string)
}.

Record TriggerResponse := { resp_run_id : Z; resp_status : string }.

Record CancelResponse := { resp_success : bool; resp_message : string }.

(** [request.limit or 100] *)
Definition limit_or_100 (limit : option Z) : Z :=
  match limit with
  | None => 100
  | Some n => if n =? 0 then 100 else n
  end.

Section WithCallbacks.
Variable beh : behaviour.

(** The body of the [try] of [trigger_scraper]. *)
Definition trigger_scraper_body (request : ScraperTriggerRequest)
           (tw : TriggerWorld) (audit_fault : option exn)
  : R TriggerResponse :=
  rbind get_db_url (fun db_url =>
  rbind (get_scraper_manager db_url) (fun _ =>
  rbind (lift (fun s => (s, inr (ScraperManager.is_running s))))
        (fun running =>
  if running : bool
  then rraise (HTTPException 409 "Scraper is already running")
  else
    rbind (lift (ScraperManager.trigger_scrape beh
                   {| tr_limit := limit_or_100 (rq_limit request);
                      tr_story_types := rq_story_types request;
                      tr_username := "admin" |} tw)) (fun run_id =>
    rbind (log_audit "system" "scraper_start" (Some "scraper_run")
             (Some run_id)
             (Some {| tp_limit := rq_limit request;
                      tp_story_types := rq_story_types request |})
             audit_fault) (fun _ =>
    rret {| resp_run_id := run_id; resp_status := "started" |}))))).

(** [trigger_scraper]: [except RuntimeError] answers 409 with the text
    of the exception, [except Exception] answers 500. *)
Definition trigger_scraper (request : ScraperTriggerRequest)
           (tw : TriggerWorld) (audit_fault : option exn)
  : R TriggerResponse :=
  rtry (trigger_scraper_body request tw audit_fault)
       (fun e =>
          if error_is_RuntimeError e
          then Some (rraise (HTTPException 409 (str_error e)))
          else if error_is_Exception e
               then Some (rraise (HTTPException 500 "Failed to start scraper"))
               else None).

(** The body of the [try] of [cancel_scraper]. *)
Definition cancel_scraper_body (audit_fault : option exn)
  : R CancelResponse :=
  rbind get_db_url (fun db_url =>
  rbind (get_scraper_manager db_url) (fun _ =>
  rbind (lift (fun s => (s, inr (ScraperManager.is_running s))))
        (fun running =>
  if negb running
  then rraise (HTTPException 409 "No scraper running")
  else
    rbind (lift (ScraperManager.cancel_scrape beh)) (fun _ =>
    rbind (lift (fun s => (s, inr (ScraperManager.get_current_run_id s))))
          (fun run_id =>
    rbind (log_audit "admin" "scraper_cancel" (Some "scraper_run") run_id
                     None audit_fault) (fun _ =>
    rret {| resp_success := true;
            resp_message := "Cancellation requested" |})))))).

(** [cancel_scraper]: [except HTTPException: raise], [except
    Exception] answers 500. *)
Definition cancel_scraper (audit_fault : option exn) : R CancelResponse :=
  rtry (cancel_scraper_body audit_fault)
       (fun e =>
          if error_is_HTTPException e then Some (rraise e)
          else if error_is_Exception e
               then Some (rraise
                            (HTTPException 500 "Failed to cancel scraper"))
               else None).

End WithCallbacks.

(** [get_current_scraper_run]: SELECT ... WHERE status = 'running'
    LIMIT 1. *)
Definition get_current_scraper_run (db : RunStore) : option Run :=
  hd_error (Database.running_rows db).

(** The test of [get_scraper_status] on what it calls the last run:
    [last_run and last_run['status'] == 'completed']. *)
Definition last_completed (db : RunStore) : option Run :=
  match get_current_scraper_run db with
  | Some last_run =>
      if String.eqb (run_status last_run) "completed"
      then Some last_run else None
  | None => None
  end.

End ScraperRouter.

(** A session looked up at each pair of clock readings in turn. *)
Fixpoint touch_all (session_id : string) (readings : list (Z * Z))
         (s : Auth.AuthState) : Auth.AuthState * list (error + option Z) :=
  match readings with
  | [] => (s, [])
  | (now_check, now_renew) :: rest =>
      let (s1, r) := Auth.get_session_user_id session_id now_check now_renew s in
      let (s2, rs) := touch_all session_id rest s1 in
      (s2, r :: rs)
  end.

(** Each lookup happens no later than the expiry the previous one
    left, starting from the expiry [exp]. *)
Fixpoint kept_alive (exp : Z) (readings : list (Z * Z)) : Prop :=
  match readings with
  | [] => True
  | (now_check, now_renew) :: rest =>
      now_check <= exp /\ kept_alive (now_renew + Auth.hours24) rest
  end.

(* ================================================================== *)
(** ** Further scenarios *)

Module Cases.
Import ScraperManager.

(** Callback 1 subscribes callback 9 while it is notified. *)
Definition inviting : behaviour :=
  fun c _ => if Nat.eqb c 1 then ([Subscribe 9%nat], None) else ([], None).

(** A manager on which callback 4 is subscribed twice and callback 5
    once. *)
Definition doubled : State :=
  subscribe 4%nat (subscribe 5%nat (subscribe 4%nat (init Scenario.db0))).

(** An engine that returns over a Run Store that refuses the first
    update and accepts the second. *)
Definition first_update_refused : WorkerWorld :=
  {| engine_writes := printed [marker_line "1"; marker_line "2"];
     engine_result := None;
     update_fault := Some Scenario.db_down; failed_update_fault := None |}.

(** The same over a Run Store that refuses both updates. *)
Definition updates_refused : WorkerWorld :=
  {| engine_writes := printed [marker_line "1"; marker_line "2"];
     engine_result := None;
     update_fault := Some Scenario.db_down;
     failed_update_fault := Some Scenario.db_down |}.

(** An engine that prints a line and leaves through [sys.exit()]. *)
Definition exiting : WorkerWorld :=
  {| engine_writes := printed [marker_line "1"];
     engine_result := Some Scenario.interrupted;
     update_fault := None; failed_update_fault := None |}.

(** A Run Store that refuses the INSERT. *)
Definition tw_down : TriggerWorld :=
  {| tw_force_ipv4 := true; tw_create_fault := Some Scenario.db_down |}.

(** A trigger with the default arguments. *)
Definition default_args : TriggerArgs :=
  {| tr_limit := 100; tr_story_types := None; tr_username := "system" |}.

(** The row of run 1 as [Scenario.started] holds it. *)
Definition row1 : Run :=
  {| run_id := 1; run_status := "running";
     run_trigger_type := "manual"; run_triggered_by := "admin";
     run_config := {| cfg_limit := 50;
                      cfg_story_types := ["topstories"];
                      cfg_force_ipv4 := true |};
     run_stories_processed := None; run_errors_count := None;
     run_logs := None; run_error_message := None;
     run_completed_at := false |}.

(** The worker thread of run 1 as [Scenario.started] holds it. *)
Definition thread1 : Thread :=
  {| th_run_id := 1; th_limit := 50;
     th_story_types := ["topstories"]; th_alive := true |}.

(** A stand-in for bcrypt: the hash is the salt, a dollar sign and
    the password; passwords longer than 72 characters are refused. *)
Definition toy_hash (salt password : string) : error + string :=
  if (72 <? String.length password)%nat
  then inl (ValueError "password cannot be longer than 72 bytes")
  else inr (salt ++ "$" ++ password).

Fixpoint after_dollar (h : string) : option string :=
  match h with
  | EmptyString => None
  | String c h' => if Ascii.eqb c "$" then Some h' else after_dollar h'
  end.

Definition toy_verify (password hash : string) : error + bool :=
  match after_dollar hash with
  | None => inl (ValueError "hash could not be identified")
  | Some p => inr (String.eqb p password)
  end.

Definition alice : Auth.AdminUser :=
  {| Auth.au_id := 1; Auth.au_username := "alice";
     Auth.au_password_hash := "ab$wonderland";
     Auth.au_email := Some "alice@example.org";
     Auth.au_last_login := None |}.

(** One admin, no session. *)
Definition one_admin : Auth.AuthState :=
  {| Auth.sessions := [];
     Auth.users := {| Auth.ut_next_id := 2; Auth.ut_rows := [alice] |} |}.

(** No admin, no session. *)
Definition no_admin : Auth.AuthState :=
  {| Auth.sessions := [];
     Auth.users := {| Auth.ut_next_id := 1; Auth.ut_rows := [] |} |}.

(** A database that answers every call. *)
Definition db_up : Auth.DbWorld :=
  {| Auth.dw_salt := "ab"; Auth.dw_now := 500;
     Auth.dw_fault1 := None; Auth.dw_fault2 := None |}.

(** A database that refuses the second call. *)
Definition db_flaky : Auth.DbWorld :=
  {| Auth.dw_salt := "ab"; Auth.dw_now := 500;
     Auth.dw_fault1 := None; Auth.dw_fault2 := Some Scenario.db_down |}.

(** [one_admin] with a session of user 1 created at instant 1000. *)
Definition logged_in : Auth.AuthState :=
  fst (Auth.create_session 1 "tok" 1000 one_admin).

(** A login of alice at instant 1000. *)
Definition alice_logs_in : AdminServer.LoginWorld :=
  {| AdminServer.lw_db := db_up; AdminServer.lw_token := "tok";
     AdminServer.lw_now := 1000; AdminServer.lw_check := 1001;
     AdminServer.lw_renew := 1002; AdminServer.lw_fault3 := None |}.

(** The process once run 1 of [Scenario.started] is under way. *)
Definition app_running : ScraperRouter.App :=
  {| ScraperRouter.env_db_url := Some "postgresql://db";
     ScraperRouter.scraper_manager := Some "postgresql://db";
     ScraperRouter.world := Scenario.started;
     ScraperRouter.audit_log := [] |}.

(** The process before any request reached the manager. *)
Definition app_new : ScraperRouter.App :=
  {| ScraperRouter.env_db_url := Some "postgresql://db";
     ScraperRouter.scraper_manager := None;
     ScraperRouter.world := init Scenario.db0;
     ScraperRouter.audit_log := [] |}.

(** The same without [SUPABASE_DB_URL]. *)
Definition app_unconfigured : ScraperRouter.App :=
  {| ScraperRouter.env_db_url := None;
     ScraperRouter.scraper_manager := None;
     ScraperRouter.world := init Scenario.db0;
     ScraperRouter.audit_log := [] |}.

(** A request with limit 0 and no story types. *)
Definition zero_limit : ScraperRouter.ScraperTriggerRequest :=
  {| ScraperRouter.rq_limit := Some 0;
     ScraperRouter.rq_story_types := None |}.

(** Callback 1 leaves through [sys.exit()]; the others return. *)
Definition abrupt : behaviour :=
  fun c _ => if Nat.eqb c 1 then ([], Some Scenario.interrupted)
             else ([], None).





End Cases.

(* ================================================================== *)
(** * Properties *)

(** ** Strings *)

Section StringFacts.
Import PyStr.

Lemma rstrip_keeps_nonmatching (p : ascii -> bool) (c : ascii) (s : string) :
  p c = false -> truthy (rstrip p (String c s)) = true.
Proof.
  intros Hc. simpl. destruct (rstrip p s); [rewrite Hc|]; reflexivity.
Qed.

(** [message.strip()] is falsy exactly on blank messages. *)
Lemma truthy_strip (s : string) : truthy (strip s) = negb (blank s).
Proof.
  unfold strip. induction s as [|c s IH]; [reflexivity|].
  cbn [lstrip blank]. destruct (isspace c) eqn:Hc; [exact IH|].
  now rewrite rstrip_keeps_nonmatching.
Qed.

Lemma append_assoc (a b c : string) : ((a ++ b) ++ c = a ++ (b ++ c))%string.
Proof. induction a as [|x a IH]; simpl; [reflexivity | now rewrite IH]. Qed.

Lemma append_empty_r (a : string) : (a ++ "" = a)%string.
Proof. induction a as [|x a IH]; simpl; [reflexivity | now rewrite IH]. Qed.

Lemma strip_prefix_append (pre s : string) :
  strip_prefix pre (pre ++ s) = Some s.
Proof.
  induction pre as [|c pre IH]; simpl; [reflexivity|].
  now rewrite Ascii.eqb_refl.
Qed.

Lemma span_digits (ds rest : string) :
  all_digits ds = true -> ends_digits rest ->
  span isdigit (ds ++ rest) = (ds, rest).
Proof.
  intros Hd Hr. induction ds as [|c ds IH]; simpl in *.
  - destruct rest as [|r rest]; simpl in *; [reflexivity | now rewrite Hr].
  - apply andb_prop in Hd as [Hc Hd]. now rewrite Hc, IH.
Qed.

End StringFacts.


(** ** The progress pattern *)

Section PatternFacts.
Import PyStr StoryPattern.

Lemma findall_from_skip (a s : string) :
  findall_from (String.length a) (a ++ s) = findall_from 0 s.
Proof. induction a as [|x a IH]; simpl; [reflexivity | exact IH]. Qed.

Lemma match_here_marker (ds rest : string) :
  ds <> "" -> all_digits ds = true -> ends_digits rest ->
  match_here (literal ++ (ds ++ rest))
  = Some (ds, (String.length literal + String.length ds)%nat).
Proof.
  intros Hne Hd Hr. unfold match_here.
  rewrite strip_prefix_append, (span_digits _ _ Hd Hr).
  destruct ds; [congruence | reflexivity].
Qed.

Lemma findall_from_match (c : ascii) (s grp : string) (len : nat) :
  match_here (String c s) = Some (grp, len) ->
  findall_from 0 (String c s) = grp :: findall_from (len - 1) s.
Proof. intros H. cbn [findall_from]. now rewrite H. Qed.

Lemma length_append (a b : string) :
  String.length (a ++ b) = (String.length a + String.length b)%nat.
Proof. induction a as [|x a IH]; simpl; [reflexivity | now rewrite IH]. Qed.

(** One progress line followed by a non-digit is one match. *)
Lemma findall_marker (ds rest : string) :
  ds <> "" -> all_digits ds = true -> ends_digits rest ->
  findall (marker_line ds ++ rest) = ds :: findall rest.
Proof.
  intros Hne Hd Hr. unfold findall, marker_line.
  rewrite append_assoc.
  pose proof (match_here_marker ds rest Hne Hd Hr) as Hm.
  change literal with (String "P" lit_tail) in Hm |- *.
  change (String "P" lit_tail ++ (ds ++ rest))
    with (String "P" (lit_tail ++ (ds ++ rest))) in Hm |- *.
  rewrite (findall_from_match _ _ _ _ Hm).
  f_equal.
  replace (String.length (String "P" lit_tail) + String.length ds - 1)%nat
    with (String.length (lit_tail ++ ds)).
  - rewrite <- append_assoc. apply findall_from_skip.
  - rewrite length_append. cbn [String.length]. lia.
Qed.

Lemma findall_newline (s : string) : findall (newline ++ s) = findall s.
Proof. reflexivity. Qed.

Lemma join_cons2 (sep x y : string) (l : list string) :
  join sep (x :: y :: l) = x ++ sep ++ join sep (y :: l).
Proof. reflexivity. Qed.

(** The progress lines of a log, one per line, are found one by one. *)
Lemma findall_marker_lines (dss : list string) :
  Forall (fun ds => ds <> "" /\ all_digits ds = true) dss ->
  findall (join newline (map marker_line dss)) = dss.
Proof.
  induction 1 as [|ds dss [Hne Hd] _ IH]; [reflexivity|].
  destruct dss as [|ds' dss].
  - cbn [map join]. rewrite <- (append_empty_r (marker_line ds)).
    now rewrite findall_marker.
  - cbn [map] in IH |- *. rewrite join_cons2.
    rewrite findall_marker; [|assumption|assumption|reflexivity].
    now rewrite findall_newline, IH.
Qed.

End PatternFacts.

(** ** Markers, counted without the scanner *)

Section MarkerCount.
Import PyStr StoryPattern.

Lemma is_decimal_digit_isdigit (c : ascii) : is_decimal_digit c = isdigit c.
Proof. destruct c as [[] [] [] [] [] [] [] []]; reflexivity. Qed.

Lemma digit_not_P (c : ascii) : isdigit c = true -> Ascii.eqb "P" c = false.
Proof.
  destruct c as [[] [] [] [] [] [] [] []]; intros H;
    try reflexivity; discriminate H.
Qed.

Lemma strip_prefix_begins (pre s : string) :
  begins_with pre s
  = match strip_prefix pre s with Some _ => true | None => false end.
Proof.
  revert s. induction pre as [|a pre IH]; intros [|b s];
    cbn [begins_with strip_prefix]; try reflexivity.
  destruct (Ascii.eqb a b); [apply IH | reflexivity].
Qed.

Lemma strip_prefix_some (pre s r : string) :
  strip_prefix pre s = Some r -> s = pre ++ r.
Proof.
  revert s. induction pre as [|a pre IH]; intros [|b s];
    cbn [strip_prefix append]; try congruence.
  destruct (Ascii.eqb a b) eqn:E; [|discriminate].
  apply Ascii.eqb_eq in E. subst b. intros H. f_equal. now apply IH.
Qed.

Lemma span_append (p : ascii -> bool) (s a b : string) :
  span p s = (a, b) -> s = a ++ b.
Proof.
  revert a b. induction s as [|c s IH]; intros a b; cbn [span].
  - intros H. injection H as <- <-. reflexivity.
  - destruct (p c).
    + destruct (span p s) as [a' b']. intros H. injection H as <- <-.
      cbn [append]. f_equal. now apply IH.
    + intros H. injection H as <- <-. reflexivity.
Qed.

Lemma span_all_digits (s a b : string) :
  span isdigit s = (a, b) -> all_digits a = true.
Proof.
  revert a b. induction s as [|c s IH]; intros a b; cbn [span].
  - intros H. injection H as <- <-. reflexivity.
  - destruct (isdigit c) eqn:D.
    + destruct (span isdigit s) as [a' b']. intros H. injection H as <- <-.
      cbn [all_digits]. rewrite D. now apply (IH a' b').
    + intros H. injection H as <- <-. reflexivity.
Qed.

Lemma get_after_literal (r : string) :
  String.get 17 (literal ++ r) = String.get 0 r.
Proof. reflexivity. Qed.

(** The scanner finds a match at the start of a text exactly when a
    marker starts there. *)
Lemma match_here_starts (s : string) :
  marker_starts_here s
  = match match_here s with Some _ => true | None => false end.
Proof.
  unfold marker_starts_here, match_here.
  change "Processing story " with literal.
  rewrite strip_prefix_begins.
  destruct (strip_prefix literal s) as [r|] eqn:E; [|reflexivity].
  apply strip_prefix_some in E. subst s. rewrite get_after_literal.
  cbn [andb]. destruct r as [|c r]; [reflexivity|].
  cbn [String.get span]. rewrite is_decimal_digit_isdigit.
  destruct (isdigit c); [|reflexivity].
  now destruct (span isdigit r).
Qed.

Lemma match_here_shape (c : ascii) (s ds : string) (len : nat) :
  match_here (String c s) = Some (ds, len) ->
  exists rest,
    s = lit_tail ++ (ds ++ rest) /\ all_digits ds = true /\
    len = S (String.length (lit_tail ++ ds)).
Proof.
  unfold match_here.
  destruct (strip_prefix literal (String c s)) as [r|] eqn:E; [|discriminate].
  apply strip_prefix_some in E.
  change literal with (String "P" lit_tail) in E |- *.
  cbn [append] in E. injection E as _ ->.
  destruct (span isdigit r) as [a b] eqn:Sp.
  pose proof (span_append _ _ _ _ Sp) as App.
  pose proof (span_all_digits _ _ _ Sp) as Dg.
  destruct a as [|x a]; [discriminate|].
  intros H. injection H as <- <-. exists b. subst r.
  split; [reflexivity|]. split; [exact Dg|].
  rewrite length_append. reflexivity.
Qed.

Lemma marker_starts_with_P (c : ascii) (s : string) :
  marker_starts_here (String c s) = true -> Ascii.eqb "P" c = true.
Proof.
  unfold marker_starts_here.
  change (begins_with "Processing story " (String c s))
    with (Ascii.eqb "P" c && begins_with lit_tail s).
  intros H. apply andb_prop in H as [H _]. now apply andb_prop in H as [H _].
Qed.

(** No marker starts inside a stretch of text without a capital P. *)
Lemma no_marker_inside (a rest : string) :
  without_P a = true ->
  marker_occurrences (a ++ rest) = marker_occurrences rest.
Proof.
  induction a as [|x a IH]; cbn [without_P append]; [reflexivity|].
  intros H. apply andb_prop in H as [Hx Ha].
  cbn [marker_occurrences].
  destruct (marker_starts_here (String x (a ++ rest))) eqn:E.
  - apply marker_starts_with_P in E. rewrite E in Hx. discriminate Hx.
  - now rewrite IH.
Qed.

Lemma without_P_append (a b : string) :
  without_P (a ++ b) = without_P a && without_P b.
Proof.
  induction a as [|x a IH]; cbn [without_P append]; [reflexivity|].
  now rewrite IH, andb_assoc.
Qed.

Lemma digits_without_P (ds : string) :
  all_digits ds = true -> without_P ds = true.
Proof.
  induction ds as [|c ds IH]; cbn [all_digits without_P]; [reflexivity|].
  intros H. apply andb_prop in H as [Hc Hd].
  now rewrite (digit_not_P c Hc), IH.
Qed.

Lemma findall_counts_bounded (n : nat) (s : string) :
  (String.length s <= n)%nat ->
  List.length (findall_from 0 s) = marker_occurrences s.
Proof.
  revert s. induction n as [|n IH]; intros [|c s] H; try reflexivity.
  - cbn [String.length] in H. lia.
  - cbn [String.length] in H. cbn [marker_occurrences findall_from].
    rewrite match_here_starts.
    destruct (match_here (String c s)) as [[ds len]|] eqn:E.
    + apply match_here_shape in E as (rest & -> & Hd & ->).
      cbn [List.length]. rewrite Nat.sub_succ, Nat.sub_0_r.
      rewrite <- append_assoc, findall_from_skip, no_marker_inside.
      * rewrite IH; [reflexivity|].
        rewrite <- append_assoc, length_append in H. lia.
      * rewrite without_P_append, (digits_without_P ds Hd). reflexivity.
    + cbn [Nat.add]. apply IH. lia.
Qed.

(** The matches [findall] returns are as many as the places at which a
    marker starts: no marker starts inside a match. *)
Lemma findall_counts_markers (s : string) :
  List.length (findall s) = marker_occurrences s.
Proof. apply (findall_counts_bounded (String.length s)). lia. Qed.

Lemma count_markers_occurrences (logs : string) :
  count_markers logs = Z.of_nat (marker_occurrences logs).
Proof. unfold count_markers. now rewrite findall_counts_markers. Qed.

End MarkerCount.

(** ** LogCapture *)

Section LogCaptureFacts.
Import PyStr LogCapture.

Lemma write_cases (lc : LogCapture.t) (text : string) :
  write lc text =
    if blank text then lc
    else {| lines := (lines lc ++ [rstrip is_newline text])%list |}.
Proof.
  unfold write. rewrite truthy_strip. now destruct (blank text).
Qed.

Lemma lines_fold_write (msgs : list string) (lc : LogCapture.t) :
  lines (fold_left write msgs lc)
  = (lines lc ++ map (rstrip is_newline)
                     (filter (fun m => negb (blank m)) msgs))%list.
Proof.
  revert lc. induction msgs as [|m msgs IH]; intros lc; cbn [fold_left filter].
  - now rewrite app_nil_r.
  - rewrite IH, write_cases. destruct (blank m); cbn [negb map lines].
    + reflexivity.
    + now rewrite <- app_assoc.
Qed.

End LogCaptureFacts.

(** C9, as stated, fails: a non-blank text ending in a line feed is not
    appended as it is, and the snapshot is not the concatenation of the
    texts written. *)
Lemma write_appends_text_counterexample :
  let text := ("a" ++ PyStr.newline)%string in
  blank text = false /\
  LogCapture.lines (LogCapture.write LogCapture.init text)
    <> (LogCapture.lines LogCapture.init ++ [text])%list /\
  LogCapture.get_logs (fold_left LogCapture.write [text; "b"] LogCapture.init)
    <> PyStr.join PyStr.newline [text; "b"].
Proof.
  vm_compute. repeat split; intros H; discriminate H.
Qed.

(** C9, amended: for every sequence of writes, [write(text)] leaves the
    buffer unchanged when [text] is blank and otherwise appends [text]
    without its trailing line feeds; [get_logs()] is the line-feed
    concatenation, in order, of the stripped non-blank texts written so
    far after the lines already present. *)
Theorem write_appends_stripped_nonblank :
  forall (lc : LogCapture.t) (msgs : list string),
    (forall text,
        LogCapture.write lc text =
          if blank text then lc
          else {| LogCapture.lines :=
                   (LogCapture.lines lc
                      ++ [PyStr.rstrip PyStr.is_newline text])%list |}) /\
    LogCapture.get_logs (fold_left LogCapture.write msgs lc)
    = PyStr.join PyStr.newline
        (LogCapture.lines lc
           ++ map (PyStr.rstrip PyStr.is_newline)
                  (filter (fun m => negb (blank m)) msgs))%list.
Proof.
  intros lc msgs. split.
  - intros text. apply write_cases.
  - unfold LogCapture.get_logs. now rewrite lines_fold_write.
Qed.

(** ** What a computation leaves alone *)

Section KeepsFacts.
Context {X : Type} (f : State -> X).

Lemma keeps_ret {A} (a : A) : keeps f (ret a).
Proof. intros s. reflexivity. Qed.

Lemma keeps_raise {A} (e : exn) : keeps f (@raise A e).
Proof. intros s. reflexivity. Qed.

Lemma keeps_get_state : keeps f get_state.
Proof. intros s. reflexivity. Qed.

Lemma keeps_bind {A B} (m : M A) (k : A -> M B) :
  keeps f m -> (forall a, keeps f (k a)) -> keeps f (bind m k).
Proof.
  intros Hm Hk s. unfold bind. specialize (Hm s).
  destruct (m s) as [s1 [e|a]]; cbn [fst] in *; [exact Hm|].
  now rewrite Hk.
Qed.

Lemma keeps_try_except {A} (body : M A) catches (handler : exn -> M A) :
  keeps f body -> (forall e, keeps f (handler e)) ->
  keeps f (try_except body catches handler).
Proof.
  intros Hb Hh s. unfold try_except. specialize (Hb s).
  destruct (body s) as [s1 [e|a]]; cbn [fst] in *; [|exact Hb].
  destruct (catches e); [now rewrite Hh | exact Hb].
Qed.

Lemma keeps_try_finally {A} (body : M A) (fin : M unit) :
  keeps f body -> keeps f fin -> keeps f (try_finally body fin).
Proof.
  intros Hb Hf s. unfold try_finally. specialize (Hb s).
  destruct (body s) as [s1 r]. specialize (Hf s1).
  destruct (fin s1) as [s2 [e|u]]; cbn [fst] in *; congruence.
Qed.

Lemma keeps_modify (g : State -> State) :
  (forall s, f (g s) = f s) -> keeps f (modify g).
Proof. intros H s. apply H. Qed.

End KeepsFacts.

(** ** Notification *)

Section NotifyFacts.
Import ScraperManager.
Variable beh : behaviour.

Lemma same_run_state_refl (s : State) : same_run_state s s.
Proof. repeat split. Qed.

Lemma same_run_state_trans (s1 s2 s3 : State) :
  same_run_state s1 s2 -> same_run_state s2 s3 -> same_run_state s1 s3.
Proof. unfold same_run_state. intuition congruence. Qed.

Lemma apply_sub_op_frame (s : State) (o : sub_op) :
  same_run_state s (apply_sub_op s o) /\
  delivered (apply_sub_op s o) = delivered s.
Proof.
  destruct o as [c|c]; cbn [apply_sub_op]; unfold subscribe, unsubscribe.
  - repeat split.
  - destruct (mem c (subscribers s)); repeat split.
Qed.

Lemma apply_sub_ops_frame (ops : list sub_op) (s : State) :
  same_run_state s (fold_left apply_sub_op ops s) /\
  delivered (fold_left apply_sub_op ops s) = delivered s.
Proof.
  revert s. induction ops as [|o ops IH]; intros s; cbn [fold_left].
  - split; [apply same_run_state_refl | reflexivity].
  - destruct (apply_sub_op_frame s o) as [F D].
    destruct (IH (apply_sub_op s o)) as [F' D']. split.
    + eapply same_run_state_trans; eassumption.
    + congruence.
Qed.

Lemma call_frame (c : callback) (m : Message) (s : State) :
  same_run_state s (fst (call beh c m s)) /\
  delivered (fst (call beh c m s)) = (delivered s ++ [(c, m)])%list.
Proof.
  unfold call.
  destruct (apply_sub_ops_frame (fst (beh c m))
              (set_delivered (delivered s ++ [(c, m)]) s)) as [F D].
  destruct (snd (beh c m)); cbn [fst]; (split; [|exact D]);
    (eapply same_run_state_trans; [|exact F]); repeat split.
Qed.


(** One turn of the loop. *)
Lemma notify_each_cons (c : callback) (rest : list callback)
      (m : Message) (s : State) :
  notify_each beh (c :: rest) m s =
    match snd (beh c m) with
    | Some e =>
        if is_Exception e then notify_each beh rest m (fst (call beh c m s))
        else (fst (call beh c m s), inl e)
    | None => notify_each beh rest m (fst (call beh c m s))
    end.
Proof.
  cbn [notify_each]. unfold bind, try_except, call, ret.
  destruct (snd (beh c m)) as [e|]; [destruct (is_Exception e)|];
    reflexivity.
Qed.

Lemma notify_each_frame (subs : list callback) (m : Message) (s : State) :
  same_run_state s (fst (notify_each beh subs m s)).
Proof.
  revert s. induction subs as [|c rest IH]; intros s.
  - apply same_run_state_refl.
  - rewrite notify_each_cons. destruct (call_frame c m s) as [F _].
    destruct (snd (beh c m)) as [e|]; [destruct (is_Exception e)|];
      cbn [fst]; try exact F;
      (eapply same_run_state_trans; [exact F | apply IH]).
Qed.

(** The loop lets nothing out but what is not an [Exception]. *)
Lemma notify_each_result (subs : list callback) (m : Message) (s : State) :
  match snd (notify_each beh subs m s) with
  | inr _ => True
  | inl e => is_Exception e = false
  end.
Proof.
  revert s. induction subs as [|c rest IH]; intros s.
  - exact I.
  - rewrite notify_each_cons.
    destruct (snd (beh c m)) as [e|]; [destruct (is_Exception e) eqn:E|];
      [apply IH | exact E | apply IH].
Qed.

(** Every callback of the copied list is called once, in order,
    whatever the callbacks raise or do to the subscriber list. *)
Lemma notify_each_delivered (subs : list callback) (m : Message) (s : State) :
  raises_only_Exception beh ->
  snd (notify_each beh subs m s) = inr tt /\
  delivered (fst (notify_each beh subs m s))
  = (delivered s ++ map (fun c => (c, m)) subs)%list.
Proof.
  intros Hb. revert s. induction subs as [|c rest IH]; intros s.
  - cbn. now rewrite app_nil_r.
  - rewrite notify_each_cons. destruct (call_frame c m s) as [_ D].
    destruct (IH (fst (call beh c m s))) as [R D'].
    rewrite D in D'. cbn [map]. rewrite <- app_assoc in D'. cbn [app] in D'.
    destruct (snd (beh c m)) as [e|] eqn:E; [|now split].
    rewrite (Hb c m e E). now split.
Qed.


Lemma notify_unfold (m : Message) (s : State) :
  _notify_subscribers beh m s = notify_each beh (subscribers s) m s.
Proof. reflexivity. Qed.

End NotifyFacts.

(** ** Claims about the manager's methods *)

Lemma rude_raises_only_Exception : raises_only_Exception Scenario.rude.
Proof.
  intros c m e. unfold Scenario.rude.
  destruct (Nat.eqb c 1); cbn [snd]; intros E; inversion E; reflexivity.
Defined.

Lemma quiet_raises_only_Exception : raises_only_Exception Scenario.quiet.
Proof. intros c m e E. inversion E. Defined.


Section ReachedFacts.
Import ScraperManager.
Variable beh : behaviour.

(** The calls of one fan-out, whatever the callbacks raise. *)
Lemma notify_each_reached (subs : list callback) (m : Message) (s : State) :
  delivered (fst (notify_each beh subs m s))
  = (delivered s ++ map (fun c => (c, m)) (reached beh subs m))%list.
Proof.
  revert s. induction subs as [|c rest IH]; intros s.
  - cbn. now rewrite app_nil_r.
  - rewrite notify_each_cons. destruct (call_frame beh c m s) as [_ D].
    pose proof (IH (fst (call beh c m s))) as D'.
    rewrite D, <- app_assoc in D'. cbn [app] in D'.
    cbn [reached].
    destruct (snd (beh c m)) as [e|]; [destruct (is_Exception e)|];
      cbn [map fst]; assumption.
Qed.

Lemma reached_all (subs : list callback) (m : Message) :
  (forall c e, In c subs -> snd (beh c m) = Some e -> is_Exception e = true) ->
  reached beh subs m = subs /\
  forall s, snd (notify_each beh subs m s) = inr tt.
Proof.
  induction subs as [|c rest IH]; intros H; [now split|].
  destruct IH as [Re R]. { intros c' e' I. apply H. now right. }
  split.
  - cbn [reached]. destruct (snd (beh c m)) as [e|] eqn:E.
    + rewrite (H c e (or_introl eq_refl) E). now rewrite Re.
    + now rewrite Re.
  - intros s. rewrite notify_each_cons.
    destruct (snd (beh c m)) as [e|] eqn:E; [|apply R].
    rewrite (H c e (or_introl eq_refl) E). apply R.
Qed.

Lemma reached_stops (before after : list callback) (c : callback)
      (e : exn) (m : Message) :
  (forall c' e', In c' before -> snd (beh c' m) = Some e' ->
                 is_Exception e' = true) ->
  snd (beh c m) = Some e -> is_Exception e = false ->
  reached beh (before ++ c :: after) m = (before ++ [c])%list /\
  forall s, snd (notify_each beh (before ++ c :: after) m s) = inl e.
Proof.
  intros H E NE. induction before as [|b before IH].
  - split.
    + cbn [app reached]. now rewrite E, NE.
    + intros s. cbn [app]. rewrite notify_each_cons. now rewrite E, NE.
  - destruct IH as [Re R]. { intros c' e' I. apply H. now right. }
    split.
    + cbn [app reached]. destruct (snd (beh b m)) as [e'|] eqn:E'.
      * rewrite (H b e' (or_introl eq_refl) E'). now rewrite Re.
      * now rewrite Re.
    + intros s. cbn [app]. rewrite notify_each_cons.
      destruct (snd (beh b m)) as [e'|] eqn:E'; [|apply R].
      rewrite (H b e' (or_introl eq_refl) E'). apply R.
Qed.

End ReachedFacts.

(** C8, as stated, fails: an exception that is not an instance of
    [Exception] is not caught.  With the subscribers 1, 2 and 3 and
    callback 1 leaving through [sys.exit()], the exception leaves
    [_notify_subscribers] and callbacks 2 and 3, both in the copied
    list, are never called. *)
Lemma every_exception_isolated_counterexample :
  let out := ScraperManager._notify_subscribers Cases.abrupt Scenario.hello
               Scenario.three_listeners in
  subscribers Scenario.three_listeners = [1; 2; 3]%nat /\
  snd out = inl Scenario.interrupted /\
  delivered (fst out) = [(1%nat, Scenario.hello)] /\
  received 2%nat (fst out) = [] /\
  received 3%nat (fst out) = [].
Proof. vm_compute. repeat split. Qed.

(** C8, amended: [_notify_subscribers] calls the callbacks of the copy
    of the subscriber list it took, in order, whatever they do to the
    subscriber list meanwhile.  An exception that is an instance of
    [Exception] raised by a callback is caught: when the callbacks of
    the copy raise nothing else, every one of them is called once and
    [_notify_subscribers] returns normally.  An exception that is not
    an instance of [Exception] is not caught: the first callback that
    raises one is the last one called, and the exception leaves
    [_notify_subscribers]. *)
Theorem notify_isolates_Exceptions :
  forall (beh : behaviour) (m : Message) (s : State),
    let out := ScraperManager._notify_subscribers beh m s in
    delivered (fst out)
    = (delivered s
         ++ map (fun c => (c, m)) (reached beh (subscribers s) m))%list /\
    ((forall c e, In c (subscribers s) -> snd (beh c m) = Some e ->
                  is_Exception e = true) ->
     reached beh (subscribers s) m = subscribers s /\ snd out = inr tt) /\
    (forall before c after e,
        subscribers s = (before ++ c :: after)%list ->
        (forall c' e', In c' before -> snd (beh c' m) = Some e' ->
                       is_Exception e' = true) ->
        snd (beh c m) = Some e -> is_Exception e = false ->
        reached beh (subscribers s) m = (before ++ [c])%list /\
        snd out = inl e).
Proof.
  intros beh m s out. subst out. rewrite notify_unfold.
  split; [apply notify_each_reached|]. split.
  - intros H. destruct (reached_all beh (subscribers s) m H) as [Re R].
    split; [exact Re | apply R].
  - intros before c after e Hs H E NE. rewrite Hs.
    destruct (reached_stops beh before after c e m H E NE) as [Re R].
    split; [exact Re | apply R].
Qed.

Lemma notify_isolates_Exceptions_witness :
  (delivered (fst (ScraperManager._notify_subscribers Scenario.rude
                     Scenario.hello Scenario.three_listeners))
   = [(1%nat, Scenario.hello); (2%nat, Scenario.hello);
      (3%nat, Scenario.hello)] /\
   snd (ScraperManager._notify_subscribers Scenario.rude Scenario.hello
          Scenario.three_listeners) = inr tt /\
   subscribers (fst (ScraperManager._notify_subscribers Scenario.rude
                       Scenario.hello Scenario.three_listeners))
   = [1%nat; 3%nat]) /\
  (delivered (fst (ScraperManager._notify_subscribers Cases.abrupt
                     Scenario.hello Scenario.three_listeners))
   = [(1%nat, Scenario.hello)] /\
   snd (ScraperManager._notify_subscribers Cases.abrupt Scenario.hello
          Scenario.three_listeners) = inl Scenario.interrupted).
Proof.
  split.
  - destruct (notify_isolates_Exceptions Scenario.rude Scenario.hello
                Scenario.three_listeners) as (D & A & _).
    destruct A as [Re R].
    { intros c e _. apply rude_raises_only_Exception. }
    rewrite Re in D. split; [exact D|]. split; [exact R | reflexivity].
  - destruct (notify_isolates_Exceptions Cases.abrupt Scenario.hello
                Scenario.three_listeners) as (D & _ & B).
    destruct (B [] 1%nat [2; 3]%nat Scenario.interrupted eq_refl) as [Re R];
      [intros c' e' [] | reflexivity | reflexivity |].
    rewrite Re in D. split; [exact D | exact R].
Defined.

(** C3: while [is_running()] is true, [trigger_scrape] raises
    [RuntimeError("Scraper is already running")], returns no run id and
    leaves the whole state, Run Store included, as it was. *)
Theorem trigger_while_running_fails :
  forall (beh : behaviour) (a : TriggerArgs) (w : TriggerWorld) (s : State),
    ScraperManager.is_running s = true ->
    ScraperManager.trigger_scrape beh a w s = (s, inl already_running).
Proof.
  intros beh a w s H.
  unfold ScraperManager.trigger_scrape, ScraperManager.trigger_check,
    bind, get_state.
  now rewrite H.
Qed.

Lemma trigger_while_running_fails_witness :
  ScraperManager.is_running Scenario.started = true /\
  ScraperManager.trigger_scrape Scenario.quiet Scenario.admin_args
    Scenario.tw_ok Scenario.started
  = (Scenario.started, inl already_running).
Proof.
  split; [reflexivity|].
  apply (trigger_while_running_fails Scenario.quiet Scenario.admin_args
           Scenario.tw_ok Scenario.started).
  reflexivity.
Defined.

(** C7: [cancel_scrape] returns [False] and changes nothing, the flag
    included, when no run is active; when a run is active it sets
    [cancel_flag], returns [True], and leaves the worker thread, the
    active-run slot, the log sink and the Run Store as they were: the
    worker is still alive and the manager still running. *)
Theorem cancel_scrape_sets_flag_only :
  forall (beh : behaviour) (s : State),
    (ScraperManager.is_running s = false ->
     ScraperManager.cancel_scrape beh s = (s, inr false)) /\
    (ScraperManager.is_running s = true ->
     raises_only_Exception beh ->
     exists s',
       ScraperManager.cancel_scrape beh s = (s', inr true) /\
       cancel_flag s' = true /\
       threads s' = threads s /\
       current_thread s' = current_thread s /\
       current_run_id s' = current_run_id s /\
       log_capture s' = log_capture s /\
       store s' = store s /\
       ScraperManager.is_running s' = true).
Proof.
  intros beh s. split.
  - intros H. unfold ScraperManager.cancel_scrape, bind, get_state.
    now rewrite H.
  - intros H Hb.
    set (m := status_message (current_run_id s) "cancelled" None None None).
    set (s1 := set_cancel_flag true s).
    destruct (notify_each_delivered beh (subscribers s1) m s1 Hb) as [R _].
    pose proof (notify_each_frame beh (subscribers s1) m s1) as F.
    exists (fst (ScraperManager.notify_each beh (subscribers s1) m s1)).
    assert (E : ScraperManager.cancel_scrape beh s
                = (fst (ScraperManager.notify_each beh (subscribers s1) m s1),
                   inr true)).
    { unfold ScraperManager.cancel_scrape, bind, get_state, modify.
      rewrite H. cbn [negb fst snd].
      unfold ScraperManager._notify_subscribers, bind, get_state.
      fold s1. change (ScraperManager.get_current_run_id s1)
        with (current_run_id s). fold m.
      destruct (ScraperManager.notify_each beh (subscribers s1) m s1)
        as [s2 r]. cbn [snd fst] in *. now rewrite R. }
    destruct F as (F1 & F2 & F3 & F4 & F5 & F6).
    repeat split; try assumption.
    unfold ScraperManager.is_running, ScraperManager.is_alive in *.
    rewrite F2, F5. exact H.
Qed.

Lemma cancel_scrape_sets_flag_only_witness :
  (ScraperManager.is_running Scenario.idle = false /\
   ScraperManager.cancel_scrape Scenario.quiet Scenario.idle
   = (Scenario.idle, inr false)) /\
  (ScraperManager.is_running Scenario.started = true /\
   raises_only_Exception Scenario.quiet /\
   exists s',
     ScraperManager.cancel_scrape Scenario.quiet Scenario.started
     = (s', inr true) /\
     cancel_flag s' = true /\
     ScraperManager.is_running s' = true).
Proof.
  split.
  - split; [reflexivity|].
    apply (proj1 (cancel_scrape_sets_flag_only Scenario.quiet Scenario.idle)).
    reflexivity.
  - split; [reflexivity|]. split; [exact quiet_raises_only_Exception|].
    destruct (proj2 (cancel_scrape_sets_flag_only Scenario.quiet
                       Scenario.started)
                eq_refl quiet_raises_only_Exception)
      as (s' & E & C & _ & _ & _ & _ & _ & R).
    exists s'. repeat split; assumption.
Defined.

(** C10: when [current_thread] is [None], [wait_for_completion] returns
    [True] at once, for every timeout and whatever any worker would do,
    and changes nothing. *)
Theorem wait_without_worker_returns_true :
  forall (beh : behaviour) (timeout : option Q)
         (progress : option WorkerWorld) (s : State),
    current_thread s = None ->
    ScraperManager.wait_for_completion beh timeout progress s
    = (s, inr (Some true)).
Proof.
  intros beh timeout progress s H.
  unfold ScraperManager.wait_for_completion, bind, get_state.
  now rewrite H.
Qed.

Lemma wait_without_worker_returns_true_witness :
  current_thread Scenario.idle = None /\
  ScraperManager.wait_for_completion Scenario.quiet None None Scenario.idle
  = (Scenario.idle, inr (Some true)).
Proof.
  split; [reflexivity|].
  apply (wait_without_worker_returns_true Scenario.quiet None None
           Scenario.idle).
  reflexivity.
Defined.

(** ** The worker *)

Section WorkerFacts.
Import ScraperManager.
Variable beh : behaviour.

Lemma fold_emit (ws : list string) (s : State) (lc : LogCapture.t) :
  log_capture s = Some lc ->
  fold_left emit ws s
  = set_log_capture (Some (fold_left LogCapture.write ws lc)) s.
Proof.
  revert s lc. induction ws as [|m ws IH]; intros s lc H; cbn [fold_left].
  - rewrite <- H. now destruct s.
  - unfold emit at 2. rewrite H.
    now rewrite (IH _ (LogCapture.write lc m)).
Qed.

(** The guarded engine call, when the engine returns or raises an
    [Exception]: the error line is logged and counted. *)
Lemma run_engine_guarded_ok (w : WorkerWorld) (s : State)
      (lc : LogCapture.t) :
  log_capture s = Some lc ->
  engine_ends_in_Exception_or_returns w = true ->
  run_engine_guarded w s
  = (set_log_capture (Some (captured w lc)) s, inr (errors_of w)).
Proof.
  intros Hlc He.
  unfold run_engine_guarded, try_except, bind, run_engine, captured,
    errors_of, engine_ends_in_Exception_or_returns in *.
  rewrite (fold_emit _ _ _ Hlc).
  destruct (engine_result w) as [e|]; [|reflexivity].
  rewrite He. unfold engine_error_line.
  destruct (is_ImportError e); reflexivity.
Qed.

(** The whole worker when the [completed] UPDATE is accepted. *)
Lemma run_scraper_completed (rid limit : Z) (st : list string)
      (w : WorkerWorld) (s : State) (lc : LogCapture.t) :
  log_capture s = Some lc ->
  engine_ends_in_Exception_or_returns w = true ->
  update_fault w = None ->
  let logs := LogCapture.get_logs (captured w lc) in
  let s2 := store_updated rid "completed" (count_markers logs) (errors_of w)
              (Some logs) None
              (set_log_capture (Some (captured w lc)) s) in
  let m := completed_message rid (count_markers logs) (errors_of w) in
  _run_scraper beh rid limit st w s
  = (cleaned (fst (notify_each beh (subscribers s) m s2)),
     snd (notify_each beh (subscribers s) m s2)).
Proof.
  intros Hlc He Hu logs s2 m.
  unfold _run_scraper, try_finally, try_except, worker_body.
  unfold bind at 1. rewrite (run_engine_guarded_ok w s lc Hlc He).
  unfold bind at 1. unfold lc_get_logs at 1.
  cbn [log_capture set_log_capture]. fold logs.
  unfold bind at 1. unfold Database.update_scraper_run at 1. rewrite Hu.
  rewrite notify_unfold.
  change (notify_each beh _ _ _) with (notify_each beh (subscribers s) m s2).
  pose proof (notify_each_result beh (subscribers s) m s2) as R.
  destruct (notify_each beh (subscribers s) m s2) as [s3 [e|u]];
    cbn [fst snd] in *.
  - rewrite R. reflexivity.
  - reflexivity.
Qed.

(** The whole worker when the [completed] UPDATE is refused with an
    [Exception] and the [failed] UPDATE is accepted. *)
Lemma run_scraper_failed_update (rid limit : Z) (st : list string)
      (w : WorkerWorld) (s : State) (lc : LogCapture.t) (e : exn) :
  log_capture s = Some lc ->
  engine_ends_in_Exception_or_returns w = true ->
  update_fault w = Some e -> is_Exception e = true ->
  failed_update_fault w = None ->
  let logs := LogCapture.get_logs (captured w lc) in
  let s2 := store_updated rid "failed" 0 0 (Some logs) (Some (str_exn e))
              (set_log_capture (Some (captured w lc)) s) in
  let m := failed_message rid e in
  _run_scraper beh rid limit st w s
  = (cleaned (fst (notify_each beh (subscribers s) m s2)),
     snd (notify_each beh (subscribers s) m s2)).
Proof.
  intros Hlc He Hu HE Hf logs s2 m.
  unfold _run_scraper, try_finally, try_except, worker_body.
  unfold bind at 1. rewrite (run_engine_guarded_ok w s lc Hlc He).
  unfold bind at 1. unfold lc_get_logs at 1.
  cbn [log_capture set_log_capture].
  unfold bind at 1. unfold Database.update_scraper_run at 1. rewrite Hu, HE.
  unfold worker_handler, bind, get_state.
  cbn [log_capture set_log_capture]. fold logs.
  unfold Database.update_scraper_run. rewrite Hf.
  rewrite notify_unfold.
  change (notify_each beh _ _ _) with (notify_each beh (subscribers s) m s2).
  now destruct (notify_each beh (subscribers s) m s2) as [s3 [e'|u]].
Qed.

(** Nothing in the worker touches the thread table. *)
Lemma keeps_threads_notify (m : Message) :
  keeps threads (_notify_subscribers beh m).
Proof.
  intros s. rewrite notify_unfold.
  now destruct (notify_each_frame beh (subscribers s) m s)
    as (_ & _ & _ & _ & T & _).
Qed.

Lemma keeps_threads_update rid status n errs logs err fault :
  keeps threads (Database.update_scraper_run rid status n errs logs err fault).
Proof.
  intros s. unfold Database.update_scraper_run. now destruct fault.
Qed.

Lemma keeps_threads_lc_write (text : string) : keeps threads (lc_write text).
Proof. intros s. unfold lc_write. now destruct (log_capture s). Qed.

Lemma keeps_threads_lc_get_logs : keeps threads lc_get_logs.
Proof. intros s. unfold lc_get_logs. now destruct (log_capture s). Qed.

Lemma keeps_threads_run_engine (w : WorkerWorld) :
  keeps threads (run_engine w).
Proof.
  intros s. unfold run_engine. cbn [fst].
  generalize (engine_writes w) as ws. intros ws. revert s.
  induction ws as [|x ws IH]; intros s; cbn [fold_left]; [reflexivity|].
  rewrite IH. unfold emit. now destruct (log_capture s).
Qed.

Lemma keeps_threads_run_scraper (rid limit : Z) (st : list string)
      (w : WorkerWorld) :
  keeps threads (_run_scraper beh rid limit st w).
Proof.
  unfold _run_scraper. apply keeps_try_finally.
  - apply keeps_try_except.
    + unfold worker_body. apply keeps_bind.
      * unfold run_engine_guarded. apply keeps_try_except.
        -- apply keeps_bind; [apply keeps_threads_run_engine|].
           intros _. apply keeps_ret.
        -- intros e. destruct (is_ImportError e);
             (apply keeps_bind; [apply keeps_threads_lc_write|]);
             intros _; apply keeps_ret.
      * intros errors. apply keeps_bind; [apply keeps_threads_lc_get_logs|].
        intros logs. apply keeps_bind; [apply keeps_threads_update|].
        intros _. apply keeps_threads_notify.
    + intros e. unfold worker_handler.
      apply keeps_bind; [apply keeps_get_state|]. intros s0.
      apply keeps_bind; [apply keeps_threads_update|].
      intros _. apply keeps_threads_notify.
  - unfold worker_cleanup. now apply keeps_modify.
Qed.

(** However its body ends, the worker leaves through the clean-up. *)
Lemma run_scraper_cleans (rid limit : Z) (st : list string)
      (w : WorkerWorld) (s : State) :
  current_run_id (fst (_run_scraper beh rid limit st w s)) = None /\
  current_thread (fst (_run_scraper beh rid limit st w s)) = None /\
  log_capture (fst (_run_scraper beh rid limit st w s)) = None.
Proof.
  unfold _run_scraper, try_finally.
  destruct (try_except (worker_body beh rid w) is_Exception
              (worker_handler beh rid w) s) as [s1 r].
  unfold worker_cleanup, modify. cbn. repeat split.
Qed.

Lemma nth_error_set_alive (l : list Thread) (t : nat) (th : Thread) (b : bool) :
  nth_error l t = Some th ->
  exists th', nth_error (set_alive t b l) t = Some th' /\ th_alive th' = b.
Proof.
  revert t. induction l as [|x l IH]; intros [|t] H; cbn in *;
    try discriminate.
  - eexists. split; reflexivity.
  - now apply IH.
Qed.

(** Rows of the Run Store. *)
Lemma find_updated (rid : Z) (status : string) (n errs : Z)
      (logs err : option string) (l : list Run) (r0 : Run) :
  find (fun r => run_id r =? rid) l = Some r0 ->
  find (fun r => run_id r =? rid)
       (map (Database.update_row rid status n errs logs err) l)
  = Some (Database.update_row rid status n errs logs err r0).
Proof.
  induction l as [|r l IH]; cbn [find map]; [discriminate|].
  destruct (run_id r =? rid) eqn:E.
  - intros H. injection H as <-. unfold Database.update_row at 1.
    rewrite E. cbn [run_id]. now rewrite E.
  - intros H. unfold Database.update_row at 1. rewrite E, E. now apply IH.
Qed.

End WorkerFacts.

(** ** Claims about the worker *)

Section RunThreadFacts.
Import ScraperManager.
Variable beh : behaviour.

Lemma run_thread_alive (t : nat) (w : WorkerWorld) (s : State) (th : Thread) :
  nth_error (threads s) t = Some th -> th_alive th = true ->
  run_thread beh t w s
  = (set_threads
       (set_alive t false
          (threads (fst (_run_scraper beh (th_run_id th) (th_limit th)
                           (th_story_types th) w s))))
       (fst (_run_scraper beh (th_run_id th) (th_limit th)
               (th_story_types th) w s)),
     match snd (_run_scraper beh (th_run_id th) (th_limit th)
                  (th_story_types th) w s) with
     | inl e => Some e
     | inr _ => None
     end).
Proof.
  intros Ht Ha. unfold run_thread. rewrite Ht, Ha.
  now destruct (_run_scraper beh (th_run_id th) (th_limit th)
                  (th_story_types th) w s).
Qed.

(** The row of the run after a worker whose [completed] UPDATE is
    accepted. *)
Lemma run_thread_completed_row (t : nat) (w : WorkerWorld) (s : State)
      (th : Thread) (lc : LogCapture.t) (r0 : Run) :
  nth_error (threads s) t = Some th -> th_alive th = true ->
  log_capture s = Some lc ->
  Database.get_scraper_run (store s) (th_run_id th) = Some r0 ->
  engine_ends_in_Exception_or_returns w = true ->
  update_fault w = None ->
  let logs := LogCapture.get_logs (captured w lc) in
  Database.get_scraper_run (store (fst (run_thread beh t w s))) (th_run_id th)
  = Some (Database.update_row (th_run_id th) "completed"
            (count_markers logs) (errors_of w) (Some logs) None r0).
Proof.
  intros Ht Ha Hlc Hr He Hu logs.
  rewrite (run_thread_alive t w s th Ht Ha).
  rewrite (run_scraper_completed beh _ _ _ w s lc Hlc He Hu).
  cbn [fst store set_threads cleaned set_log_capture set_current_thread
         set_current_run_id].
  match goal with
  | |- context [notify_each beh ?subs ?m ?s2] =>
      destruct (notify_each_frame beh subs m s2) as (_ & _ & _ & _ & _ & S)
  end.
  rewrite S. unfold store_updated, Database.get_scraper_run in *.
  cbn [store set_store rows set_log_capture].
  now apply find_updated.
Qed.

(** Nothing leaves a worker whose [completed] UPDATE is accepted, as
    long as the subscribers raise nothing beyond [Exception]. *)
Lemma run_thread_completed_contained (t : nat) (w : WorkerWorld) (s : State)
      (th : Thread) (lc : LogCapture.t) :
  nth_error (threads s) t = Some th -> th_alive th = true ->
  log_capture s = Some lc ->
  engine_ends_in_Exception_or_returns w = true ->
  update_fault w = None ->
  raises_only_Exception beh ->
  snd (run_thread beh t w s) = None.
Proof.
  intros Ht Ha Hlc He Hu Hb.
  rewrite (run_thread_alive t w s th Ht Ha).
  rewrite (run_scraper_completed beh _ _ _ w s lc Hlc He Hu).
  cbn [snd].
  match goal with
  | |- context [notify_each beh ?subs ?m ?s2] =>
      destruct (notify_each_delivered beh subs m s2 Hb) as [R _]
  end.
  now rewrite R.
Qed.

End RunThreadFacts.

(** C2: however the body of the worker ends (whatever the engine writes,
    returns or raises, [BaseException]s included, whatever the Run
    Store answers to the updates, whether or not a cancellation was
    requested, whatever the subscribers do), once the worker thread has
    run, [is_running()] is false, [get_current_run_id()] is [None], and
    [current_thread] and [log_capture] are [None]; the thread is no
    longer alive. *)
Theorem worker_end_clears_active_run :
  forall (beh : behaviour) (t : nat) (w : WorkerWorld) (s : State)
         (th : Thread),
    nth_error (threads s) t = Some th -> th_alive th = true ->
    let s' := fst (ScraperManager.run_thread beh t w s) in
    ScraperManager.is_running s' = false /\
    ScraperManager.get_current_run_id s' = None /\
    current_thread s' = None /\
    log_capture s' = None /\
    ScraperManager.is_alive s' t = false.
Proof.
  intros beh t w s th Ht Ha s'. subst s'.
  rewrite (run_thread_alive beh t w s th Ht Ha). cbn [fst].
  destruct (run_scraper_cleans beh (th_run_id th) (th_limit th)
              (th_story_types th) w s) as (C1 & C2 & C3).
  pose proof (keeps_threads_run_scraper beh (th_run_id th) (th_limit th)
                (th_story_types th) w s) as K.
  unfold ScraperManager.is_running, ScraperManager.get_current_run_id,
    ScraperManager.is_alive.
  cbn [current_thread current_run_id log_capture threads set_threads].
  rewrite C1, C2, C3, K.
  destruct (nth_error_set_alive (threads s) t th false Ht) as (th' & N & A).
  rewrite N. repeat split; assumption.
Qed.

Lemma worker_end_clears_active_run_witness :
  nth_error (threads Scenario.cancel_requested) 0
  = Some {| th_run_id := 1; th_limit := 50;
            th_story_types := ["topstories"]; th_alive := true |} /\
  cancel_flag Scenario.cancel_requested = true /\
  let s' := fst (ScraperManager.run_thread Scenario.quiet 0
                   Scenario.everything_fails Scenario.cancel_requested) in
  ScraperManager.is_running s' = false /\
  ScraperManager.get_current_run_id s' = None /\
  current_thread s' = None /\
  log_capture s' = None /\
  ScraperManager.is_alive s' 0 = false.
Proof.
  split; [reflexivity|]. split; [reflexivity|].
  apply (worker_end_clears_active_run Scenario.quiet 0
           Scenario.everything_fails Scenario.cancel_requested
           {| th_run_id := 1; th_limit := 50;
              th_story_types := ["topstories"]; th_alive := true |});
    reflexivity.
Defined.

(** An engine that prints one progress line per story, and nothing
    else, is counted exactly: the matches found in the captured text are
    the ids printed. *)
Section PrintedMarkers.
Import PyStr.

Lemma digit_not_newline (c : ascii) :
  isdigit c = true -> is_newline c = false.
Proof.
  unfold isdigit, is_newline. intros H.
  apply andb_prop in H as [H _]. apply Nat.leb_le in H.
  apply Nat.eqb_neq. lia.
Qed.

Lemma rstrip_digits (ds : string) :
  all_digits ds = true -> rstrip is_newline ds = ds.
Proof.
  induction ds as [|c ds IH]; cbn [all_digits rstrip]; [reflexivity|].
  intros H. apply andb_prop in H as [Hc Hd]. rewrite (IH Hd).
  destruct ds; [now rewrite (digit_not_newline c Hc) | reflexivity].
Qed.

Lemma rstrip_append_fixed (p : ascii -> bool) (a s : string) :
  s <> "" -> rstrip p s = s -> rstrip p (a ++ s) = a ++ s.
Proof.
  intros Hne Hs. induction a as [|x a IH]; cbn [append rstrip]; [exact Hs|].
  rewrite IH. destruct (a ++ s) eqn:E; [|reflexivity].
  destruct a; cbn in E; [congruence | discriminate].
Qed.

Lemma write_marker_line (lc : LogCapture.t) (ds : string) :
  ds <> "" -> all_digits ds = true ->
  LogCapture.write (LogCapture.write lc (marker_line ds)) newline
  = {| LogCapture.lines := (LogCapture.lines lc ++ [marker_line ds])%list |}.
Proof.
  intros Hne Hd. rewrite (write_cases _ newline).
  change (blank newline) with true. cbv iota.
  rewrite write_cases.
  change (blank (marker_line ds)) with false. cbv iota.
  unfold marker_line.
  now rewrite (rstrip_append_fixed _ _ _ Hne (rstrip_digits _ Hd)).
Qed.

Lemma printed_markers_captured (dss : list string) (lc : LogCapture.t) :
  Forall (fun ds => ds <> "" /\ all_digits ds = true) dss ->
  LogCapture.lines
    (fold_left LogCapture.write (printed (map marker_line dss)) lc)
  = (LogCapture.lines lc ++ map marker_line dss)%list.
Proof.
  intros H. revert lc. induction H as [|ds dss [Hne Hd] _ IH]; intros lc.
  - cbn. now rewrite app_nil_r.
  - cbn [map printed flat_map app fold_left].
    rewrite (write_marker_line lc ds Hne Hd).
    change (flat_map _ (map marker_line dss))
      with (printed (map marker_line dss)).
    rewrite IH. cbn [LogCapture.lines]. now rewrite <- app_assoc.
Qed.

Lemma printed_markers_counted (dss : list string) :
  Forall (fun ds => ds <> "" /\ all_digits ds = true) dss ->
  count_markers
    (LogCapture.get_logs
       (fold_left LogCapture.write (printed (map marker_line dss))
                  LogCapture.init))
  = Z.of_nat (List.length dss).
Proof.
  intros H. unfold count_markers, LogCapture.get_logs.
  rewrite (printed_markers_captured dss LogCapture.init H).
  cbn [LogCapture.lines LogCapture.init app].
  now rewrite (findall_marker_lines dss H).
Qed.

End PrintedMarkers.

(** C5: when the engine returns normally and the Run Store accepts the
    update, the run's row has status [completed], [errors_count] 0, no
    error message, the captured text as [logs], and a
    [stories_processed] equal to the number of places of that text at
    which a processed-item marker starts (the words "Processing story "
    followed by a digit).  In particular, when the engine prints one
    marker line per story and nothing else, [stories_processed] is the
    number of lines printed. *)
Theorem completed_run_counts_markers :
  forall (beh : behaviour) (t : nat) (w : WorkerWorld) (s : State)
         (th : Thread) (lc : LogCapture.t) (r0 : Run),
    nth_error (threads s) t = Some th -> th_alive th = true ->
    log_capture s = Some lc ->
    Database.get_scraper_run (store s) (th_run_id th) = Some r0 ->
    engine_result w = None ->
    update_fault w = None ->
    let logs :=
      LogCapture.get_logs (fold_left LogCapture.write (engine_writes w) lc) in
    exists r,
      Database.get_scraper_run
        (store (fst (ScraperManager.run_thread beh t w s))) (th_run_id th)
      = Some r /\
      run_status r = "completed" /\
      run_stories_processed r = Some (Z.of_nat (marker_occurrences logs)) /\
      run_errors_count r = Some 0 /\
      run_logs r = Some logs /\
      run_error_message r = None /\
      (forall dss : list string,
          Forall (fun ds => ds <> "" /\ all_digits ds = true) dss ->
          lc = LogCapture.init ->
          engine_writes w = printed (map marker_line dss) ->
          run_stories_processed r = Some (Z.of_nat (List.length dss))).
Proof.
  intros beh t w s th lc r0 Ht Ha Hlc Hr He Hu logs.
  assert (He' : engine_ends_in_Exception_or_returns w = true).
  { unfold engine_ends_in_Exception_or_returns. now rewrite He. }
  pose proof (run_thread_completed_row beh t w s th lc r0 Ht Ha Hlc Hr He' Hu)
    as Row.
  cbn zeta in Row. unfold captured, errors_of in Row. rewrite He in Row.
  fold logs in Row.
  eexists. split; [exact Row|].
  unfold Database.update_row.
  assert (E : (run_id r0 =? th_run_id th) = true).
  { unfold Database.get_scraper_run in Hr.
    apply find_some in Hr. apply Hr. }
  rewrite E.
  cbn [run_status run_stories_processed run_errors_count run_logs
         run_error_message].
  split; [reflexivity|].
  split; [now rewrite count_markers_occurrences|].
  split; [reflexivity|]. split; [reflexivity|]. split; [reflexivity|].
  intros dss Hdss -> Hw. subst logs. rewrite Hw.
  now rewrite (printed_markers_counted dss Hdss).
Qed.

Lemma completed_run_counts_markers_witness :
  nth_error (threads Scenario.started) 0
  = Some {| th_run_id := 1; th_limit := 50;
            th_story_types := ["topstories"]; th_alive := true |} /\
  log_capture Scenario.started = Some LogCapture.init /\
  engine_result Scenario.three_markers = None /\
  update_fault Scenario.three_markers = None /\
  marker_occurrences
    (LogCapture.get_logs
       (fold_left LogCapture.write (engine_writes Scenario.three_markers)
                  LogCapture.init)) = 3%nat /\
  exists r,
    Database.get_scraper_run
      (store (fst (ScraperManager.run_thread Scenario.quiet 0
                     Scenario.three_markers Scenario.started))) 1
    = Some r /\
    run_status r = "completed" /\
    run_stories_processed r = Some 3 /\
    run_errors_count r = Some 0 /\
    run_error_message r = None.
Proof.
  repeat (split; [reflexivity|]).
  destruct (completed_run_counts_markers Scenario.quiet 0
              Scenario.three_markers Scenario.started
              {| th_run_id := 1; th_limit := 50;
                 th_story_types := ["topstories"]; th_alive := true |}
              LogCapture.init
              {| run_id := 1; run_status := "running";
                 run_trigger_type := "manual"; run_triggered_by := "admin";
                 run_config := {| cfg_limit := 50;
                                  cfg_story_types := ["topstories"];
                                  cfg_force_ipv4 := true |};
                 run_stories_processed := None; run_errors_count := None;
                 run_logs := None; run_error_message := None;
                 run_completed_at := false |}
              eq_refl eq_refl eq_refl eq_refl eq_refl eq_refl)
    as (r & G & S & N & E & _ & M & _).
  exists r. repeat split; assumption.
Defined.

(** C1, as stated, fails: after an engine that raises
    [Exception("network timeout")] the run's row has status [completed]
    and no error message, not status [failed] with the message. *)
Lemma engine_failure_marked_failed_counterexample :
  exists r,
    Database.get_scraper_run
      (store (fst (ScraperManager.run_thread Scenario.quiet 0
                     Scenario.timing_out Scenario.started))) 1
    = Some r /\
    run_status r = "completed" /\
    run_error_message r = None /\
    ~ (run_status r = "failed" /\
       run_error_message r = Some "network timeout").
Proof.
  eexists. split; [vm_compute; reflexivity|].
  cbn [run_status run_error_message]. repeat split.
  intros [H _]. discriminate H.
Qed.

(** C1, amended: when the engine raises an [Exception] [e] and the Run
    Store accepts the update, the worker appends the line
    "ERROR: Scraper failed: <message>" (for an [ImportError],
    "ERROR: Could not import scrape_hn module: <message>") to the
    captured text and the run's row gets status [completed],
    [errors_count] 1, no error message, and that text as [logs]; no
    exception leaves the worker, subscribers raising nothing beyond
    [Exception]. *)
Theorem engine_exception_logged_and_counted :
  forall (beh : behaviour) (t : nat) (w : WorkerWorld) (s : State)
         (th : Thread) (lc : LogCapture.t) (r0 : Run) (e : exn),
    nth_error (threads s) t = Some th -> th_alive th = true ->
    log_capture s = Some lc ->
    Database.get_scraper_run (store s) (th_run_id th) = Some r0 ->
    engine_result w = Some e -> is_Exception e = true ->
    update_fault w = None ->
    raises_only_Exception beh ->
    let logs :=
      LogCapture.get_logs
        (LogCapture.write
           (fold_left LogCapture.write (engine_writes w) lc)
           (engine_error_line e)) in
    snd (ScraperManager.run_thread beh t w s) = None /\
    exists r,
      Database.get_scraper_run
        (store (fst (ScraperManager.run_thread beh t w s))) (th_run_id th)
      = Some r /\
      run_status r = "completed" /\
      run_errors_count r = Some 1 /\
      run_error_message r = None /\
      run_logs r = Some logs /\
      run_stories_processed r = Some (count_markers logs).
Proof.
  intros beh t w s th lc r0 e Ht Ha Hlc Hr He HE Hu Hb logs.
  assert (He' : engine_ends_in_Exception_or_returns w = true).
  { unfold engine_ends_in_Exception_or_returns. now rewrite He. }
  split.
  - exact (run_thread_completed_contained beh t w s th lc Ht Ha Hlc He' Hu Hb).
  - pose proof (run_thread_completed_row beh t w s th lc r0
                  Ht Ha Hlc Hr He' Hu) as Row.
    cbn zeta in Row. unfold captured, errors_of in Row. rewrite He in Row.
    fold logs in Row.
    eexists. split; [exact Row|].
    unfold Database.update_row.
    assert (E : (run_id r0 =? th_run_id th) = true).
    { unfold Database.get_scraper_run in Hr.
      apply find_some in Hr. apply Hr. }
    rewrite E. repeat split.
Qed.

Lemma engine_exception_logged_and_counted_witness :
  nth_error (threads Scenario.started) 0
  = Some {| th_run_id := 1; th_limit := 50;
            th_story_types := ["topstories"]; th_alive := true |} /\
  engine_result Scenario.timing_out = Some Scenario.network_timeout /\
  is_Exception Scenario.network_timeout = true /\
  raises_only_Exception Scenario.quiet /\
  snd (ScraperManager.run_thread Scenario.quiet 0 Scenario.timing_out
         Scenario.started) = None /\
  exists r,
    Database.get_scraper_run
      (store (fst (ScraperManager.run_thread Scenario.quiet 0
                     Scenario.timing_out Scenario.started))) 1
    = Some r /\
    run_status r = "completed" /\
    run_errors_count r = Some 1 /\
    run_error_message r = None /\
    run_logs r = Some "ERROR: Scraper failed: network timeout".
Proof.
  repeat (split; [reflexivity|]).
  split; [exact quiet_raises_only_Exception|].
  destruct (engine_exception_logged_and_counted Scenario.quiet 0
              Scenario.timing_out Scenario.started
              {| th_run_id := 1; th_limit := 50;
                 th_story_types := ["topstories"]; th_alive := true |}
              LogCapture.init
              {| run_id := 1; run_status := "running";
                 run_trigger_type := "manual"; run_triggered_by := "admin";
                 run_config := {| cfg_limit := 50;
                                  cfg_story_types := ["topstories"];
                                  cfg_force_ipv4 := true |};
                 run_stories_processed := None; run_errors_count := None;
                 run_logs := None; run_error_message := None;
                 run_completed_at := false |}
              Scenario.network_timeout
              eq_refl eq_refl eq_refl eq_refl eq_refl eq_refl eq_refl
              quiet_raises_only_Exception)
    as (C & r & G & S & E & M & L & _).
  split; [exact C|].
  exists r. repeat split; assumption.
Defined.

(** ** Claims about a whole run *)

Section TriggerFacts.
Import ScraperManager.
Variable beh : behaviour.


End TriggerFacts.

Section TerminalNotification.
Import ScraperManager.
Variable beh : behaviour.


End TerminalNotification.

(** ** Concurrent callers *)

(** A caller that runs its four steps without interference performs
    [trigger_scrape]. *)
Lemma four_steps_are_trigger_scrape (beh : behaviour) (a : TriggerArgs)
      (tw : TriggerWorld) (s : State) :
  exists c,
    Interleaving.run beh [0; 0; 0; 0]%nat [Interleaving.calling a tw] s
    = ([c], fst (ScraperManager.trigger_scrape beh a tw s)) /\
    Interleaving.c_args c = a /\
    Interleaving.c_pc c
    = match snd (ScraperManager.trigger_scrape beh a tw s) with
      | inr rid => Interleaving.Returned rid
      | inl e => Interleaving.Raised e
      end.
Proof.
  unfold ScraperManager.trigger_scrape, Interleaving.calling, bind.
  cbn -[ScraperManager.trigger_check ScraperManager.trigger_create
        ScraperManager.trigger_mark ScraperManager.trigger_announce].
  destruct (ScraperManager.trigger_check s) as [s1 [e|u]];
    cbn -[ScraperManager.trigger_create ScraperManager.trigger_mark
          ScraperManager.trigger_announce];
    [eexists; repeat split|].
  destruct (ScraperManager.trigger_create a tw s1) as [s2 [e|rid]];
    cbn -[ScraperManager.trigger_mark ScraperManager.trigger_announce];
    [eexists; repeat split|].
  destruct (ScraperManager.trigger_mark a rid s2) as [s3 [e|u']];
    cbn -[ScraperManager.trigger_announce];
    [eexists; repeat split|].
  destruct (ScraperManager.trigger_announce beh rid s3) as [s4 [e|r]];
    cbn; eexists; repeat split.
Qed.

(** One caller after the other: the second finds the manager running. *)
Lemma sequential_callers_single_flight :
  map Interleaving.c_pc
      (fst (Interleaving.run Scenario.quiet Scenario.sequential_schedule
              Scenario.two_callers (ScraperManager.init Scenario.db0)))
  = [Interleaving.Returned 1; Interleaving.Raised already_running].
Proof. vm_compute. reflexivity. Qed.

(** C4 does not hold of the code: [is_running()] is evaluated in a
    critical section of its own, before the one that marks the run.
    When two callers both evaluate it before either marks, both calls
    of [trigger_scrape] return a run id, two rows have status
    [running], two worker threads are alive, and the manager points at
    the second run only. *)
Theorem concurrent_triggers_both_succeed :
  let final := Interleaving.run Scenario.quiet Scenario.racing_schedule
                 Scenario.two_callers (ScraperManager.init Scenario.db0) in
  map Interleaving.c_pc (fst final)
  = [Interleaving.Returned 1; Interleaving.Returned 2] /\
  map run_id (Database.running_rows (store (snd final))) = [1; 2] /\
  map th_alive (threads (snd final)) = [true; true] /\
  current_run_id (snd final) = Some 2.
Proof. vm_compute. repeat split. Qed.

(** ** One run, with its worker and cancellations *)

Section ScheduleFacts.
Import ScraperManager.
Variable beh : behaviour.

Lemma play_steps (l : list nat) (cs : list Interleaving.Caller) (s : State) :
  Schedule.play beh (map Schedule.Step l) cs s = Interleaving.run beh l cs s.
Proof.
  revert cs s. induction l as [|i l IH]; intros cs s;
    cbn [map Schedule.play Interleaving.run]; [reflexivity|].
  destruct (Interleaving.step_nth beh i cs s) as [cs' s']. apply IH.
Qed.

Lemma play_app (e1 e2 : list Schedule.event) (cs : list Interleaving.Caller)
      (s : State) :
  Schedule.play beh (e1 ++ e2) cs s
  = Schedule.play beh e2 (fst (Schedule.play beh e1 cs s))
                  (snd (Schedule.play beh e1 cs s)).
Proof.
  revert cs s. induction e1 as [|e e1 IH]; intros cs s;
    cbn [app Schedule.play]; [reflexivity|].
  destruct e as [i|t w|];
    [destruct (Interleaving.step_nth beh i cs s) as [cs' s']|..]; apply IH.
Qed.

(** The caller's four steps with nothing in between, and then [rest]. *)
Lemma play_trigger (a : TriggerArgs) (tw : TriggerWorld) (s s1 : State)
      (rid : Z) (rest : list Schedule.event) :
  trigger_scrape beh a tw s = (s1, inr rid) ->
  exists c,
    Schedule.play beh
      (Schedule.Step 0 :: Schedule.Step 0 :: Schedule.Step 0
         :: Schedule.Step 0 :: rest) [Interleaving.calling a tw] s
    = Schedule.play beh rest [c] s1 /\
    Interleaving.c_pc c = Interleaving.Returned rid.
Proof.
  intros T.
  destruct (four_steps_are_trigger_scrape beh a tw s) as (c & Run & _ & Pc).
  rewrite T in Run, Pc. cbn [fst snd] in Run, Pc.
  exists c. split; [|exact Pc].
  change (Schedule.Step 0 :: Schedule.Step 0 :: Schedule.Step 0
            :: Schedule.Step 0 :: rest)
    with (map Schedule.Step [0; 0; 0; 0]%nat ++ rest)%list.
  now rewrite play_app, play_steps, Run.
Qed.

(** The state the marking block leaves. *)
Lemma marked_state (a : TriggerArgs) (tw : TriggerWorld) (s : State) :
  tw_create_fault tw = None ->
  let rid := next_id (store s) in
  let s3 := fst (trigger_mark a rid (fst (trigger_create a tw s))) in
  snd (trigger_create a tw s) = inr rid /\
  threads s3
  = (threads s
       ++ [{| th_run_id := rid; th_limit := tr_limit a;
              th_story_types :=
                match tr_story_types a with
                | None => default_story_types
                | Some l => l
                end;
              th_alive := true |}])%list /\
  log_capture s3 = Some LogCapture.init /\
  subscribers s3 = subscribers s /\
  delivered s3 = delivered s.
Proof.
  intros Hf. unfold trigger_mark, trigger_create, try_except,
    Database.create_scraper_run, modify.
  rewrite Hf. cbn. repeat split.
Qed.

(** The caller's first three steps on an idle manager, and then [rest]. *)
Lemma play_three_steps (a : TriggerArgs) (tw : TriggerWorld) (s : State)
      (rest : list Schedule.event) :
  is_running s = false -> tw_create_fault tw = None ->
  let rid := next_id (store s) in
  Schedule.play beh
    (Schedule.Step 0 :: Schedule.Step 0 :: Schedule.Step 0 :: rest)
    [Interleaving.calling a tw] s
  = Schedule.play beh rest
      [Interleaving.at_pc (Interleaving.calling a tw)
                          (Interleaving.AtAnnounce rid)]
      (fst (trigger_mark a rid (fst (trigger_create a tw s)))).
Proof.
  intros Hidle Hf rid.
  destruct (marked_state a tw s Hf) as (C & _).
  cbn [Schedule.play Interleaving.step_nth].
  unfold Interleaving.step at 1. cbn [Interleaving.c_pc Interleaving.calling].
  unfold trigger_check at 1, bind, get_state. rewrite Hidle. cbn [ret].
  cbn [Schedule.play Interleaving.step_nth].
  unfold Interleaving.step at 1.
  cbn [Interleaving.c_pc Interleaving.at_pc Interleaving.c_args
         Interleaving.c_world Interleaving.calling].
  destruct (trigger_create a tw s) as [s2 r] eqn:E. cbn [snd fst] in *.
  subst r. fold rid.
  cbn [Schedule.play Interleaving.step_nth].
  unfold Interleaving.step at 1.
  cbn [Interleaving.c_pc Interleaving.at_pc Interleaving.c_args
         Interleaving.c_world Interleaving.calling].
  reflexivity.
Qed.

(** The [running] notification, with subscribers that raise nothing
    beyond [Exception]. *)
Lemma announce_returns (rid : Z) (s : State) :
  raises_only_Exception beh ->
  trigger_announce beh rid s
  = (fst (notify_each beh (subscribers s) (running_message rid) s), inr rid).
Proof.
  intros Hb. unfold trigger_announce, bind. rewrite notify_unfold.
  fold (running_message rid).
  destruct (notify_each_delivered beh (subscribers s) (running_message rid)
              s Hb) as [R _].
  destruct (notify_each beh (subscribers s) (running_message rid) s)
    as [s' r]. cbn [snd fst] in *. now subst r.
Qed.

Lemma set_alive_last (l : list Thread) (th : Thread) (b : bool) :
  set_alive (List.length l) b (l ++ [th])
  = (l ++ [{| th_run_id := th_run_id th; th_limit := th_limit th;
              th_story_types := th_story_types th; th_alive := b |}])%list.
Proof. induction l as [|x l IH]; cbn; [reflexivity | now rewrite IH]. Qed.

Lemma nth_error_last (l : list Thread) (th : Thread) :
  nth_error (l ++ [th]) (List.length l) = Some th.
Proof. rewrite nth_error_app2 by lia. now rewrite Nat.sub_diag. Qed.

(** The worker runs to its end between [start()] and the caller's
    [running] notification: the caller still returns the run id, to a
    manager that is idle again. *)
Lemma play_worker_before_announce (a : TriggerArgs) (tw : TriggerWorld)
      (w : WorkerWorld) (s : State) :
  is_running s = false -> tw_create_fault tw = None ->
  raises_only_Exception beh ->
  let rid := next_id (store s) in
  exists c s1,
    Schedule.play beh
      [Schedule.Step 0; Schedule.Step 0; Schedule.Step 0;
       Schedule.Work (List.length (threads s)) w; Schedule.Step 0]
      [Interleaving.calling a tw] s = ([c], s1) /\
    Interleaving.c_pc c = Interleaving.Returned rid /\
    is_running s1 = false /\
    get_current_run_id s1 = None /\
    threads s1
    = (threads s
         ++ [{| th_run_id := rid; th_limit := tr_limit a;
                th_story_types :=
                  match tr_story_types a with
                  | None => default_story_types
                  | Some l => l
                  end;
                th_alive := false |}])%list.
Proof.
  intros Hidle Hf Hb rid.
  rewrite (play_three_steps a tw s _ Hidle Hf). fold rid.
  destruct (marked_state a tw s Hf) as (_ & Th & _). fold rid in Th.
  set (s3 := fst (trigger_mark a rid (fst (trigger_create a tw s)))) in *.
  set (th := {| th_run_id := rid; th_limit := tr_limit a;
                th_story_types :=
                  match tr_story_types a with
                  | None => default_story_types
                  | Some l => l
                  end;
                th_alive := true |}) in *.
  assert (Ht : nth_error (threads s3) (List.length (threads s)) = Some th).
  { rewrite Th. apply nth_error_last. }
  cbn [Schedule.play].
  rewrite (run_thread_alive beh _ w s3 th Ht eq_refl). cbn [fst].
  destruct (run_scraper_cleans beh (th_run_id th) (th_limit th)
              (th_story_types th) w s3) as (C1 & C2 & _).
  pose proof (keeps_threads_run_scraper beh (th_run_id th) (th_limit th)
                (th_story_types th) w s3) as K.
  set (s' := fst (_run_scraper beh (th_run_id th) (th_limit th)
                    (th_story_types th) w s3)) in *.
  cbn [Interleaving.step_nth]. unfold Interleaving.step.
  cbn [Interleaving.c_pc Interleaving.at_pc].
  rewrite (announce_returns rid _ Hb).
  match goal with
  | |- context [notify_each beh ?subs ?m ?s0] =>
      pose proof (notify_each_frame beh subs m s0) as F;
      set (s5 := fst (notify_each beh subs m s0)) in *
  end.
  destruct F as (F1 & F2 & _ & _ & F5 & _).
  cbn [current_run_id current_thread threads set_threads] in F1, F2, F5.
  eexists _, s5. split; [reflexivity|]. split; [reflexivity|].
  unfold is_running, get_current_run_id. rewrite F1, F2, F5, C1, C2.
  repeat split. rewrite K, Th. apply set_alive_last.
Qed.




End ScheduleFacts.




(* ================================================================== *)
(** * Further properties of the manager *)

(** ** Waiting for the worker *)

Section WaitFacts.
Import ScraperManager.
Variable beh : behaviour.

Lemma run_thread_clears_current_thread (t : nat) (w : WorkerWorld)
      (s : State) (th : Thread) :
  nth_error (threads s) t = Some th -> th_alive th = true ->
  current_thread (fst (run_thread beh t w s)) = None.
Proof.
  intros Ht Ha. rewrite (run_thread_alive beh t w s th Ht Ha). cbn [fst].
  now destruct (run_scraper_cleans beh (th_run_id th) (th_limit th)
                  (th_story_types th) w s) as (_ & C & _).
Qed.


Lemma wait_progress (timeout : option Q) (w : WorkerWorld) (s : State)
      (t : nat) (th : Thread) :
  current_thread s = Some t ->
  nth_error (threads s) t = Some th -> th_alive th = true ->
  wait_for_completion beh timeout (Some w) s
  = (fst (run_thread beh t w s), inl (none_has_no_attribute "is_alive")).
Proof.
  intros Hc Ht Ha.
  unfold wait_for_completion, bind, get_state, modify.
  rewrite Hc. cbn [fst snd].
  now rewrite (run_thread_clears_current_thread t w s th Ht Ha).
Qed.

End WaitFacts.

(** X1: when the worker it waits for runs to its end during the
    [join], [wait_for_completion] does not return [True]: the worker's
    clean-up has set [current_thread] to [None], and the final
    [self.current_thread.is_alive()] raises [AttributeError]. *)
Theorem wait_raises_when_worker_ends :
  forall (beh : behaviour) (timeout : option Q) (w : WorkerWorld)
         (s : State) (t : nat) (th : Thread),
    current_thread s = Some t ->
    nth_error (threads s) t = Some th -> th_alive th = true ->
    ScraperManager.wait_for_completion beh timeout (Some w) s
    = (fst (ScraperManager.run_thread beh t w s),
       inl (none_has_no_attribute "is_alive")).
Proof.
  intros beh timeout w s t th Hc Ht Ha.
  now apply wait_progress with (th := th).
Qed.

Lemma wait_raises_when_worker_ends_witness :
  current_thread Scenario.started = Some 0%nat /\
  snd (ScraperManager.wait_for_completion Scenario.quiet None
         (Some Scenario.three_markers) Scenario.started)
  = inl {| exn_cls := AttributeError;
           exn_msg := "'NoneType' object has no attribute 'is_alive'" |}.
Proof.
  split; [reflexivity|].
  rewrite (wait_raises_when_worker_ends Scenario.quiet None
             Scenario.three_markers Scenario.started 0
             {| th_run_id := 1; th_limit := 50;
                th_story_types := ["topstories"]; th_alive := true |}
             eq_refl eq_refl eq_refl).
  reflexivity.
Defined.



(** ** Subscriptions *)

Section SubscriptionFacts.
Import ScraperManager.
Variable beh : behaviour.

Lemma received_snoc (c c0 : callback) (m : Message) (s s' : State) :
  delivered s' = (delivered s ++ [(c0, m)])%list ->
  received c s'
  = (received c s ++ if Nat.eqb c0 c then [m] else [])%list.
Proof.
  intros D. unfold received. rewrite D, filter_app, map_app.
  cbn [filter fst]. now destruct (Nat.eqb c0 c).
Qed.

Lemma received_call (c c0 : callback) (m : Message) (s : State) :
  received c (fst (call beh c0 m s))
  = (received c s ++ if Nat.eqb c0 c then [m] else [])%list.
Proof.
  apply received_snoc. now destruct (call_frame beh c0 m s).
Qed.

(** A callback outside the copied list is not called in the round. *)
Lemma notify_each_skips (c : callback) (subs : list callback) (m : Message)
      (s : State) :
  mem c subs = false ->
  received c (fst (notify_each beh subs m s)) = received c s.
Proof.
  revert s. induction subs as [|c0 rest IH]; intros s H; [reflexivity|].
  cbn [mem existsb] in H. apply orb_false_elim in H as [Hc Hrest].
  assert (E : received c (fst (call beh c0 m s)) = received c s).
  { rewrite received_call. rewrite Nat.eqb_sym, Hc. apply app_nil_r. }
  rewrite notify_each_cons.
  destruct (snd (beh c0 m)) as [e|]; [destruct (is_Exception e)|];
    cbn [fst]; try exact E; now rewrite (IH _ Hrest).
Qed.

(** A callback is called once per registration in the copied list. *)
Lemma notify_each_received (c : callback) (subs : list callback)
      (m : Message) (s : State) :
  raises_only_Exception beh ->
  received c (fst (notify_each beh subs m s))
  = (received c s ++ repeat m (count_occ Nat.eq_dec subs c))%list.
Proof.
  intros Hb. revert s. induction subs as [|c0 rest IH]; intros s.
  - cbn. now rewrite app_nil_r.
  - rewrite notify_each_cons.
    assert (E : received c (fst (notify_each beh rest m (fst (call beh c0 m s))))
                = (received c s
                     ++ repeat m (count_occ Nat.eq_dec (c0 :: rest) c))%list).
    { rewrite IH, received_call, <- app_assoc. f_equal.
      cbn [count_occ]. destruct (Nat.eq_dec c0 c) as [->|N].
      - now rewrite Nat.eqb_refl.
      - apply Nat.eqb_neq in N. now rewrite N. }
    destruct (snd (beh c0 m)) as [e|] eqn:R; [|exact E].
    now rewrite (Hb c0 m e R).
Qed.

Lemma count_occ_remove_first (c c' : callback) (l : list callback) :
  count_occ Nat.eq_dec (remove_first c l) c'
  = if Nat.eqb c c' then Nat.pred (count_occ Nat.eq_dec l c')
    else count_occ Nat.eq_dec l c'.
Proof.
  induction l as [|y l IH]; cbn [remove_first count_occ].
  - now destruct (Nat.eqb c c').
  - destruct (Nat.eqb c y) eqn:Ecy.
    + apply Nat.eqb_eq in Ecy. subst y.
      destruct (Nat.eq_dec c c') as [->|N].
      * now rewrite Nat.eqb_refl.
      * apply Nat.eqb_neq in N. now rewrite N.
    + cbn [count_occ]. rewrite IH.
      destruct (Nat.eq_dec y c') as [->|N]; [|reflexivity].
      now rewrite Ecy.
Qed.

Lemma mem_count_occ (c : callback) (l : list callback) :
  mem c l = false -> count_occ Nat.eq_dec l c = 0%nat.
Proof.
  induction l as [|y l IH]; cbn [mem existsb count_occ]; [reflexivity|].
  intros H. apply orb_false_elim in H as [Hc Hl].
  destruct (Nat.eq_dec y c) as [->|N].
  - now rewrite Nat.eqb_refl in Hc.
  - now apply IH.
Qed.

Lemma remove_first_absent (c : callback) (l : list callback) :
  mem c l = false -> remove_first c (l ++ [c]) = l.
Proof.
  induction l as [|y l IH]; cbn [mem existsb app remove_first].
  - now rewrite Nat.eqb_refl.
  - intros H. apply orb_false_elim in H as [Hc Hl].
    rewrite Hc. f_equal. now apply IH.
Qed.

Lemma mem_app_self (c : callback) (l : list callback) :
  mem c (l ++ [c]) = true.
Proof.
  unfold mem. rewrite existsb_app. cbn. rewrite Nat.eqb_refl.
  now rewrite orb_true_r.
Qed.

End SubscriptionFacts.

(** X3: a callback that is not subscribed when a notification starts is
    not called in that round, even when a callback of the round
    subscribes it meanwhile, and whatever the callbacks raise. *)
Theorem late_subscriber_misses_the_round :
  forall (beh : behaviour) (c : callback) (m : Message) (s : State),
    mem c (subscribers s) = false ->
    received c (fst (ScraperManager._notify_subscribers beh m s))
    = received c s.
Proof.
  intros beh c m s H. rewrite notify_unfold. now apply notify_each_skips.
Qed.

(** X4: [subscribe] does not deduplicate: in one round a callback is
    called once for each of its registrations, with the message of the
    round. *)
Theorem subscriber_called_once_per_registration :
  forall (beh : behaviour) (c : callback) (m : Message) (s : State),
    raises_only_Exception beh ->
    received c (fst (ScraperManager._notify_subscribers beh m s))
    = (received c s
         ++ repeat m (count_occ Nat.eq_dec (subscribers s) c))%list.
Proof.
  intros beh c m s Hb. rewrite notify_unfold.
  now apply notify_each_received.
Qed.

(** X5: [unsubscribe(c)] removes one registration of [c] and no other
    callback's; when [c] is not subscribed it changes nothing and does
    not raise. *)
Theorem unsubscribe_removes_one_registration :
  forall (c c' : callback) (s : State),
    count_occ Nat.eq_dec (subscribers (ScraperManager.unsubscribe c s)) c'
    = (if Nat.eqb c c'
       then Nat.pred (count_occ Nat.eq_dec (subscribers s) c')
       else count_occ Nat.eq_dec (subscribers s) c') /\
    (mem c (subscribers s) = false -> ScraperManager.unsubscribe c s = s).
Proof.
  intros c c' s. unfold ScraperManager.unsubscribe.
  destruct (mem c (subscribers s)) eqn:M.
  - split; [|discriminate]. cbn [subscribers set_subscribers].
    apply count_occ_remove_first.
  - split; [|reflexivity].
    destruct (Nat.eqb c c') eqn:E; [|reflexivity].
    apply Nat.eqb_eq in E. subst c'. now rewrite (mem_count_occ c _ M).
Qed.

(** X6: subscribing a callback that was not subscribed and unsubscribing
    it again restores the manager exactly. *)
Theorem subscribe_unsubscribe_round_trip :
  forall (c : callback) (s : State),
    mem c (subscribers s) = false ->
    ScraperManager.unsubscribe c (ScraperManager.subscribe c s) = s.
Proof.
  intros c s H. unfold ScraperManager.unsubscribe, ScraperManager.subscribe.
  cbn [subscribers set_subscribers]. rewrite mem_app_self.
  rewrite (remove_first_absent c _ H). now destruct s.
Qed.

Lemma late_subscriber_misses_the_round_witness :
  mem 9%nat (subscribers Scenario.three_listeners) = false /\
  subscribers (fst (ScraperManager._notify_subscribers Cases.inviting
                      Scenario.hello Scenario.three_listeners))
  = [1%nat; 2%nat; 3%nat; 9%nat] /\
  received 9%nat (fst (ScraperManager._notify_subscribers Cases.inviting
                         Scenario.hello Scenario.three_listeners))
  = [].
Proof.
  split; [reflexivity|]. split; [reflexivity|].
  rewrite (late_subscriber_misses_the_round Cases.inviting 9%nat
             Scenario.hello Scenario.three_listeners eq_refl).
  reflexivity.
Defined.

Lemma subscriber_called_once_per_registration_witness :
  raises_only_Exception Scenario.quiet /\
  received 4%nat (fst (ScraperManager._notify_subscribers Scenario.quiet
                         Scenario.hello Cases.doubled))
  = [Scenario.hello; Scenario.hello].
Proof.
  split; [exact quiet_raises_only_Exception|].
  rewrite (subscriber_called_once_per_registration Scenario.quiet 4%nat
             Scenario.hello Cases.doubled quiet_raises_only_Exception).
  reflexivity.
Defined.

Lemma unsubscribe_removes_one_registration_witness :
  subscribers (ScraperManager.unsubscribe 4%nat Cases.doubled)
  = [5%nat; 4%nat] /\
  count_occ Nat.eq_dec
    (subscribers (ScraperManager.unsubscribe 4%nat Cases.doubled)) 4%nat
  = 1%nat /\
  mem 8%nat (subscribers Cases.doubled) = false /\
  ScraperManager.unsubscribe 8%nat Cases.doubled = Cases.doubled.
Proof.
  split; [reflexivity|].
  split.
  - rewrite (proj1 (unsubscribe_removes_one_registration 4%nat 4%nat
                      Cases.doubled)).
    reflexivity.
  - split; [reflexivity|].
    apply (proj2 (unsubscribe_removes_one_registration 8%nat 8%nat
                    Cases.doubled)).
    reflexivity.
Defined.

Lemma subscribe_unsubscribe_round_trip_witness :
  mem 8%nat (subscribers Cases.doubled) = false /\
  ScraperManager.unsubscribe 8%nat (ScraperManager.subscribe 8%nat Cases.doubled)
  = Cases.doubled.
Proof.
  split; [reflexivity|].
  apply (subscribe_unsubscribe_round_trip 8%nat Cases.doubled).
  reflexivity.
Defined.

(** ** The other ways a worker ends *)

Section WorkerEndings.
Import ScraperManager.
Variable beh : behaviour.

Lemma store_fold_emit (ws : list string) (s : State) :
  store (fold_left emit ws s) = store s /\
  delivered (fold_left emit ws s) = delivered s /\
  subscribers (fold_left emit ws s) = subscribers s.
Proof.
  revert s. induction ws as [|x ws IH]; intros s; cbn [fold_left];
    [repeat split|].
  destruct (IH (emit s x)) as (A & B & C). rewrite A, B, C.
  unfold emit. destruct (log_capture s); repeat split.
Qed.

(** The worker whose two updates are refused. *)
Lemma run_scraper_updates_refused (rid limit : Z) (st : list string)
      (w : WorkerWorld) (s : State) (lc : LogCapture.t) (e1 e2 : exn) :
  log_capture s = Some lc ->
  engine_ends_in_Exception_or_returns w = true ->
  update_fault w = Some e1 -> is_Exception e1 = true ->
  failed_update_fault w = Some e2 ->
  _run_scraper beh rid limit st w s
  = (cleaned (set_log_capture (Some (captured w lc)) s), inl e2).
Proof.
  intros Hlc He Hu HE Hf.
  unfold _run_scraper, try_finally, try_except, worker_body.
  unfold bind at 1. rewrite (run_engine_guarded_ok w s lc Hlc He).
  unfold bind at 1. unfold lc_get_logs at 1.
  cbn [log_capture set_log_capture].
  unfold bind at 1. unfold Database.update_scraper_run at 1. rewrite Hu, HE.
  unfold worker_handler, bind, get_state.
  cbn [log_capture set_log_capture].
  unfold Database.update_scraper_run. rewrite Hf. reflexivity.
Qed.

(** The worker whose engine leaves with what is not an [Exception]. *)
Lemma run_scraper_engine_exit (rid limit : Z) (st : list string)
      (w : WorkerWorld) (s : State) (e : exn) :
  engine_result w = Some e -> is_Exception e = false ->
  _run_scraper beh rid limit st w s
  = (cleaned (fold_left emit (engine_writes w) s), inl e).
Proof.
  intros He HE.
  unfold _run_scraper, try_finally, try_except, worker_body,
    run_engine_guarded, try_except, run_engine.
  unfold bind at 1. unfold bind at 1. rewrite He, HE. now rewrite HE.
Qed.

Lemma get_row_updated (rid : Z) (status : string) (n errs : Z)
      (logs err : option string) (db : RunStore) (r0 : Run) :
  Database.get_scraper_run db rid = Some r0 ->
  Database.get_scraper_run
    {| next_id := next_id db;
       rows := map (Database.update_row rid status n errs logs err) (rows db) |}
    rid
  = Some {| run_id := run_id r0; run_status := status;
            run_trigger_type := run_trigger_type r0;
            run_triggered_by := run_triggered_by r0;
            run_config := run_config r0;
            run_stories_processed := Some n;
            run_errors_count := Some errs;
            run_logs := logs; run_error_message := err;
            run_completed_at := true |}.
Proof.
  intros H. unfold Database.get_scraper_run in *. cbn [rows].
  rewrite (find_updated rid status n errs logs err _ r0 H).
  apply find_some in H. destruct H as [_ E].
  unfold Database.update_row. now rewrite E.
Qed.

End WorkerEndings.

(** X7: when the Run Store refuses the [completed] update with an
    [Exception] and accepts the [failed] one, the run's row gets status
    [failed], the text of the store's exception as error message, the
    captured text as logs, and both counters 0, whatever the engine
    printed or raised; nothing leaves the worker. *)
Theorem refused_update_marks_run_failed :
  forall (beh : behaviour) (t : nat) (w : WorkerWorld) (s : State)
         (th : Thread) (lc : LogCapture.t) (r0 : Run) (e : exn),
    nth_error (threads s) t = Some th -> th_alive th = true ->
    log_capture s = Some lc ->
    Database.get_scraper_run (store s) (th_run_id th) = Some r0 ->
    engine_ends_in_Exception_or_returns w = true ->
    update_fault w = Some e -> is_Exception e = true ->
    failed_update_fault w = None ->
    raises_only_Exception beh ->
    snd (ScraperManager.run_thread beh t w s) = None /\
    exists r,
      Database.get_scraper_run
        (store (fst (ScraperManager.run_thread beh t w s))) (th_run_id th)
      = Some r /\
      run_status r = "failed" /\
      run_error_message r = Some (str_exn e) /\
      run_stories_processed r = Some 0 /\
      run_errors_count r = Some 0 /\
      run_logs r = Some (LogCapture.get_logs (captured w lc)).
Proof.
  intros beh t w s th lc r0 e Ht Ha Hlc Hr He Hu HE Hf Hb.
  rewrite (run_thread_alive beh t w s th Ht Ha).
  rewrite (run_scraper_failed_update beh _ _ _ w s lc e Hlc He Hu HE Hf).
  cbn [fst snd store set_threads cleaned set_log_capture set_current_thread
         set_current_run_id].
  match goal with
  | |- context [ScraperManager.notify_each beh ?subs ?m ?s2] =>
      destruct (notify_each_delivered beh subs m s2 Hb) as [R _];
      destruct (notify_each_frame beh subs m s2) as (_ & _ & _ & _ & _ & S)
  end.
  rewrite R, S. split; [reflexivity|].
  unfold store_updated. cbn [store set_store set_log_capture].
  eexists. split; [apply (get_row_updated _ _ _ _ _ _ _ r0 Hr)|].
  repeat split.
Qed.

Lemma refused_update_marks_run_failed_witness :
  nth_error (threads Scenario.started) 0 = Some Cases.thread1 /\
  update_fault Cases.first_update_refused = Some Scenario.db_down /\
  raises_only_Exception Scenario.quiet /\
  exists r,
    Database.get_scraper_run
      (store (fst (ScraperManager.run_thread Scenario.quiet 0
                     Cases.first_update_refused Scenario.started))) 1
    = Some r /\
    run_status r = "failed" /\
    run_error_message r = Some "connection refused" /\
    run_stories_processed r = Some 0.
Proof.
  split; [reflexivity|]. split; [reflexivity|].
  split; [exact quiet_raises_only_Exception|].
  destruct (refused_update_marks_run_failed Scenario.quiet 0
              Cases.first_update_refused Scenario.started Cases.thread1
              LogCapture.init Cases.row1 Scenario.db_down
              eq_refl eq_refl eq_refl eq_refl eq_refl eq_refl eq_refl eq_refl
              quiet_raises_only_Exception)
    as (_ & r & G & S & M & N & _).
  exists r. repeat split; assumption.
Defined.

(** X8: when the Run Store refuses both updates, the Run Store is left
    as it was (the run's row keeps status [running]), no terminal
    notification is delivered, the second exception leaves the worker,
    and the manager is idle again. *)
Theorem refused_updates_leave_row_running :
  forall (beh : behaviour) (t : nat) (w : WorkerWorld) (s : State)
         (th : Thread) (lc : LogCapture.t) (e1 e2 : exn),
    nth_error (threads s) t = Some th -> th_alive th = true ->
    log_capture s = Some lc ->
    engine_ends_in_Exception_or_returns w = true ->
    update_fault w = Some e1 -> is_Exception e1 = true ->
    failed_update_fault w = Some e2 ->
    store (fst (ScraperManager.run_thread beh t w s)) = store s /\
    delivered (fst (ScraperManager.run_thread beh t w s)) = delivered s /\
    snd (ScraperManager.run_thread beh t w s) = Some e2 /\
    ScraperManager.is_running (fst (ScraperManager.run_thread beh t w s))
    = false.
Proof.
  intros beh t w s th lc e1 e2 Ht Ha Hlc He Hu HE Hf.
  rewrite (run_thread_alive beh t w s th Ht Ha).
  rewrite (run_scraper_updates_refused beh _ _ _ w s lc e1 e2
             Hlc He Hu HE Hf).
  repeat split.
Qed.

Lemma refused_updates_leave_row_running_witness :
  nth_error (threads Scenario.started) 0 = Some Cases.thread1 /\
  Database.get_scraper_run
    (store (fst (ScraperManager.run_thread Scenario.quiet 0
                   Cases.updates_refused Scenario.started))) 1
  = Some Cases.row1 /\
  snd (ScraperManager.run_thread Scenario.quiet 0 Cases.updates_refused
         Scenario.started) = Some Scenario.db_down /\
  ScraperManager.is_running
    (fst (ScraperManager.run_thread Scenario.quiet 0 Cases.updates_refused
            Scenario.started)) = false.
Proof.
  split; [reflexivity|].
  destruct (refused_updates_leave_row_running Scenario.quiet 0
              Cases.updates_refused Scenario.started Cases.thread1
              LogCapture.init Scenario.db_down Scenario.db_down
              eq_refl eq_refl eq_refl eq_refl eq_refl eq_refl eq_refl)
    as (S & _ & E & R).
  rewrite S. repeat split; assumption.
Defined.

(** X9: when the engine leaves with an exception that is not an
    [Exception] ([SystemExit] from [sys.exit()], [KeyboardInterrupt]),
    the worker updates no row and notifies nobody: the Run Store is
    left as it was (the row keeps status [running]), the exception
    leaves the worker, and the manager is idle again. *)
Theorem engine_exit_leaves_row_running :
  forall (beh : behaviour) (t : nat) (w : WorkerWorld) (s : State)
         (th : Thread) (e : exn),
    nth_error (threads s) t = Some th -> th_alive th = true ->
    engine_result w = Some e -> is_Exception e = false ->
    store (fst (ScraperManager.run_thread beh t w s)) = store s /\
    delivered (fst (ScraperManager.run_thread beh t w s)) = delivered s /\
    snd (ScraperManager.run_thread beh t w s) = Some e /\
    ScraperManager.is_running (fst (ScraperManager.run_thread beh t w s))
    = false.
Proof.
  intros beh t w s th e Ht Ha He HE.
  rewrite (run_thread_alive beh t w s th Ht Ha).
  rewrite (run_scraper_engine_exit beh _ _ _ w s e He HE).
  cbn [fst snd store delivered set_threads cleaned set_log_capture
         set_current_thread set_current_run_id].
  destruct (store_fold_emit (engine_writes w) s) as (A & B & _).
  repeat split; assumption.
Qed.

Lemma engine_exit_leaves_row_running_witness :
  nth_error (threads Scenario.started) 0 = Some Cases.thread1 /\
  is_Exception Scenario.interrupted = false /\
  Database.get_scraper_run
    (store (fst (ScraperManager.run_thread Scenario.quiet 0 Cases.exiting
                   Scenario.started))) 1
  = Some Cases.row1 /\
  received Scenario.listener
    (fst (ScraperManager.run_thread Scenario.quiet 0 Cases.exiting
            Scenario.started))
  = [running_message 1].
Proof.
  split; [reflexivity|]. split; [reflexivity|].
  destruct (engine_exit_leaves_row_running Scenario.quiet 0 Cases.exiting
              Scenario.started Cases.thread1 Scenario.interrupted
              eq_refl eq_refl eq_refl eq_refl)
    as (S & D & _ & _).
  unfold received. rewrite S, D. split; reflexivity.
Defined.

(** ** The cancellation flag and the worker *)

Section CancelFlagFacts.
Import ScraperManager.
Variable beh : behaviour.
Variable b : bool.

Lemma commutes_ret {A} (a : A) : commutes_with (set_cancel_flag b) (ret a).
Proof. intros s. reflexivity. Qed.

Lemma commutes_bind {A B} (m : M A) (k : A -> M B) :
  commutes_with (set_cancel_flag b) m -> (forall a, commutes_with (set_cancel_flag b) (k a)) ->
  commutes_with (set_cancel_flag b) (bind m k).
Proof.
  intros Hm Hk s. unfold bind. rewrite Hm.
  destruct (m s) as [s1 [e|a]]; cbn [fst snd]; [reflexivity|].
  apply Hk.
Qed.

Lemma commutes_try_except {A} (body : M A) catches (handler : exn -> M A) :
  commutes_with (set_cancel_flag b) body -> (forall e, commutes_with (set_cancel_flag b) (handler e)) ->
  commutes_with (set_cancel_flag b) (try_except body catches handler).
Proof.
  intros Hb Hh s. unfold try_except. rewrite Hb.
  destruct (body s) as [s1 [e|a]]; cbn [fst snd]; [|reflexivity].
  destruct (catches e); [apply Hh | reflexivity].
Qed.

Lemma commutes_try_finally {A} (body : M A) (fin : M unit) :
  commutes_with (set_cancel_flag b) body -> commutes_with (set_cancel_flag b) fin ->
  commutes_with (set_cancel_flag b) (try_finally body fin).
Proof.
  intros Hb Hf s. unfold try_finally. rewrite Hb.
  destruct (body s) as [s1 r]; cbn [fst snd]. rewrite Hf.
  now destruct (fin s1) as [s2 [e|u]].
Qed.

Lemma commutes_sub_ops (ops : list sub_op) (s : State) :
  fold_left apply_sub_op ops (set_cancel_flag b s) = set_cancel_flag b (fold_left apply_sub_op ops s).
Proof.
  revert s. induction ops as [|o ops IH]; intros s; cbn [fold_left];
    [reflexivity|].
  rewrite <- IH. f_equal.
  destruct o as [c|c]; cbn [apply_sub_op]; [reflexivity|].
  unfold unsubscribe. cbn [subscribers set_cancel_flag].
  now destruct (mem c (subscribers s)).
Qed.

Lemma commutes_call (c : callback) (m : Message) :
  commutes_with (set_cancel_flag b) (call beh c m).
Proof.
  intros s. unfold call.
  change (set_delivered (delivered (set_cancel_flag b s) ++ [(c, m)]) (set_cancel_flag b s))
    with (set_cancel_flag b (set_delivered (delivered s ++ [(c, m)]) s)).
  rewrite commutes_sub_ops. now destruct (snd (beh c m)).
Qed.

Lemma commutes_notify_each (subs : list callback) (m : Message) :
  commutes_with (set_cancel_flag b) (notify_each beh subs m).
Proof.
  induction subs as [|c rest IH]; cbn [notify_each].
  - apply commutes_ret.
  - apply commutes_bind; [|intros _; exact IH].
    apply commutes_try_except; [apply commutes_call|].
    intros _. apply commutes_ret.
Qed.

Lemma commutes_notify (m : Message) :
  commutes_with (set_cancel_flag b) (_notify_subscribers beh m).
Proof.
  intros s. rewrite !notify_unfold.
  change (subscribers (set_cancel_flag b s)) with (subscribers s).
  apply commutes_notify_each.
Qed.

Lemma commutes_update rid status n errs logs err fault :
  commutes_with (set_cancel_flag b)
    (Database.update_scraper_run rid status n errs logs err fault).
Proof. intros s. unfold Database.update_scraper_run. now destruct fault. Qed.

Lemma commutes_lc_write (text : string) : commutes_with (set_cancel_flag b) (lc_write text).
Proof.
  intros s. unfold lc_write. cbn [log_capture set_cancel_flag].
  now destruct (log_capture s).
Qed.

Lemma commutes_lc_get_logs : commutes_with (set_cancel_flag b) lc_get_logs.
Proof.
  intros s. unfold lc_get_logs. cbn [log_capture set_cancel_flag].
  now destruct (log_capture s).
Qed.

Lemma commutes_emit (ws : list string) (s : State) :
  fold_left emit ws (set_cancel_flag b s) = set_cancel_flag b (fold_left emit ws s).
Proof.
  revert s. induction ws as [|x ws IH]; intros s; cbn [fold_left];
    [reflexivity|].
  rewrite <- IH. f_equal. unfold emit.
  cbn [log_capture set_cancel_flag]. now destruct (log_capture s).
Qed.

Lemma commutes_run_engine (w : WorkerWorld) : commutes_with (set_cancel_flag b) (run_engine w).
Proof. intros s. unfold run_engine. now rewrite commutes_emit. Qed.

Lemma worker_handler_unfold (rid : Z) (w : WorkerWorld) (e : exn)
      (s : State) :
  worker_handler beh rid w e s
  = (Database.update_scraper_run rid "failed" 0 0
       (Some match log_capture s with
             | Some lc => LogCapture.get_logs lc
             | None => str_exn e
             end)
       (Some (str_exn e)) (failed_update_fault w) ;;;
     _notify_subscribers beh
       (status_message (Some rid) "failed" None None (Some (str_exn e)))) s.
Proof. reflexivity. Qed.

Lemma commutes_run_scraper (rid limit : Z) (st : list string)
      (w : WorkerWorld) :
  commutes_with (set_cancel_flag b) (_run_scraper beh rid limit st w).
Proof.
  unfold _run_scraper. apply commutes_try_finally.
  - apply commutes_try_except.
    + unfold worker_body. apply commutes_bind.
      * unfold run_engine_guarded. apply commutes_try_except.
        -- apply commutes_bind; [apply commutes_run_engine|].
           intros _. apply commutes_ret.
        -- intros e. destruct (is_ImportError e);
             (apply commutes_bind; [apply commutes_lc_write|]);
             intros _; apply commutes_ret.
      * intros errors. apply commutes_bind; [apply commutes_lc_get_logs|].
        intros logs. apply commutes_bind; [apply commutes_update|].
        intros _. apply commutes_notify.
    + intros e s. rewrite !worker_handler_unfold.
      change (log_capture (set_cancel_flag b s)) with (log_capture s).
      apply commutes_bind; [apply commutes_update|].
      intros _. apply commutes_notify.
  - intros s. reflexivity.
Qed.

Lemma commutes_run_thread (t : nat) (w : WorkerWorld) (s : State) :
  run_thread beh t w (set_cancel_flag b s)
  = (set_cancel_flag b (fst (run_thread beh t w s)), snd (run_thread beh t w s)).
Proof.
  unfold run_thread. change (threads (set_cancel_flag b s)) with (threads s).
  destruct (nth_error (threads s) t) as [th|]; [|reflexivity].
  destruct (th_alive th); [|reflexivity].
  rewrite commutes_run_scraper.
  now destruct (_run_scraper beh (th_run_id th) (th_limit th)
                  (th_story_types th) w s) as [s1 [e|u]].
Qed.

End CancelFlagFacts.

(** X10: the worker neither reads nor writes [cancel_flag]: run with
    the flag set to any value, it persists the same rows, delivers the
    same notifications and ends the same way as without, and the flag
    is as it was set.  A requested cancellation stops nothing. *)
Theorem worker_ignores_cancel_flag :
  forall (beh : behaviour) (b : bool) (t : nat) (w : WorkerWorld)
         (s : State),
    ScraperManager.run_thread beh t w (set_cancel_flag b s)
    = (set_cancel_flag b (fst (ScraperManager.run_thread beh t w s)),
       snd (ScraperManager.run_thread beh t w s)).
Proof. intros beh b t w s. apply commutes_run_thread. Qed.

(** ** Triggering *)

Section TriggerMoreFacts.
Import ScraperManager.
Variable beh : behaviour.

(** [trigger_scrape] on an idle manager, the Run Store included. *)
Lemma trigger_scrape_idle_store (a : TriggerArgs) (tw : TriggerWorld)
      (s : State) :
  is_running s = false -> tw_create_fault tw = None ->
  raises_only_Exception beh ->
  let rid := next_id (store s) in
  let story_types :=
    match tr_story_types a with
    | None => default_story_types
    | Some l => l
    end in
  exists s1,
    trigger_scrape beh a tw s = (s1, inr rid) /\
    is_running s1 = true /\
    get_current_run_id s1 = Some rid /\
    cancel_flag s1 = false /\
    log_capture s1 = Some LogCapture.init /\
    threads s1
    = (threads s
         ++ [{| th_run_id := rid; th_limit := tr_limit a;
                th_story_types := story_types; th_alive := true |}])%list /\
    store s1
    = {| next_id := rid + 1;
         rows := (rows (store s)
                    ++ [{| run_id := rid; run_status := "running";
                           run_trigger_type := "manual";
                           run_triggered_by := tr_username a;
                           run_config :=
                             {| cfg_limit := tr_limit a;
                                cfg_story_types := story_types;
                                cfg_force_ipv4 := tw_force_ipv4 tw |};
                           run_stories_processed := None;
                           run_errors_count := None;
                           run_logs := None; run_error_message := None;
                           run_completed_at := false |}])%list |}.
Proof.
  intros Hidle Hf Hb rid story_types.
  unfold trigger_scrape, trigger_check, trigger_create, trigger_mark,
    trigger_announce, try_except, Database.create_scraper_run.
  unfold bind at 1. unfold bind at 1. unfold get_state at 1.
  rewrite Hidle. unfold ret at 1.
  unfold bind at 1. rewrite Hf.
  unfold bind at 1. unfold modify at 1.
  unfold bind at 1. rewrite notify_unfold. fold rid. fold story_types.
  match goal with
  | |- context [notify_each beh ?subs ?m ?s0] =>
      destruct (notify_each_delivered beh subs m s0 Hb) as [R _];
      pose proof (notify_each_frame beh subs m s0) as F;
      destruct (notify_each beh subs m s0) as [s1 r]
  end.
  cbn [fst snd] in *. subst r.
  destruct F as (F1 & F2 & F3 & F4 & F5 & F6).
  exists s1. repeat split; try assumption.
  unfold is_running, is_alive. rewrite F2, F5.
  cbn [current_thread threads set_threads set_current_thread].
  rewrite nth_error_app2 by lia. now rewrite Nat.sub_diag.
Qed.

Lemma run_thread_idle (t : nat) (w : WorkerWorld) (s : State) (th : Thread) :
  nth_error (threads s) t = Some th -> th_alive th = true ->
  is_running (fst (run_thread beh t w s)) = false.
Proof.
  intros Ht Ha. unfold is_running.
  now rewrite (run_thread_clears_current_thread beh t w s th Ht Ha).
Qed.

End TriggerMoreFacts.

(** X11: when the Run Store refuses the INSERT, [trigger_scrape]
    re-raises the store's exception and changes nothing: no thread is
    started, no notification is sent, the manager stays idle. *)
Theorem trigger_refused_by_store_changes_nothing :
  forall (beh : behaviour) (a : TriggerArgs) (tw : TriggerWorld)
         (s : State) (e : exn),
    ScraperManager.is_running s = false ->
    tw_create_fault tw = Some e ->
    ScraperManager.trigger_scrape beh a tw s = (s, inl e).
Proof.
  intros beh a tw s e Hidle Hf.
  unfold ScraperManager.trigger_scrape, ScraperManager.trigger_check,
    ScraperManager.trigger_create, try_except,
    Database.create_scraper_run, bind, get_state.
  rewrite Hidle, Hf. cbn [ret]. now destruct (is_Exception e).
Qed.

Lemma trigger_refused_by_store_changes_nothing_witness :
  ScraperManager.is_running Scenario.idle = false /\
  tw_create_fault Cases.tw_down = Some Scenario.db_down /\
  ScraperManager.trigger_scrape Scenario.quiet Scenario.admin_args
    Cases.tw_down Scenario.idle
  = (Scenario.idle, inl Scenario.db_down).
Proof.
  split; [reflexivity|]. split; [reflexivity|].
  apply (trigger_refused_by_store_changes_nothing Scenario.quiet
           Scenario.admin_args Cases.tw_down Scenario.idle Scenario.db_down);
    reflexivity.
Defined.

(** X12: on an idle manager whose Run Store accepts the INSERT,
    [trigger_scrape] returns the id the store assigned, whether or not
    the worker it starts has run by then.  When the worker has not run
    before [trigger_scrape] returns, the manager is at that moment
    running that run with the cancellation flag reset and an empty log
    sink, one live worker thread more holding the run's arguments, and
    one row more: status [running], trigger type [manual], the
    caller's username, and the limit, the story types (the five
    built-in ones when none are given) and the IPv4 setting as
    [config].  When the worker has run to its end between [start()] and
    the [running] notification, the manager is idle again when
    [trigger_scrape] returns, and the thread is no longer alive. *)
Theorem trigger_on_idle_starts_run :
  forall (beh : behaviour) (a : TriggerArgs) (tw : TriggerWorld) (s : State),
    ScraperManager.is_running s = false ->
    tw_create_fault tw = None ->
    raises_only_Exception beh ->
    let rid := next_id (store s) in
    let story_types :=
      match tr_story_types a with
      | None => ["topstories"; "newstories"; "showstories"; "askstories";
                 "jobstories"]
      | Some l => l
      end in
    let thread (alive : bool) :=
      {| th_run_id := rid; th_limit := tr_limit a;
         th_story_types := story_types; th_alive := alive |} in
    (exists c s1,
        Schedule.play beh
          [Schedule.Step 0; Schedule.Step 0; Schedule.Step 0;
           Schedule.Step 0]
          [Interleaving.calling a tw] s = ([c], s1) /\
        Interleaving.c_pc c = Interleaving.Returned rid /\
        ScraperManager.is_running s1 = true /\
        ScraperManager.get_current_run_id s1 = Some rid /\
        cancel_flag s1 = false /\
        log_capture s1 = Some LogCapture.init /\
        threads s1 = (threads s ++ [thread true])%list /\
        store s1
        = {| next_id := rid + 1;
             rows := (rows (store s)
                        ++ [{| run_id := rid; run_status := "running";
                               run_trigger_type := "manual";
                               run_triggered_by := tr_username a;
                               run_config :=
                                 {| cfg_limit := tr_limit a;
                                    cfg_story_types := story_types;
                                    cfg_force_ipv4 := tw_force_ipv4 tw |};
                               run_stories_processed := None;
                               run_errors_count := None;
                               run_logs := None; run_error_message := None;
                               run_completed_at := false |}])%list |}) /\
    (forall w : WorkerWorld,
        exists c s1,
          Schedule.play beh
            [Schedule.Step 0; Schedule.Step 0; Schedule.Step 0;
             Schedule.Work (List.length (threads s)) w; Schedule.Step 0]
            [Interleaving.calling a tw] s = ([c], s1) /\
          Interleaving.c_pc c = Interleaving.Returned rid /\
          ScraperManager.is_running s1 = false /\
          ScraperManager.get_current_run_id s1 = None /\
          threads s1 = (threads s ++ [thread false])%list).
Proof.
  intros beh a tw s Hidle Hf Hb rid story_types thread. split.
  - destruct (trigger_scrape_idle_store beh a tw s Hidle Hf Hb)
      as (s1 & T & Rest).
    destruct (play_trigger beh a tw s s1 rid [] T) as (c & P & Pc).
    exists c, s1. split; [exact P|]. split; [exact Pc | exact Rest].
  - intros w. exact (play_worker_before_announce beh a tw w s Hidle Hf Hb).
Qed.

Lemma trigger_on_idle_starts_run_witness :
  ScraperManager.is_running Scenario.idle = false /\
  raises_only_Exception Scenario.quiet /\
  (exists c s1,
      Schedule.play Scenario.quiet
        [Schedule.Step 0; Schedule.Step 0; Schedule.Step 0; Schedule.Step 0]
        [Interleaving.calling Cases.default_args Scenario.tw_ok]
        Scenario.idle = ([c], s1) /\
      Interleaving.c_pc c = Interleaving.Returned 1 /\
      ScraperManager.is_running s1 = true /\
      threads s1
      = [{| th_run_id := 1; th_limit := 100;
            th_story_types := ["topstories"; "newstories"; "showstories";
                               "askstories"; "jobstories"];
            th_alive := true |}]) /\
  (exists c s1,
      Schedule.play Scenario.quiet
        [Schedule.Step 0; Schedule.Step 0; Schedule.Step 0;
         Schedule.Work 0 Scenario.three_markers; Schedule.Step 0]
        [Interleaving.calling Cases.default_args Scenario.tw_ok]
        Scenario.idle = ([c], s1) /\
      Interleaving.c_pc c = Interleaving.Returned 1 /\
      ScraperManager.is_running s1 = false /\
      map th_alive (threads s1) = [false]).
Proof.
  split; [reflexivity|]. split; [exact quiet_raises_only_Exception|].
  destruct (trigger_on_idle_starts_run Scenario.quiet Cases.default_args
              Scenario.tw_ok Scenario.idle eq_refl eq_refl
              quiet_raises_only_Exception) as [Late Early].
  split.
  - destruct Late as (c & s1 & P & Pc & R & _ & _ & _ & Th & _).
    exists c, s1. repeat split; assumption.
  - destruct (Early Scenario.three_markers) as (c & s1 & P & Pc & R & _ & Th).
    exists c, s1. split; [exact P|]. split; [exact Pc|]. split; [exact R|].
    rewrite Th. reflexivity.
Defined.

(** X13: once a worker has run, however it ended, the next
    [trigger_scrape] is not refused as already running: with a Run
    Store that accepts the INSERT it returns the new run's id, whether
    the new worker runs after the return or has run to its end before
    the [running] notification. *)
Theorem trigger_succeeds_after_any_worker_end :
  forall (beh : behaviour) (t : nat) (w : WorkerWorld) (s : State)
         (th : Thread) (a : TriggerArgs) (tw : TriggerWorld),
    nth_error (threads s) t = Some th -> th_alive th = true ->
    tw_create_fault tw = None ->
    raises_only_Exception beh ->
    let s' := fst (ScraperManager.run_thread beh t w s) in
    let rid := next_id (store s') in
    snd (ScraperManager.trigger_scrape beh a tw s') = inr rid /\
    (forall w' : WorkerWorld,
        exists c s2,
          Schedule.play beh
            [Schedule.Step 0; Schedule.Step 0; Schedule.Step 0;
             Schedule.Work (List.length (threads s')) w'; Schedule.Step 0]
            [Interleaving.calling a tw] s' = ([c], s2) /\
          Interleaving.c_pc c = Interleaving.Returned rid).
Proof.
  intros beh t w s th a tw Ht Ha Hf Hb s' rid.
  pose proof (run_thread_idle beh t w s th Ht Ha) as Hidle. fold s' in Hidle.
  split.
  - destruct (trigger_scrape_idle_store beh a tw s' Hidle Hf Hb)
      as (s2 & T & _).
    now rewrite T.
  - intros w'.
    destruct (play_worker_before_announce beh a tw w' s' Hidle Hf Hb)
      as (c & s2 & P & Pc & _).
    exists c, s2. split; [exact P | exact Pc].
Qed.

Lemma trigger_succeeds_after_any_worker_end_witness :
  nth_error (threads Scenario.started) 0 = Some Cases.thread1 /\
  raises_only_Exception Scenario.quiet /\
  snd (ScraperManager.trigger_scrape Scenario.quiet Scenario.admin_args
         Scenario.tw_ok
         (fst (ScraperManager.run_thread Scenario.quiet 0
                 Scenario.everything_fails Scenario.started)))
  = inr 2.
Proof.
  split; [reflexivity|]. split; [exact quiet_raises_only_Exception|].
  exact (proj1 (trigger_succeeds_after_any_worker_end Scenario.quiet 0
                  Scenario.everything_fails Scenario.started Cases.thread1
                  Scenario.admin_args Scenario.tw_ok eq_refl eq_refl eq_refl
                  quiet_raises_only_Exception)).
Defined.

(* ================================================================== *)
(** * Sessions and admin users *)

Section DictFacts.
Import Auth.

Lemma dict_get_set_same (k : string) (v : Session) (d : Sessions) :
  dict_get k (dict_set k v d) = Some v.
Proof.
  induction d as [|[k' v'] d IH]; cbn [dict_set dict_get].
  - now rewrite String.eqb_refl.
  - destruct (String.eqb k k') eqn:E; cbn [dict_get].
    + now rewrite String.eqb_refl.
    + now rewrite E.
Qed.

Lemma dict_get_set_other (k k' : string) (v : Session) (d : Sessions) :
  k <> k' -> dict_get k' (dict_set k v d) = dict_get k' d.
Proof.
  intros N. induction d as [|[k0 v0] d IH]; cbn [dict_set dict_get].
  - apply not_eq_sym in N. apply String.eqb_neq in N. now rewrite N.
  - destruct (String.eqb k k0) eqn:E; cbn [dict_get].
    + apply String.eqb_eq in E. subst k0.
      apply not_eq_sym in N. apply String.eqb_neq in N. now rewrite N.
    + now rewrite IH.
Qed.

Lemma dict_get_del_same (k : string) (d : Sessions) :
  dict_get k (dict_del k d) = None.
Proof.
  unfold dict_del. induction d as [|[k' v'] d IH]; cbn [filter dict_get fst];
    [reflexivity|].
  destruct (String.eqb k k') eqn:E; cbn [negb dict_get]; [exact IH|].
  now rewrite E.
Qed.

Lemma dict_get_del_other (k k' : string) (d : Sessions) :
  k <> k' -> dict_get k' (dict_del k d) = dict_get k' d.
Proof.
  intros N. unfold dict_del.
  induction d as [|[k0 v0] d IH]; cbn [filter dict_get fst]; [reflexivity|].
  destruct (String.eqb k k0) eqn:E; cbn [negb dict_get].
  - apply String.eqb_eq in E. subst k0.
    apply not_eq_sym in N. apply String.eqb_neq in N. now rewrite N.
  - now rewrite IH.
Qed.

Lemma dict_del_absent (k : string) (d : Sessions) :
  dict_get k d = None -> dict_del k d = d.
Proof.
  unfold dict_del. induction d as [|[k' v'] d IH]; cbn [filter dict_get fst];
    [reflexivity|].
  destruct (String.eqb k k') eqn:E; [discriminate|].
  intros H. cbn [negb]. now rewrite IH.
Qed.

End DictFacts.

(** X14: a session is valid up to and including the instant 24 hours
    after its creation: looked up no later than that, it yields the
    user id it was created for, and its expiry moves to 24 hours after
    the lookup. *)
Theorem session_valid_for_24_hours :
  forall (uid : Z) (token : string) (t0 now_check now_renew : Z)
         (s : Auth.AuthState),
    now_check <= t0 + Auth.hours24 ->
    let s1 := fst (Auth.create_session uid token t0 s) in
    exists s2,
      Auth.get_session_user_id token now_check now_renew s1
      = (s2, inr (Some uid)) /\
      Auth.dict_get token (Auth.sessions s2)
      = Some {| Auth.user_id := uid;
                Auth.expires_at := now_renew + Auth.hours24 |} /\
      Auth.users s2 = Auth.users s.
Proof.
  intros uid token t0 now_check now_renew s H s1. subst s1.
  unfold Auth.create_session, Auth.get_session_user_id.
  cbn [fst Auth.sessions Auth.with_sessions].
  rewrite dict_get_set_same. cbn [Auth.expires_at Auth.user_id].
  assert (E : (now_check >? t0 + Auth.hours24) = false).
  { rewrite Z.gtb_ltb. apply Z.ltb_ge. exact H. }
  rewrite E. eexists. split; [reflexivity|].
  cbn [Auth.sessions Auth.with_sessions Auth.users].
  now rewrite dict_get_set_same.
Qed.

Lemma session_valid_for_24_hours_witness :
  1000 + Auth.hours24 <= 1000 + Auth.hours24 /\
  exists s2,
    Auth.get_session_user_id "tok" (1000 + Auth.hours24)
      (1001 + Auth.hours24) Cases.logged_in
    = (s2, inr (Some 1)) /\
    Auth.dict_get "tok" (Auth.sessions s2)
    = Some {| Auth.user_id := 1;
              Auth.expires_at := 1001 + Auth.hours24 + Auth.hours24 |}.
Proof.
  split; [apply Z.le_refl|].
  destruct (session_valid_for_24_hours 1 "tok" 1000 (1000 + Auth.hours24)
              (1001 + Auth.hours24) Cases.one_admin (Z.le_refl _))
    as (s2 & G & D & _).
  exists s2. split; assumption.
Defined.

(** X15: a session looked up after its expiry yields [None] and is
    deleted by that lookup: every later lookup yields [None] whatever
    the clock reads, while the other sessions and the users are
    untouched. *)
Theorem expired_session_is_deleted :
  forall (session_id : string) (now_check now_renew : Z)
         (s : Auth.AuthState) (session : Auth.Session),
    Auth.dict_get session_id (Auth.sessions s) = Some session ->
    Auth.expires_at session < now_check ->
    exists s',
      Auth.get_session_user_id session_id now_check now_renew s
      = (s', inr None) /\
      (forall c r, Auth.get_session_user_id session_id c r s'
                   = (s', inr None)) /\
      (forall k, k <> session_id ->
                 Auth.dict_get k (Auth.sessions s')
                 = Auth.dict_get k (Auth.sessions s)) /\
      Auth.users s' = Auth.users s.
Proof.
  intros session_id now_check now_renew s session Hg He.
  unfold Auth.get_session_user_id at 1. rewrite Hg.
  assert (E : (now_check >? Auth.expires_at session) = true).
  { rewrite Z.gtb_ltb. apply Z.ltb_lt. exact He. }
  rewrite E. eexists. split; [reflexivity|]. split; [|split].
  - intros c r. unfold Auth.get_session_user_id.
    cbn [Auth.sessions Auth.with_sessions].
    now rewrite dict_get_del_same.
  - intros k N. cbn [Auth.sessions Auth.with_sessions].
    apply dict_get_del_other. congruence.
  - reflexivity.
Qed.

Lemma expired_session_is_deleted_witness :
  Auth.dict_get "tok" (Auth.sessions Cases.logged_in)
  = Some {| Auth.user_id := 1; Auth.expires_at := 1000 + Auth.hours24 |} /\
  1000 + Auth.hours24 < 1001 + Auth.hours24 /\
  exists s',
    Auth.get_session_user_id "tok" (1001 + Auth.hours24)
      (1001 + Auth.hours24) Cases.logged_in
    = (s', inr None) /\
    Auth.get_session_user_id "tok" 0 0 s' = (s', inr None).
Proof.
  split; [reflexivity|]. split; [reflexivity|].
  destruct (expired_session_is_deleted "tok" (1001 + Auth.hours24)
              (1001 + Auth.hours24) Cases.logged_in
              {| Auth.user_id := 1; Auth.expires_at := 1000 + Auth.hours24 |}
              eq_refl eq_refl)
    as (s' & G & L & _).
  exists s'. split; [exact G | apply L].
Defined.

Section SessionFacts.
Import Auth.

Lemma get_session_valid (session_id : string) (now_check now_renew : Z)
      (s : AuthState) (session : Session) :
  dict_get session_id (sessions s) = Some session ->
  now_check <= expires_at session ->
  get_session_user_id session_id now_check now_renew s
  = (with_sessions
       (dict_set session_id
          {| user_id := user_id session;
             expires_at := now_renew + hours24 |} (sessions s)) s,
     inr (Some (user_id session))).
Proof.
  intros Hg Hle. unfold get_session_user_id. rewrite Hg.
  assert (E : (now_check >? expires_at session) = false).
  { rewrite Z.gtb_ltb. apply Z.ltb_ge. exact Hle. }
  now rewrite E.
Qed.

Lemma touch_all_alive (session_id : string) (readings : list (Z * Z)) :
  forall (s : AuthState) (session : Session),
    dict_get session_id (sessions s) = Some session ->
    kept_alive (expires_at session) readings ->
    snd (touch_all session_id readings s)
    = map (fun _ => inr (Some (user_id session))) readings.
Proof.
  induction readings as [|[c r] rest IH]; intros s session Hg Hk;
    [reflexivity|].
  destruct Hk as [Hc Hrest]. cbn [touch_all map].
  rewrite (get_session_valid session_id c r s session Hg Hc).
  specialize (IH (with_sessions
                    (dict_set session_id
                       {| user_id := user_id session;
                          expires_at := r + hours24 |} (sessions s)) s)
                 {| user_id := user_id session; expires_at := r + hours24 |}).
  cbn [sessions with_sessions user_id expires_at] in IH.
  specialize (IH (dict_get_set_same _ _ _) Hrest).
  destruct (touch_all session_id rest _) as [s2 rs]. cbn [snd] in *.
  now rewrite IH.
Qed.

End SessionFacts.

(** X16: a session that is looked up at least once every 24 hours never
    expires: when each lookup happens no later than 24 hours after the
    previous one (the first no later than the current expiry), every
    lookup yields the session's user id, however many there are. *)
Theorem session_kept_alive_by_use :
  forall (session_id : string) (readings : list (Z * Z))
         (s : Auth.AuthState) (session : Auth.Session),
    Auth.dict_get session_id (Auth.sessions s) = Some session ->
    kept_alive (Auth.expires_at session) readings ->
    snd (touch_all session_id readings s)
    = map (fun _ => inr (Some (Auth.user_id session))) readings.
Proof.
  intros session_id readings s session Hg Hk.
  now apply touch_all_alive.
Qed.

Lemma session_kept_alive_by_use_witness :
  Auth.dict_get "tok" (Auth.sessions Cases.logged_in)
  = Some {| Auth.user_id := 1; Auth.expires_at := 1000 + Auth.hours24 |} /\
  kept_alive (1000 + Auth.hours24)
    [(1000 + Auth.hours24, 1000 + Auth.hours24);
     (1000 + 2 * Auth.hours24, 1000 + 2 * Auth.hours24);
     (1000 + 3 * Auth.hours24, 1000 + 3 * Auth.hours24)] /\
  snd (touch_all "tok"
         [(1000 + Auth.hours24, 1000 + Auth.hours24);
          (1000 + 2 * Auth.hours24, 1000 + 2 * Auth.hours24);
          (1000 + 3 * Auth.hours24, 1000 + 3 * Auth.hours24)]
         Cases.logged_in)
  = [inr (Some 1); inr (Some 1); inr (Some 1)].
Proof.
  assert (K : kept_alive (1000 + Auth.hours24)
                [(1000 + Auth.hours24, 1000 + Auth.hours24);
                 (1000 + 2 * Auth.hours24, 1000 + 2 * Auth.hours24);
                 (1000 + 3 * Auth.hours24, 1000 + 3 * Auth.hours24)]).
  { cbn [kept_alive]. repeat split; vm_compute; discriminate. }
  split; [reflexivity|]. split; [exact K|].
  exact (session_kept_alive_by_use "tok" _ Cases.logged_in
           {| Auth.user_id := 1; Auth.expires_at := 1000 + Auth.hours24 |}
           eq_refl K).
Defined.

(** X17: after [delete_session] the session yields [None] at every
    later lookup; the other sessions and the users are untouched, and
    deleting a session that does not exist changes nothing. *)
Theorem delete_session_forgets_the_session :
  forall (session_id : string) (s : Auth.AuthState),
    let s' := fst (Auth.delete_session session_id s) in
    snd (Auth.delete_session session_id s) = inr tt /\
    (forall c r, Auth.get_session_user_id session_id c r s'
                 = (s', inr None)) /\
    (forall k, k <> session_id ->
               Auth.dict_get k (Auth.sessions s')
               = Auth.dict_get k (Auth.sessions s)) /\
    Auth.users s' = Auth.users s /\
    (Auth.dict_get session_id (Auth.sessions s) = None -> s' = s).
Proof.
  intros session_id s s'. subst s'. unfold Auth.delete_session.
  destruct (Auth.dict_get session_id (Auth.sessions s)) as [v|] eqn:G;
    cbn [fst snd].
  - split; [reflexivity|]. split; [|split; [|split]].
    + intros c r. unfold Auth.get_session_user_id.
      cbn [Auth.sessions Auth.with_sessions].
      now rewrite dict_get_del_same.
    + intros k N. cbn [Auth.sessions Auth.with_sessions].
      apply dict_get_del_other. congruence.
    + reflexivity.
    + discriminate.
  - split; [reflexivity|]. split; [|repeat split].
    intros c r. unfold Auth.get_session_user_id. now rewrite G.
Qed.

Lemma delete_session_forgets_the_session_witness :
  Auth.dict_get "tok" (Auth.sessions Cases.logged_in) <> None /\
  Auth.get_session_user_id "tok" 1000 1000
    (fst (Auth.delete_session "tok" Cases.logged_in))
  = (fst (Auth.delete_session "tok" Cases.logged_in), inr None) /\
  Auth.dict_get "gone" (Auth.sessions Cases.logged_in) = None /\
  fst (Auth.delete_session "gone" Cases.logged_in) = Cases.logged_in.
Proof.
  split; [discriminate|].
  destruct (delete_session_forgets_the_session "tok" Cases.logged_in)
    as (_ & L & _).
  split; [apply L|]. split; [reflexivity|].
  destruct (delete_session_forgets_the_session "gone" Cases.logged_in)
    as (_ & _ & _ & _ & N).
  apply N. reflexivity.
Defined.

(** ** Admin users *)

Section AdminFacts.
Import Auth.
Variable hash_password : string -> string -> error + string.
Variable verify_password : string -> string -> error + bool.

Lemma find_snoc {X} (f : X -> bool) (l : list X) (x : X) :
  find f l = None -> f x = true -> find f (l ++ [x]) = Some x.
Proof.
  intros Hn Hx. induction l as [|y l IH]; cbn [app find] in *.
  - now rewrite Hx.
  - destruct (f y); [discriminate | now apply IH].
Qed.

Lemma authenticate_found (username password : string) (w : DbWorld)
      (s : AuthState) (u : AdminUser) :
  dw_fault1 w = None ->
  find (fun x => String.eqb (au_username x) username) (ut_rows (users s))
  = Some u ->
  verify_password password (au_password_hash u) = inr true ->
  match dw_fault2 w with
  | Some e => is_Exception e = true
  | None => True
  end ->
  snd (authenticate_user verify_password username password w s)
  = inr (Some (au_id u)) /\
  sessions (fst (authenticate_user verify_password username password w s))
  = sessions s /\
  (dw_fault2 w <> None ->
   fst (authenticate_user verify_password username password w s) = s).
Proof.
  intros Hf Hu Hv H2.
  unfold authenticate_user, abind, get_admin_user_by_username, db.
  rewrite Hf, Hu, Hv. unfold update_admin_last_login, db.
  destruct (dw_fault2 w) as [e|].
  - cbn [error_is_Exception]. rewrite H2. repeat split.
  - repeat split. intros N. now elim N.
Qed.

End AdminFacts.

(** X18: [authenticate_user] returns [None] when no admin has the
    username, and when the password does not verify against the stored
    hash; in both cases nothing is written (no last-login update, no
    session). *)
Theorem authenticate_rejects_and_writes_nothing :
  forall (verify_password : string -> string -> error + bool)
         (username password : string) (w : Auth.DbWorld)
         (s : Auth.AuthState),
    Auth.dw_fault1 w = None ->
    match find (fun x => String.eqb (Auth.au_username x) username)
               (Auth.ut_rows (Auth.users s)) with
    | None => True
    | Some u =>
        verify_password password (Auth.au_password_hash u) = inr false
    end ->
    Auth.authenticate_user verify_password username password w s
    = (s, inr None).
Proof.
  intros verify_password username password w s Hf H.
  unfold Auth.authenticate_user, Auth.abind, Auth.get_admin_user_by_username,
    Auth.db.
  rewrite Hf.
  destruct (find _ (Auth.ut_rows (Auth.users s))) as [u|]; [|reflexivity].
  now rewrite H.
Qed.

Lemma authenticate_rejects_and_writes_nothing_witness :
  Auth.dw_fault1 Cases.db_up = None /\
  Auth.authenticate_user Cases.toy_verify "alice" "looking-glass"
    Cases.db_up Cases.one_admin
  = (Cases.one_admin, inr None) /\
  Auth.authenticate_user Cases.toy_verify "bob" "wonderland"
    Cases.db_up Cases.one_admin
  = (Cases.one_admin, inr None).
Proof.
  split; [reflexivity|]. split.
  - apply (authenticate_rejects_and_writes_nothing Cases.toy_verify "alice"
             "looking-glass" Cases.db_up Cases.one_admin); reflexivity.
  - apply (authenticate_rejects_and_writes_nothing Cases.toy_verify "bob"
             "wonderland" Cases.db_up Cases.one_admin);
      [reflexivity | exact I].
Defined.

(** X19: when the username exists and the password verifies,
    [authenticate_user] returns the user's id even if the last-login
    update is refused by the database with an [Exception]: the failure
    is swallowed and the state is left as it was. *)
Theorem authentication_survives_last_login_failure :
  forall (verify_password : string -> string -> error + bool)
         (username password : string) (w : Auth.DbWorld)
         (s : Auth.AuthState) (u : Auth.AdminUser) (e : exn),
    Auth.dw_fault1 w = None ->
    find (fun x => String.eqb (Auth.au_username x) username)
         (Auth.ut_rows (Auth.users s))
    = Some u ->
    verify_password password (Auth.au_password_hash u) = inr true ->
    Auth.dw_fault2 w = Some e -> is_Exception e = true ->
    Auth.authenticate_user verify_password username password w s
    = (s, inr (Some (Auth.au_id u))).
Proof.
  intros verify_password username password w s u e Hf Hu Hv H2 HE.
  destruct (authenticate_found verify_password username password w s u
              Hf Hu Hv) as (R & _ & S).
  { now rewrite H2. }
  assert (N : Auth.dw_fault2 w <> None) by congruence.
  specialize (S N).
  destruct (Auth.authenticate_user verify_password username password w s)
    as [s' r].
  cbn [fst snd] in *. now subst.
Qed.

Lemma authentication_survives_last_login_failure_witness :
  Auth.dw_fault2 Cases.db_flaky = Some Scenario.db_down /\
  is_Exception Scenario.db_down = true /\
  Cases.toy_verify "wonderland" "ab$wonderland" = inr true /\
  Auth.authenticate_user Cases.toy_verify "alice" "wonderland"
    Cases.db_flaky Cases.one_admin
  = (Cases.one_admin, inr (Some 1)).
Proof.
  split; [reflexivity|]. split; [reflexivity|]. split; [reflexivity|].
  apply (authentication_survives_last_login_failure Cases.toy_verify "alice"
           "wonderland" Cases.db_flaky Cases.one_admin Cases.alice
           Scenario.db_down); reflexivity.
Defined.

(** X20: [create_admin] refuses a username that already exists with
    [ValueError("User '<name>' already exists")]; the password is not
    hashed and nothing is inserted. *)
Theorem create_admin_refuses_existing_username :
  forall (hash_password : string -> string -> error + string)
         (username password : string) (email : option string)
         (w : Auth.DbWorld) (s : Auth.AuthState) (u : Auth.AdminUser),
    Auth.dw_fault1 w = None ->
    find (fun x => String.eqb (Auth.au_username x) username)
         (Auth.ut_rows (Auth.users s))
    = Some u ->
    Auth.create_admin hash_password username password email w s
    = (s, inl (ValueError ("User '" ++ username ++ "' already exists"))).
Proof.
  intros hash_password username password email w s u Hf Hu.
  unfold Auth.create_admin, Auth.abind, Auth.get_admin_user_by_username,
    Auth.db.
  now rewrite Hf, Hu.
Qed.

Lemma create_admin_refuses_existing_username_witness :
  Auth.dw_fault1 Cases.db_up = None /\
  Auth.create_admin Cases.toy_hash "alice" "other" None Cases.db_up
    Cases.one_admin
  = (Cases.one_admin, inl (ValueError "User 'alice' already exists")).
Proof.
  split; [reflexivity|].
  apply (create_admin_refuses_existing_username Cases.toy_hash "alice" "other"
           None Cases.db_up Cases.one_admin Cases.alice); reflexivity.
Defined.

(** X21: an admin created by [create_admin] can log in: when the
    username is new, the password hashes, and the hash verifies against
    the password, [create_admin] returns the id the table assigned and
    a following [authenticate_user] with the same username and
    password returns that id. *)
Theorem created_admin_can_authenticate :
  forall (hash_password : string -> string -> error + string)
         (verify_password : string -> string -> error + bool)
         (username password h : string) (email : option string)
         (w w' : Auth.DbWorld) (s : Auth.AuthState),
    Auth.dw_fault1 w = None -> Auth.dw_fault2 w = None ->
    Auth.dw_fault1 w' = None -> Auth.dw_fault2 w' = None ->
    find (fun x => String.eqb (Auth.au_username x) username)
         (Auth.ut_rows (Auth.users s))
    = None ->
    hash_password (Auth.dw_salt w) password = inr h ->
    verify_password password h = inr true ->
    let id := Auth.ut_next_id (Auth.users s) in
    snd (Auth.create_admin hash_password username password email w s)
    = inr id /\
    snd (Auth.authenticate_user verify_password username password w'
           (fst (Auth.create_admin hash_password username password email
                   w s)))
    = inr (Some id).
Proof.
  intros hash_password verify_password username password h email w w' s
         Hf1 Hf2 Hf1' Hf2' Hn Hh Hv id.
  assert (C : Auth.create_admin hash_password username password email w s
              = (Auth.with_users
                   {| Auth.ut_next_id := id + 1;
                      Auth.ut_rows :=
                        (Auth.ut_rows (Auth.users s)
                           ++ [{| Auth.au_id := id;
                                  Auth.au_username := username;
                                  Auth.au_password_hash := h;
                                  Auth.au_email := email;
                                  Auth.au_last_login := None |}])%list |} s,
                 inr id)).
  { unfold Auth.create_admin, Auth.abind, Auth.get_admin_user_by_username,
      Auth.create_admin_user, Auth.db.
    now rewrite Hf1, Hn, Hh, Hf2. }
  rewrite C. cbn [fst snd]. split; [reflexivity|].
  refine (proj1 (authenticate_found verify_password username password w' _
                   {| Auth.au_id := id; Auth.au_username := username;
                      Auth.au_password_hash := h; Auth.au_email := email;
                      Auth.au_last_login := None |} Hf1' _ Hv _)).
  - cbn [Auth.users Auth.with_users Auth.ut_rows].
    apply find_snoc; [exact Hn|]. cbn [Auth.au_username].
    apply String.eqb_refl.
  - now rewrite Hf2'.
Qed.

Lemma created_admin_can_authenticate_witness :
  find (fun x => String.eqb (Auth.au_username x) "bob")
       (Auth.ut_rows (Auth.users Cases.one_admin)) = None /\
  Cases.toy_hash "ab" "secret" = inr "ab$secret" /\
  Cases.toy_verify "secret" "ab$secret" = inr true /\
  snd (Auth.create_admin Cases.toy_hash "bob" "secret" None Cases.db_up
         Cases.one_admin) = inr 2 /\
  snd (Auth.authenticate_user Cases.toy_verify "bob" "secret" Cases.db_up
         (fst (Auth.create_admin Cases.toy_hash "bob" "secret" None
                 Cases.db_up Cases.one_admin)))
  = inr (Some 2).
Proof.
  split; [reflexivity|]. split; [reflexivity|]. split; [reflexivity|].
  exact (created_admin_can_authenticate Cases.toy_hash Cases.toy_verify
           "bob" "secret" "ab$secret" None Cases.db_up Cases.db_up
           Cases.one_admin eq_refl eq_refl eq_refl eq_refl eq_refl eq_refl
           eq_refl).
Defined.

(** ** Logging in and out *)

Section LoginFacts.
Import Auth AdminServer.
Variable verify_password : string -> string -> error + bool.

Lemma find_by_id_map (f : AdminUser -> AdminUser) (id : Z)
      (l : list AdminUser) :
  (forall x, au_id (f x) = au_id x) ->
  find (fun x => au_id x =? id) (map f l)
  = option_map f (find (fun x => au_id x =? id) l).
Proof.
  intros Hf. induction l as [|x l IH]; cbn [map find option_map];
    [reflexivity|].
  rewrite Hf. destruct (au_id x =? id); [reflexivity | exact IH].
Qed.

Lemma find_by_id_of_member (u : AdminUser) (l : list AdminUser) :
  In u l ->
  exists u', find (fun x => au_id x =? au_id u) l = Some u' /\
             au_id u' = au_id u.
Proof.
  induction l as [|x l IH]; intros H; [contradiction|]. cbn [find].
  destruct (au_id x =? au_id u) eqn:E.
  - exists x. split; [reflexivity|]. now apply Z.eqb_eq.
  - destruct H as [->|H]; [now rewrite Z.eqb_refl in E | now apply IH].
Qed.

(** [get_current_user] on a live session of a user of the table. *)
Lemma get_current_user_live (sid : string) (now_check now_renew : Z)
      (s : AuthState) (session : Session) (u : AdminUser) :
  dict_get sid (sessions s) = Some session ->
  now_check <= expires_at session ->
  user_id session <> 0 ->
  In u (ut_rows (users s)) -> au_id u = user_id session ->
  exists info,
    get_current_user sid now_check now_renew None s
    = (with_sessions
         (dict_set sid {| user_id := user_id session;
                          expires_at := now_renew + hours24 |}
                   (sessions s)) s,
       inr (Some info)) /\
    ui_id info = user_id session.
Proof.
  intros Hg Hle Hnz Hin Hid.
  unfold get_current_user, abind.
  rewrite (get_session_valid sid now_check now_renew s session Hg Hle).
  apply Z.eqb_neq in Hnz. rewrite Hnz.
  unfold get_admin_user_by_id, db. cbn [users with_sessions].
  destruct (find_by_id_of_member u _ Hin) as (u' & F & I).
  rewrite Hid in F. rewrite F. cbn [option_map].
  eexists. split; [reflexivity|]. cbn [ui_id]. congruence.
Qed.

End LoginFacts.

(** X22: [login] answers an unknown username and a wrong password in
    the same way, HTTP 401 "Invalid username or password", and creates
    no session and writes nothing in either case. *)
Theorem login_failure_is_uniform :
  forall (verify_password : string -> string -> error + bool)
         (request : AdminServer.LoginRequest) (w : AdminServer.LoginWorld)
         (s : Auth.AuthState),
    Auth.dw_fault1 (AdminServer.lw_db w) = None ->
    match find (fun x => String.eqb (Auth.au_username x)
                                    (AdminServer.lq_username request))
               (Auth.ut_rows (Auth.users s)) with
    | None => True
    | Some u =>
        verify_password (AdminServer.lq_password request)
                        (Auth.au_password_hash u) = inr false
    end ->
    AdminServer.login verify_password request w s
    = (s, inl (HTTPException 401 "Invalid username or password")).
Proof.
  intros verify_password request w s Hf H.
  unfold AdminServer.login, Auth.abind, Auth.authenticate_user,
    Auth.abind, Auth.get_admin_user_by_username, Auth.db.
  rewrite Hf.
  destruct (find _ (Auth.ut_rows (Auth.users s))) as [u|]; [|reflexivity].
  now rewrite H.
Qed.

Lemma login_failure_is_uniform_witness :
  Auth.dw_fault1 (AdminServer.lw_db Cases.alice_logs_in) = None /\
  AdminServer.login Cases.toy_verify
    {| AdminServer.lq_username := "alice";
       AdminServer.lq_password := "looking-glass" |}
    Cases.alice_logs_in Cases.one_admin
  = (Cases.one_admin, inl (HTTPException 401 "Invalid username or password"))
  /\
  AdminServer.login Cases.toy_verify
    {| AdminServer.lq_username := "bob";
       AdminServer.lq_password := "wonderland" |}
    Cases.alice_logs_in Cases.one_admin
  = (Cases.one_admin, inl (HTTPException 401 "Invalid username or password")).
Proof.
  split; [reflexivity|]. split.
  - apply (login_failure_is_uniform Cases.toy_verify
             {| AdminServer.lq_username := "alice";
                AdminServer.lq_password := "looking-glass" |}
             Cases.alice_logs_in Cases.one_admin); reflexivity.
  - apply (login_failure_is_uniform Cases.toy_verify
             {| AdminServer.lq_username := "bob";
                AdminServer.lq_password := "wonderland" |}
             Cases.alice_logs_in Cases.one_admin);
      [reflexivity | exact I].
Defined.

(** X23: [logout] does not end the session on the server.  After a
    successful [login] (which returns the user's id and sets the
    session cookie), a [logout], and then a request that still
    presents the same cookie value within 24 hours of the login, the
    request is authenticated as the same user. *)
Theorem logout_leaves_session_valid :
  forall (verify_password : string -> string -> error + bool)
         (request : AdminServer.LoginRequest) (w : AdminServer.LoginWorld)
         (s : Auth.AuthState) (u : Auth.AdminUser),
    Auth.dw_fault1 (AdminServer.lw_db w) = None ->
    Auth.dw_fault2 (AdminServer.lw_db w) = None ->
    AdminServer.lw_fault3 w = None ->
    find (fun x => String.eqb (Auth.au_username x)
                              (AdminServer.lq_username request))
         (Auth.ut_rows (Auth.users s))
    = Some u ->
    verify_password (AdminServer.lq_password request)
                    (Auth.au_password_hash u) = inr true ->
    Auth.au_id u <> 0 ->
    AdminServer.lw_token w <> "" ->
    AdminServer.lw_check w <= AdminServer.lw_now w + Auth.hours24 ->
    exists s1 resp,
      AdminServer.login verify_password request w s
      = (s1, inr (resp, AdminServer.lw_token w)) /\
      AdminServer.lr_id resp = Auth.au_id u /\
      forall c r,
        c <= AdminServer.lw_renew w + Auth.hours24 ->
        exists s2 info,
          Auth.abind AdminServer.logout
            (fun _ => AdminServer.get_me (Some (AdminServer.lw_token w))
                        c r None) s1
          = (s2, inr info) /\
          Auth.ui_id info = Auth.au_id u.
Proof.
  intros verify_password request w s u Hf1 Hf2 Hf3 Hu Hv Hnz Htok Hle.
  set (upd := fun x : Auth.AdminUser =>
                if Auth.au_id x =? Auth.au_id u
                then {| Auth.au_id := Auth.au_id x;
                        Auth.au_username := Auth.au_username x;
                        Auth.au_password_hash := Auth.au_password_hash x;
                        Auth.au_email := Auth.au_email x;
                        Auth.au_last_login :=
                          Some (Auth.dw_now (AdminServer.lw_db w)) |}
                else x).
  set (sa := Auth.with_users
               {| Auth.ut_next_id := Auth.ut_next_id (Auth.users s);
                  Auth.ut_rows := map upd (Auth.ut_rows (Auth.users s)) |} s).
  assert (HA : Auth.authenticate_user verify_password
                 (AdminServer.lq_username request)
                 (AdminServer.lq_password request) (AdminServer.lw_db w) s
               = (sa, inr (Some (Auth.au_id u)))).
  { unfold Auth.authenticate_user, Auth.abind,
      Auth.get_admin_user_by_username, Auth.update_admin_last_login, Auth.db.
    now rewrite Hf1, Hu, Hv, Hf2. }
  set (sess := {| Auth.user_id := Auth.au_id u;
                  Auth.expires_at := AdminServer.lw_now w + Auth.hours24 |}).
  set (sc := Auth.with_sessions
               (Auth.dict_set (AdminServer.lw_token w) sess (Auth.sessions sa))
               sa).
  assert (Hin : In (upd u) (Auth.ut_rows (Auth.users sc))).
  { cbn [Auth.users Auth.with_sessions Auth.with_users Auth.ut_rows sc sa].
    apply in_map. apply find_some in Hu. apply Hu. }
  assert (Hid : Auth.au_id (upd u) = Auth.au_id u).
  { unfold upd. now rewrite Z.eqb_refl. }
  destruct (get_current_user_live (AdminServer.lw_token w)
              (AdminServer.lw_check w) (AdminServer.lw_renew w) sc sess
              (upd u)) as (info & G & I); try assumption.
  { cbn [Auth.sessions Auth.with_sessions sc]. apply dict_get_set_same. }
  cbn [Auth.user_id sess] in G, I.
  eexists _, {| AdminServer.lr_id := Auth.ui_id info;
                AdminServer.lr_username := Auth.ui_username info;
                AdminServer.lr_email := Auth.ui_email info |}.
  split; [|split].
  - unfold AdminServer.login, Auth.abind at 1. rewrite HA.
    apply Z.eqb_neq in Hnz. rewrite Hnz.
    unfold Auth.abind at 1. unfold Auth.create_session at 1. fold sess.
    fold sc. unfold Auth.abind. rewrite Hf3, G. reflexivity.
  - exact I.
  - intros c r Hc.
    match goal with
    | |- context [Auth.abind AdminServer.logout _ ?st] => set (s1 := st)
    end.
    destruct (get_current_user_live (AdminServer.lw_token w) c r s1
                {| Auth.user_id := Auth.au_id u;
                   Auth.expires_at := AdminServer.lw_renew w + Auth.hours24 |}
                (upd u)) as (info' & G' & I'); try assumption.
    { cbn [Auth.sessions Auth.with_sessions s1]. apply dict_get_set_same. }
    cbn [Auth.user_id] in G', I'.
    unfold Auth.abind at 1, AdminServer.logout, Auth.aret.
    unfold AdminServer.get_me, AdminServer.get_current_user_from_cookie.
    destruct (AdminServer.lw_token w) as [|ch tk] eqn:T; [congruence|].
    unfold Auth.abind. rewrite G'. eexists _, info'. split; [reflexivity|].
    exact I'.
Qed.

Lemma logout_leaves_session_valid_witness :
  Cases.toy_verify "wonderland" "ab$wonderland" = inr true /\
  AdminServer.lw_check Cases.alice_logs_in
  <= AdminServer.lw_now Cases.alice_logs_in + Auth.hours24 /\
  exists s1 resp,
    AdminServer.login Cases.toy_verify
      {| AdminServer.lq_username := "alice";
         AdminServer.lq_password := "wonderland" |}
      Cases.alice_logs_in Cases.one_admin
    = (s1, inr (resp, "tok")) /\
    AdminServer.lr_id resp = 1 /\
    exists s2 info,
      Auth.abind AdminServer.logout
        (fun _ => AdminServer.get_me (Some "tok") 5000 5000 None) s1
      = (s2, inr info) /\
      Auth.ui_id info = 1.
Proof.
  split; [reflexivity|].
  assert (L : AdminServer.lw_check Cases.alice_logs_in
              <= AdminServer.lw_now Cases.alice_logs_in + Auth.hours24)
    by (vm_compute; discriminate).
  split; [exact L|].
  destruct (logout_leaves_session_valid Cases.toy_verify
              {| AdminServer.lq_username := "alice";
                 AdminServer.lq_password := "wonderland" |}
              Cases.alice_logs_in Cases.one_admin Cases.alice
              eq_refl eq_refl eq_refl eq_refl eq_refl
              ltac:(discriminate) ltac:(discriminate) L)
    as (s1 & resp & G & I & After).
  exists s1, resp. split; [exact G|]. split; [exact I|].
  apply (After 5000 5000). vm_compute. discriminate.
Defined.

(* ================================================================== *)
(** * The trigger and cancel routes *)

Section RouteFacts.
Import ScraperRouter.
Variable beh : behaviour.

Lemma with_world_same (a : App) : with_world (world a) a = a.
Proof. now destruct a. Qed.

(** The first two statements of both routes, with the variable set. *)
Lemma route_prologue {X} (k : R X) (a : App) (c : ascii) (url : string) :
  env_db_url a = Some (String c url) ->
  rbind get_db_url (fun db_url => rbind (get_scraper_manager db_url)
                                        (fun _ => k)) a
  = k (fst (get_scraper_manager (String c url) a)).
Proof.
  intros He. unfold rbind at 1, get_db_url. rewrite He.
  unfold rbind, get_scraper_manager.
  now destruct (scraper_manager a).
Qed.

Lemma manager_there (a : App) (url : string) :
  scraper_manager a <> None -> fst (get_scraper_manager url a) = a.
Proof.
  intros H. unfold get_scraper_manager.
  destruct (scraper_manager a); [reflexivity | now elim H].
Qed.

Lemma manager_kept (a : App) (url : string) :
  store (world (fst (get_scraper_manager url a))) = store (world a) /\
  threads (world (fst (get_scraper_manager url a))) = threads (world a) /\
  audit_log (fst (get_scraper_manager url a)) = audit_log a /\
  env_db_url (fst (get_scraper_manager url a)) = env_db_url a.
Proof.
  unfold get_scraper_manager. destruct (scraper_manager a); repeat split.
Qed.

End RouteFacts.

(** X24: a trigger request that arrives while a run is active is
    answered HTTP 500 "Failed to start scraper", not 409: the 409 the
    route raises for it is caught by its own [except Exception]
    clause.  Nothing is changed. *)
Theorem trigger_route_answers_500_while_running :
  forall (beh : behaviour) (request : ScraperRouter.ScraperTriggerRequest)
         (tw : TriggerWorld) (audit_fault : option exn)
         (a : ScraperRouter.App) (c : ascii) (url : string),
    ScraperRouter.env_db_url a = Some (String c url) ->
    ScraperRouter.scraper_manager a <> None ->
    ScraperManager.is_running (ScraperRouter.world a) = true ->
    ScraperRouter.trigger_scraper beh request tw audit_fault a
    = (a, inl (HTTPException 500 "Failed to start scraper")).
Proof.
  intros beh request tw audit_fault a c url He Hm Hr.
  unfold ScraperRouter.trigger_scraper, ScraperRouter.rtry,
    ScraperRouter.trigger_scraper_body.
  rewrite (route_prologue _ a c url He), (manager_there a _ Hm).
  unfold ScraperRouter.rbind at 1, ScraperRouter.lift at 1.
  rewrite Hr, with_world_same. reflexivity.
Qed.

Lemma trigger_route_answers_500_while_running_witness :
  ScraperManager.is_running (ScraperRouter.world Cases.app_running) = true /\
  ScraperRouter.trigger_scraper Scenario.quiet Cases.zero_limit
    Scenario.tw_ok None Cases.app_running
  = (Cases.app_running, inl (HTTPException 500 "Failed to start scraper")).
Proof.
  split; [reflexivity|].
  apply (trigger_route_answers_500_while_running Scenario.quiet
           Cases.zero_limit Scenario.tw_ok None Cases.app_running
           "p"%char "ostgresql://db");
    [reflexivity | discriminate | reflexivity].
Defined.

(** X25: a trigger request on an idle manager, with the Run Store and
    the audit table accepting their INSERTs, is answered with the new
    run's id and status "started"; a worker thread has been started
    for that run, holding the request's limit, or 100 when the request
    gives none or gives 0, and the request's story types, or the five
    built-in ones; the audit table has one entry more, for that run,
    recording the limit and the story types as requested. *)
Theorem trigger_route_starts_run :
  forall (beh : behaviour) (request : ScraperRouter.ScraperTriggerRequest)
         (tw : TriggerWorld) (a : ScraperRouter.App) (c : ascii)
         (url : string),
    ScraperRouter.env_db_url a = Some (String c url) ->
    ScraperManager.is_running
      (ScraperRouter.world
         (fst (ScraperRouter.get_scraper_manager (String c url) a)))
    = false ->
    tw_create_fault tw = None ->
    raises_only_Exception beh ->
    let rid := next_id (store (ScraperRouter.world a)) in
    exists a' th,
      ScraperRouter.trigger_scraper beh request tw None a
      = (a', inr {| ScraperRouter.resp_run_id := rid;
                    ScraperRouter.resp_status := "started" |}) /\
      threads (ScraperRouter.world a')
      = (threads (ScraperRouter.world a) ++ [th])%list /\
      th_run_id th = rid /\
      th_limit th
      = match ScraperRouter.rq_limit request with
        | None => 100
        | Some n => if n =? 0 then 100 else n
        end /\
      th_story_types th
      = match ScraperRouter.rq_story_types request with
        | None => default_story_types
        | Some l => l
        end /\
      ScraperRouter.audit_log a'
      = (ScraperRouter.audit_log a
           ++ [{| ScraperRouter.ae_username := "system";
                  ScraperRouter.ae_action := "scraper_start";
                  ScraperRouter.ae_entity_type := Some "scraper_run";
                  ScraperRouter.ae_entity_id := Some rid;
                  ScraperRouter.ae_new_value :=
                    Some {| ScraperRouter.tp_limit :=
                              ScraperRouter.rq_limit request;
                            ScraperRouter.tp_story_types :=
                              ScraperRouter.rq_story_types request |} |}])%list.
Proof.
  intros beh request tw a c url He Hidle Hf Hb rid.
  destruct (manager_kept a (String c url)) as (KS & KT & KA & _).
  set (a0 := fst (ScraperRouter.get_scraper_manager (String c url) a)) in *.
  destruct (trigger_scrape_idle_store beh
              {| tr_limit := ScraperRouter.limit_or_100
                               (ScraperRouter.rq_limit request);
                 tr_story_types := ScraperRouter.rq_story_types request;
                 tr_username := "admin" |} tw (ScraperRouter.world a0)
              Hidle Hf Hb)
    as (s1 & T & _ & _ & _ & _ & Th & _).
  cbn [tr_limit tr_story_types] in Th. rewrite KS in T, Th.
  rewrite KT in Th. fold rid in T, Th.
  unfold ScraperRouter.limit_or_100 in Th.
  unfold ScraperRouter.trigger_scraper, ScraperRouter.rtry,
    ScraperRouter.trigger_scraper_body.
  rewrite (route_prologue _ a c url He). fold a0.
  unfold ScraperRouter.rbind at 1, ScraperRouter.lift at 1.
  rewrite Hidle, with_world_same.
  unfold ScraperRouter.rbind at 1, ScraperRouter.lift at 1. rewrite T.
  unfold ScraperRouter.rbind, ScraperRouter.log_audit, ScraperRouter.rret.
  eexists _, _. split; [reflexivity|].
  cbn [ScraperRouter.world ScraperRouter.audit_log ScraperRouter.with_world].
  split; [exact Th|]. rewrite KA. repeat split.
Qed.

Lemma trigger_route_starts_run_witness :
  ScraperRouter.env_db_url Cases.app_new = Some "postgresql://db" /\
  raises_only_Exception Scenario.quiet /\
  exists a',
    ScraperRouter.trigger_scraper Scenario.quiet Cases.zero_limit
      Scenario.tw_ok None Cases.app_new
    = (a', inr {| ScraperRouter.resp_run_id := 1;
                  ScraperRouter.resp_status := "started" |}) /\
    map th_limit (threads (ScraperRouter.world a')) = [100] /\
    map ScraperRouter.ae_new_value (ScraperRouter.audit_log a')
    = [Some {| ScraperRouter.tp_limit := Some 0;
               ScraperRouter.tp_story_types := None |}].
Proof.
  split; [reflexivity|]. split; [exact quiet_raises_only_Exception|].
  destruct (trigger_route_starts_run Scenario.quiet Cases.zero_limit
              Scenario.tw_ok Cases.app_new "p"%char "ostgresql://db"
              eq_refl eq_refl eq_refl quiet_raises_only_Exception)
    as (a' & th & T & Th & _ & L & _ & Au).
  exists a'. split; [exact T|].
  rewrite Th, Au, map_app. cbn [map]. rewrite L. split; reflexivity.
Defined.

(** X26: when the run was started but the audit INSERT is refused with
    an [Exception] (other than a [RuntimeError]), the trigger request
    is answered HTTP 500 "Failed to start scraper" although the run
    was started: its row is in the Run Store, a worker thread has been
    started for it, and no audit entry exists. *)
Theorem trigger_route_reports_failure_of_started_run :
  forall (beh : behaviour) (request : ScraperRouter.ScraperTriggerRequest)
         (tw : TriggerWorld) (e : exn) (a : ScraperRouter.App) (c : ascii)
         (url : string),
    ScraperRouter.env_db_url a = Some (String c url) ->
    ScraperManager.is_running
      (ScraperRouter.world
         (fst (ScraperRouter.get_scraper_manager (String c url) a)))
    = false ->
    tw_create_fault tw = None ->
    raises_only_Exception beh ->
    is_Exception e = true -> exn_cls e <> RuntimeError ->
    let rid := next_id (store (ScraperRouter.world a)) in
    exists a' th r,
      ScraperRouter.trigger_scraper beh request tw (Some e) a
      = (a', inl (HTTPException 500 "Failed to start scraper")) /\
      threads (ScraperRouter.world a')
      = (threads (ScraperRouter.world a) ++ [th])%list /\
      th_run_id th = rid /\
      In r (rows (store (ScraperRouter.world a'))) /\
      run_id r = rid /\
      next_id (store (ScraperRouter.world a')) = rid + 1 /\
      ScraperRouter.audit_log a' = ScraperRouter.audit_log a.
Proof.
  intros beh request tw e a c url He Hidle Hf Hb HE HR rid.
  destruct (manager_kept a (String c url)) as (KS & KT & KA & _).
  set (a0 := fst (ScraperRouter.get_scraper_manager (String c url) a)) in *.
  destruct (trigger_scrape_idle_store beh
              {| tr_limit := ScraperRouter.limit_or_100
                               (ScraperRouter.rq_limit request);
                 tr_story_types := ScraperRouter.rq_story_types request;
                 tr_username := "admin" |} tw (ScraperRouter.world a0)
              Hidle Hf Hb)
    as (s1 & T & _ & _ & _ & _ & Th & St).
  rewrite KS in T, Th, St. rewrite KT in Th. fold rid in T, Th, St.
  unfold ScraperRouter.trigger_scraper, ScraperRouter.rtry,
    ScraperRouter.trigger_scraper_body.
  rewrite (route_prologue _ a c url He). fold a0.
  unfold ScraperRouter.rbind at 1, ScraperRouter.lift at 1.
  rewrite Hidle, with_world_same.
  unfold ScraperRouter.rbind at 1, ScraperRouter.lift at 1. rewrite T.
  unfold ScraperRouter.rbind, ScraperRouter.log_audit.
  assert (NR : error_is_RuntimeError (Raised e) = false).
  { cbn. destruct (exn_cls e); try reflexivity. now elim HR. }
  rewrite NR. cbn [error_is_Exception]. rewrite HE.
  eexists _, _, _. split; [reflexivity|].
  cbn [ScraperRouter.world ScraperRouter.audit_log ScraperRouter.with_world].
  split; [exact Th|]. split; [reflexivity|].
  rewrite St. cbn [rows next_id].
  split; [apply in_or_app; right; left; reflexivity|].
  repeat split. exact KA.
Qed.

Lemma trigger_route_reports_failure_of_started_run_witness :
  is_Exception Scenario.db_down = true /\
  exn_cls Scenario.db_down <> RuntimeError /\
  exists a',
    ScraperRouter.trigger_scraper Scenario.quiet Cases.zero_limit
      Scenario.tw_ok (Some Scenario.db_down) Cases.app_new
    = (a', inl (HTTPException 500 "Failed to start scraper")) /\
    map th_run_id (threads (ScraperRouter.world a')) = [1] /\
    ScraperRouter.audit_log a' = [].
Proof.
  split; [reflexivity|]. split; [discriminate|].
  destruct (trigger_route_reports_failure_of_started_run Scenario.quiet
              Cases.zero_limit Scenario.tw_ok Scenario.db_down Cases.app_new
              "p"%char "ostgresql://db" eq_refl eq_refl eq_refl
              quiet_raises_only_Exception eq_refl ltac:(discriminate))
    as (a' & th & r & T & Th & Rid & _ & _ & _ & Au).
  exists a'. split; [exact T|]. split; [|exact Au].
  rewrite Th, map_app. cbn [map]. now rewrite Rid.
Defined.



(** X28: without [SUPABASE_DB_URL] (unset or empty) the two routes
    answer differently: the trigger route HTTP 409 with the text
    "Missing SUPABASE_DB_URL environment variable", the cancel route
    HTTP 500 "Failed to cancel scraper"; neither creates the manager. *)
Theorem routes_without_database_url :
  forall (beh : behaviour) (request : ScraperRouter.ScraperTriggerRequest)
         (tw : TriggerWorld) (audit_fault : option exn)
         (a : ScraperRouter.App),
    (ScraperRouter.env_db_url a = None \/
     ScraperRouter.env_db_url a = Some "") ->
    ScraperRouter.trigger_scraper beh request tw audit_fault a
    = (a, inl (HTTPException 409
                 "Missing SUPABASE_DB_URL environment variable")) /\
    ScraperRouter.cancel_scraper beh audit_fault a
    = (a, inl (HTTPException 500 "Failed to cancel scraper")).
Proof.
  intros beh request tw audit_fault a He.
  unfold ScraperRouter.trigger_scraper, ScraperRouter.cancel_scraper,
    ScraperRouter.rtry, ScraperRouter.trigger_scraper_body,
    ScraperRouter.cancel_scraper_body, ScraperRouter.rbind,
    ScraperRouter.get_db_url.
  destruct He as [He|He]; rewrite He; split; reflexivity.
Qed.

Lemma routes_without_database_url_witness :
  ScraperRouter.env_db_url Cases.app_unconfigured = None /\
  ScraperRouter.trigger_scraper Scenario.quiet Cases.zero_limit
    Scenario.tw_ok None Cases.app_unconfigured
  = (Cases.app_unconfigured,
     inl (HTTPException 409 "Missing SUPABASE_DB_URL environment variable"))
  /\
  ScraperRouter.cancel_scraper Scenario.quiet None Cases.app_unconfigured
  = (Cases.app_unconfigured,
     inl (HTTPException 500 "Failed to cancel scraper")).
Proof.
  split; [reflexivity|].
  apply (routes_without_database_url Scenario.quiet Cases.zero_limit
           Scenario.tw_ok None Cases.app_unconfigured).
  left. reflexivity.
Defined.

(** X29: [get_current_scraper_run] only ever returns a row whose status
    is [running]; the test [last_run['status'] == 'completed'] that
    [get_scraper_status] applies to it therefore never holds, and the
    status route never reports a last completed run. *)
Theorem status_route_never_reports_last_completed :
  forall (db : RunStore),
    ScraperRouter.last_completed db = None /\
    (forall r, ScraperRouter.get_current_scraper_run db = Some r ->
               run_status r = "running" /\ In r (rows db)).
Proof.
  intros db.
  assert (H : forall r, ScraperRouter.get_current_scraper_run db = Some r ->
                        run_status r = "running" /\ In r (rows db)).
  { intros r Hr. unfold ScraperRouter.get_current_scraper_run,
      Database.running_rows in Hr.
    assert (I : In r (filter (fun x => String.eqb (run_status x) "running")
                             (rows db))).
    { destruct (filter _ (rows db)); [discriminate|].
      injection Hr as ->. now left. }
    apply filter_In in I. destruct I as [I E].
    split; [now apply String.eqb_eq | exact I]. }
  split; [|exact H].
  unfold ScraperRouter.last_completed.
  destruct (ScraperRouter.get_current_scraper_run db) as [r|] eqn:G;
    [|reflexivity].
  destruct (H r eq_refl) as [S _]. now rewrite S.
Qed.
